(** * The C boundary of the BosBase client (src/src/bosbase_c.cpp)

    A shallow embedding of the flat C interface that wraps the C++ client:
    the ownership protocol ([dup_string], [bosbase_free_string],
    [bosbase_free_error]), parameter marshalling ([parse_json_or],
    [parse_query], [parse_headers], [convert_files]), error translation
    ([make_error], [wrap_json], [wrap_void]), the three handle kinds and
    every entry point declared in include/bosbase_c.h.

    The C++ client, the JSON library and the C allocator are external to the
    boundary.  They are parameters of the development: the JSON parser and
    serialiser, the allocator's refusal to serve a request, and the replies
    of the inner client to each operation it is asked to perform.

    Modelling conventions.  A C string argument is an [option string]; an
    [int] argument is a [Z].  Handles are addresses into per-kind stores of
    live objects, and an out-parameter is the optional address of a caller
    variable, with [char*] and [bosbase_error*] variables kept apart as the
    C types keep them.  [ClientResponseError] derives from
    [std::exception], so a handler for the latter also catches the former.
    Serialising a document, allocating a handle with [new] and resolving a
    collection accessor are taken not to throw; a [malloc] that cannot be
    served returns null.  Behaviour the C++ standard leaves undefined is the
    outcome [Fault]. *)

From Stdlib Require Import ZArith Ascii String.
From stdpp Require Import gmap strings list fin_maps.

Set Warnings "-register-all".
Local Open Scope Z_scope.

(** ** Plain data crossing the boundary *)

(** Addresses of allocated objects. *)
Abbreviation loc := positive.

(** A [const char*] argument: [None] is the null pointer, [Some s] points to
    the NUL-terminated text [s]. *)
Abbreviation cstr := (option string).

(** A [char*] / [const char*] result.  The boundary hands out four kinds of
    character pointers: null, a block obtained from [malloc], a string
    literal of the program image, and a buffer that lives inside the inner
    client (the value of [std::string::c_str()]). *)
Inductive ptr :=
| Null
| Heap (a : loc)
| Literal (s : string)
| Internal (owner : N) (s : string).

(** [nlohmann::json]: a dynamically typed document.  Objects are
    [std::map]s from keys to documents. *)
Inductive json :=
| JNull
| JBool (b : bool)
| JInt (n : Z)
| JFloat (bits : Z)
| JString (s : string)
| JArray (items : list json)
| JObject (members : gmap string json).

Definition is_object (j : json) : bool :=
  match j with JObject _ => true | _ => false end.

Definition is_string (j : json) : bool :=
  match j with JString _ => true | _ => false end.

Definition is_null (j : json) : bool :=
  match j with JNull => true | _ => false end.

Definition is_number_integer (j : json) : bool :=
  match j with JInt _ => true | _ => false end.

(** [j.contains(key)]: only objects contain keys. *)
Definition contains (j : json) (key : string) : bool :=
  match j with
  | JObject m => bool_decide (is_Some (m !! key))
  | _ => false
  end.

(** [j[key]] on a document known to contain [key]. *)
Definition at_key (j : json) (key : string) : json :=
  match j with
  | JObject m => default JNull (m !! key)
  | _ => JNull
  end.

(** [payload[key] = v]: a null document silently becomes an object. *)
Definition set_key (key : string) (v : json) (j : json) : json :=
  match j with
  | JObject m => JObject (<[key := v]> m)
  | _ => JObject {[key := v]}
  end.

(** Conversion to the 32-bit [int] of the platform, as [static_cast<int>]
    and [get<int>()] perform it: the value is reduced modulo 2^32 into
    [-2^31, 2^31). *)
Definition to_int (z : Z) : Z :=
  (z + 2147483648) mod 4294967296 - 2147483648.

(** [struct bosbase_error] of the header. *)
Record bosbase_error := {
  status : Z;
  is_abort : Z;
  url : ptr;
  message : ptr;
  response : ptr
}.

(** [struct bosbase_file_attachment] of the header.  [data] is the byte
    buffer behind the pointer, when the pointer is not null. *)
Record bosbase_file_attachment := {
  field : cstr;
  filename : cstr;
  content_type : cstr;
  data : option (list Byte.byte);
  data_len : nat
}.

(** ** The inner client, as the boundary sees it *)

Module bosbase.

Record FileAttachment := {
  field : string;
  filename : string;
  contentType : string;
  data : list Byte.byte
}.

Record SendOptions := {
  method : string;
  body : json;
  query : gmap string json;
  headers : gmap string string;
  timeoutMs : option Z;
  files : list FileAttachment
}.

(** [opts.method = m] and the other field assignments. *)
Definition with_method (m : string) (o : SendOptions) : SendOptions :=
  {| method := m; body := body o; query := query o; headers := headers o;
     timeoutMs := timeoutMs o; files := files o |}.

Definition with_body (b : json) (o : SendOptions) : SendOptions :=
  {| method := method o; body := b; query := query o; headers := headers o;
     timeoutMs := timeoutMs o; files := files o |}.

Definition with_query (q : gmap string json) (o : SendOptions) : SendOptions :=
  {| method := method o; body := body o; query := q; headers := headers o;
     timeoutMs := timeoutMs o; files := files o |}.

Definition with_headers (h : gmap string string) (o : SendOptions) : SendOptions :=
  {| method := method o; body := body o; query := query o; headers := h;
     timeoutMs := timeoutMs o; files := files o |}.

Definition with_timeoutMs (t : Z) (o : SendOptions) : SendOptions :=
  {| method := method o; body := body o; query := query o;
     headers := headers o; timeoutMs := Some t; files := files o |}.

Definition with_files (f : list FileAttachment) (o : SendOptions) : SendOptions :=
  {| method := method o; body := body o; query := query o;
     headers := headers o; timeoutMs := timeoutMs o; files := f |}.

(** The HTTP-style failure signal and what its accessors return. *)
Record ClientResponseError := {
  status : Z;
  isAbort : bool;
  url : string;
  response : json;
  what : string
}.

(** Result of [sql->execute]; the two vectors are kept in the document
    form that assigning them to a [json] gives. *)
Record SQLExecuteResponse := {
  columns : json;
  rows : json;
  rowsAffected : option Z
}.

Module PubSubMessage.
Record t := {
  id : string;
  topic : string;
  created : string;
  data : json
}.
End PubSubMessage.

(** The per-collection service that [collection(name)] resolves on a
    client or on a batch. *)
Record RecordService := {
  owner : N;
  collection : string
}.

(** The closure given to [subscribe]: the captured C callback and the
    captured [user_data]. *)
Record Listener := {
  callback : N;
  user_data : Z
}.

End bosbase.

(** What a C++ call may raise.  [ClientResponseError] derives from
    [std::exception], so a handler for the latter also catches the former. *)
Inductive exception :=
| ClientResponseError (ex : bosbase.ClientResponseError)
| std_exception (what : string).

Definition what (e : exception) : string :=
  match e with
  | ClientResponseError ex => bosbase.what ex
  | std_exception w => w
  end.

(** Result types of the inner operations. *)
Inductive rty :=
| TVoid | TJson | TString | TSql | TMessage | TCancel | TClient | TBatch.

(** A [std::function<void()>] is [None] when empty and [Some k] when it
    holds the callable [k]; [std::unique_ptr] likewise. *)
Definition rdenote (t : rty) : Type :=
  match t with
  | TVoid => unit
  | TJson => json
  | TString => string
  | TSql => bosbase.SQLExecuteResponse
  | TMessage => bosbase.PubSubMessage.t
  | TCancel => option N
  | TClient => N
  | TBatch => option N
  end.

(** The operations the boundary asks of the inner library, one constructor
    per method it calls, with the arguments in the order of the call.  The
    first argument is the receiver: the client instance, the service that
    [collection(name)] resolved, or the batch accumulator. *)
Inductive inner_op : rty -> Type :=
| BosBase_new (base : string) (lang : string) : inner_op TClient
| BosBase_createBatch (pb : N) : inner_op TBatch
| AuthStore_token (pb : N) : inner_op TString
| AuthStore_record (pb : N) : inner_op TJson
| AuthStore_save (pb : N) (token : string) (record : json) : inner_op TVoid
| AuthStore_clear (pb : N) : inner_op TVoid
| BosBase_filter (pb : N) (expr : string) (params : gmap string json)
    : inner_op TString
| BosBase_send (pb : N) (path : string) (opts : bosbase.SendOptions)
    : inner_op TJson
| Record_getList (svc : bosbase.RecordService) (page perPage : Z)
    (skipTotal : bool) (query : gmap string json)
    (headers : gmap string string) (filter sort expand fields : option string)
    : inner_op TJson
| Record_getOne (svc : bosbase.RecordService) (id : string)
    (query : gmap string json) (headers : gmap string string)
    (expand fields : option string) : inner_op TJson
| Record_getFullList (svc : bosbase.RecordService) (batch : Z)
    (query : gmap string json) (headers : gmap string string)
    (filter sort expand fields : option string) : inner_op TJson
| Record_create (svc : bosbase.RecordService) (body : json)
    (query : gmap string json) (files : list bosbase.FileAttachment)
    (headers : gmap string string) (expand fields : option string)
    : inner_op TJson
| Record_update (svc : bosbase.RecordService) (id : string) (body : json)
    (query : gmap string json) (files : list bosbase.FileAttachment)
    (headers : gmap string string) (expand fields : option string)
    : inner_op TJson
| Record_remove (svc : bosbase.RecordService) (id : string) (body : json)
    (query : gmap string json) (headers : gmap string string)
    : inner_op TVoid
| Record_authWithPassword (svc : bosbase.RecordService)
    (identity password : string) (expand fields : option string)
    (body : json) (query : gmap string json) (headers : gmap string string)
    : inner_op TJson
| Record_authRefresh (svc : bosbase.RecordService) (body : json)
    (query : gmap string json) (headers : gmap string string)
    (expand fields : option string) : inner_op TJson
| Record_requestPasswordReset (svc : bosbase.RecordService) (email : string)
    (body : json) (query : gmap string json) (headers : gmap string string)
    : inner_op TVoid
| Record_confirmPasswordReset (svc : bosbase.RecordService)
    (token password passwordConfirm : string) (body : json)
    (query : gmap string json) (headers : gmap string string)
    : inner_op TVoid
| Record_requestVerification (svc : bosbase.RecordService) (email : string)
    (body : json) (query : gmap string json) (headers : gmap string string)
    : inner_op TVoid
| Record_confirmVerification (svc : bosbase.RecordService) (token : string)
    (body : json) (query : gmap string json) (headers : gmap string string)
    : inner_op TVoid
| Record_subscribe (svc : bosbase.RecordService) (topic : string)
    (cb : bosbase.Listener) (query : gmap string json)
    (headers : gmap string string) : inner_op TCancel
| Files_getURL (pb : N) (record : json) (filename : string)
    (thumb token : option string) (download : option bool)
    (query : gmap string json) : inner_op TString
| Files_getToken (pb : N) (query : gmap string json)
    (headers : gmap string string) : inner_op TJson
| Health_check (pb : N) (query : gmap string json)
    (headers : gmap string string) : inner_op TJson
| GraphQL_sendQuery (pb : N) (query : string) (variables : json)
    (q : gmap string json) (headers : gmap string string) : inner_op TJson
| SQL_execute (pb : N) (query : string) (params : gmap string json)
    (headers : gmap string string) : inner_op TSql
| Caches_list (pb : N) (query : gmap string json)
    (headers : gmap string string) : inner_op TJson
| Caches_create (pb : N) (name : string)
    (sizeBytes defaultTTL readTimeout : option Z) (body : json)
    (query : gmap string json) (headers : gmap string string)
    : inner_op TJson
| Caches_update (pb : N) (name : string) (body : json)
    (query : gmap string json) (headers : gmap string string)
    : inner_op TJson
| Caches_remove (pb : N) (name : string) (query : gmap string json)
    (headers : gmap string string) : inner_op TVoid
| Caches_setEntry (pb : N) (cache key : string) (value : json)
    (ttl : option Z) (body : json) (query : gmap string json)
    (headers : gmap string string) : inner_op TJson
| Caches_getEntry (pb : N) (cache key : string) (query : gmap string json)
    (headers : gmap string string) : inner_op TJson
| Caches_renewEntry (pb : N) (cache key : string) (ttl : option Z)
    (body : json) (query : gmap string json) (headers : gmap string string)
    : inner_op TJson
| Caches_deleteEntry (pb : N) (cache key : string)
    (query : gmap string json) (headers : gmap string string)
    : inner_op TVoid
| Backups_getFullList (pb : N) (query : gmap string json)
    (headers : gmap string string) : inner_op TJson
| Backups_create (pb : N) (basename : string) (query : gmap string json)
    (headers : gmap string string) : inner_op TJson
| Backups_upload (pb : N) (file : bosbase.FileAttachment)
    (query : gmap string json) (headers : gmap string string)
    : inner_op TJson
| Backups_remove (pb : N) (key : string) (query : gmap string json)
    (headers : gmap string string) : inner_op TVoid
| Backups_restore (pb : N) (key : string) (query : gmap string json)
    (headers : gmap string string) : inner_op TJson
| Backups_getDownloadURL (pb : N) (token key : string) : inner_op TString
| Crons_getFullList (pb : N) (query : gmap string json)
    (headers : gmap string string) : inner_op TJson
| Crons_run (pb : N) (jobId : string) (query : gmap string json)
    (headers : gmap string string) : inner_op TJson
| Logs_getList (pb : N) (page perPage : Z) (query : gmap string json)
    (headers : gmap string string) : inner_op TJson
| Logs_getOne (pb : N) (id : string) (query : gmap string json)
    (headers : gmap string string) : inner_op TJson
| Logs_getStats (pb : N) (query : gmap string json)
    (headers : gmap string string) : inner_op TJson
| Settings_getAll (pb : N) (query : gmap string json)
    (headers : gmap string string) : inner_op TJson
| Settings_update (pb : N) (body : json) (query : gmap string json)
    (headers : gmap string string) : inner_op TJson
| Settings_testS3 (pb : N) (filesystem : string) (query : gmap string json)
    (headers : gmap string string) : inner_op TJson
| Settings_testEmail (pb : N) (collection toEmail template : string)
    (query : gmap string json) (headers : gmap string string)
    : inner_op TJson
| Settings_generateAppleClientSecret (pb : N)
    (clientId teamId keyId privateKey : string) (duration : Z)
    (query : gmap string json) (headers : gmap string string)
    : inner_op TJson
| PubSub_publish (pb : N) (topic : string) (data : json)
    : inner_op TMessage
| PubSub_subscribe (pb : N) (topic : string) (cb : bosbase.Listener)
    : inner_op TCancel
| PubSub_disconnect (pb : N) : inner_op TVoid
| Batch_create (svc : bosbase.RecordService) (body : json)
    (query : gmap string json) (files : list bosbase.FileAttachment)
    (expand fields : option string) : inner_op TVoid
| Batch_upsert (svc : bosbase.RecordService) (body : json)
    (query : gmap string json) (files : list bosbase.FileAttachment)
    (expand fields : option string) : inner_op TVoid
| Batch_update (svc : bosbase.RecordService) (id : string) (body : json)
    (query : gmap string json) (files : list bosbase.FileAttachment)
    (expand fields : option string) : inner_op TVoid
| Batch_remove (svc : bosbase.RecordService) (id : string) (body : json)
    (query : gmap string json) : inner_op TVoid
| Batch_send (bs : N) (body : json) (query : gmap string json)
    (headers : gmap string string) : inner_op TJson
| Cancel_invoke (k : N) : inner_op TVoid.

(** What the inner library has been asked so far: the services resolved by
    [collection(name)] and the operations issued. *)
Inductive event :=
| Resolved (svc : bosbase.RecordService)
| Issued (t : rty) (o : inner_op t).

Definition is_issued (e : event) : bool :=
  match e with Issued _ _ => true | Resolved _ => false end.

(** The operations among the events of a trace. *)
Definition operations (tr : list event) : list event :=
  List.filter is_issued tr.

(** ** Memory *)

(** A [malloc]ed block: raw bytes before anything is stored, a
    NUL-terminated string once [memcpy] has filled it, or a
    [struct bosbase_error] once its five fields are assigned. *)
Inductive block :=
| BRaw (size : N)
| BString (s : string)
| BError (e : bosbase_error).

Record SubscriptionHolder := {
  cancel : option N
}.

Record bosbase_client := {
  impl : option N
}.

Record bosbase_subscription := {
  holder : option SubscriptionHolder
}.

Record bosbase_batch := {
  batch_owner : option loc;
  batch_impl : option N
}.

(** The part of the machine the boundary acts on: the [malloc] heap, the
    caller's [char*] and [bosbase_error*] variables that out-parameters
    point to, the three stores of [new]-allocated handle objects, and the
    trace of what the inner library was asked. *)
Record state := {
  heap : gmap loc block;
  out_values : gmap loc ptr;
  out_errors : gmap loc (option loc);
  clients : gmap loc bosbase_client;
  batches : gmap loc bosbase_batch;
  subscriptions : gmap loc bosbase_subscription;
  trace : list event
}.

Definition set_heap (h : gmap loc block) (s : state) : state :=
  {| heap := h; out_values := out_values s; out_errors := out_errors s;
     clients := clients s; batches := batches s;
     subscriptions := subscriptions s; trace := trace s |}.

Definition set_out_values (m : gmap loc ptr) (s : state) : state :=
  {| heap := heap s; out_values := m; out_errors := out_errors s;
     clients := clients s; batches := batches s;
     subscriptions := subscriptions s; trace := trace s |}.

Definition set_out_errors (m : gmap loc (option loc)) (s : state) : state :=
  {| heap := heap s; out_values := out_values s; out_errors := m;
     clients := clients s; batches := batches s;
     subscriptions := subscriptions s; trace := trace s |}.

Definition set_clients (m : gmap loc bosbase_client) (s : state) : state :=
  {| heap := heap s; out_values := out_values s; out_errors := out_errors s;
     clients := m; batches := batches s;
     subscriptions := subscriptions s; trace := trace s |}.

Definition set_batches (m : gmap loc bosbase_batch) (s : state) : state :=
  {| heap := heap s; out_values := out_values s; out_errors := out_errors s;
     clients := clients s; batches := m;
     subscriptions := subscriptions s; trace := trace s |}.

Definition set_subscriptions (m : gmap loc bosbase_subscription) (s : state)
  : state :=
  {| heap := heap s; out_values := out_values s; out_errors := out_errors s;
     clients := clients s; batches := batches s;
     subscriptions := m; trace := trace s |}.

Definition set_trace (tr : list event) (s : state) : state :=
  {| heap := heap s; out_values := out_values s; out_errors := out_errors s;
     clients := clients s; batches := batches s;
     subscriptions := subscriptions s; trace := tr |}.

(** How a piece of boundary code ends: normally with a value, by an
    exception that leaves it, or in undefined behaviour (a dangling handle
    dereferenced, a pointer released that [malloc] did not give). *)
Inductive result (A : Type) :=
| Done (a : A) (s : state)
| Thrown (e : exception) (s : state)
| Fault.

Arguments Done {A} a s.
Arguments Thrown {A} e s.
Arguments Fault {A}.

Definition M (A : Type) : Type := state -> result A.

Definition ret {A} (a : A) : M A := fun s => Done a s.

Definition bind {A B} (m : M A) (f : A -> M B) : M B :=
  fun s =>
    match m s with
    | Done a s' => f a s'
    | Thrown e s' => Thrown e s'
    | Fault => Fault
    end.

Definition throw {A} (e : exception) : M A := fun s => Thrown e s.

(** [try { m } catch (...) { h }]. *)
Definition try_catch {A} (m : M A) (h : exception -> M A) : M A :=
  fun s =>
    match m s with
    | Thrown e s' => h e s'
    | r => r
    end.

Definition fault {A} : M A := fun _ => Fault.

Definition get_state : M state := fun s => Done s s.

Definition modify (f : state -> state) : M unit := fun s => Done tt (f s).

Declare Scope boundary_scope.
Delimit Scope boundary_scope with boundary.
Notation "x <- m ;; k" := (bind m (fun x => k))
  (at level 100, m at next level, k at level 200, right associativity,
   only parsing) : boundary_scope.
Notation "m ;;; k" := (bind m (fun _ => k))
  (at level 100, k at level 200, right associativity, only parsing)
  : boundary_scope.
Local Open Scope boundary_scope.

(** ** The entry points as data

    One constructor per status-returning function of the header, with the
    arguments that follow the handle, in the order of the declaration. *)

Inductive client_call :=
| E_auth_save (token record_json : cstr) (out_error : option loc)
| E_filter (expr params_json : cstr) (out_string out_error : option loc)
| E_send (path method body_json query_json headers_json : cstr) (timeout_ms
    : Z) (files : option (list bosbase_file_attachment)) (files_len : nat)
    (out_json out_error : option loc)
| E_collection_get_list (collection_name : cstr) (page per_page : Z) (filter
    sort expand fields query_json headers_json : cstr) (out_json out_error :
    option loc)
| E_collection_get_one (collection_name record_id expand fields query_json
    headers_json : cstr) (out_json out_error : option loc)
| E_collection_get_full_list (collection_name : cstr) (batch_size : Z)
    (filter sort expand fields query_json headers_json : cstr) (out_json
    out_error : option loc)
| E_collection_create (collection_name body_json : cstr) (files : option
    (list bosbase_file_attachment)) (files_len : nat) (expand fields
    query_json headers_json : cstr) (out_json out_error : option loc)
| E_collection_update (collection_name record_id body_json : cstr) (files :
    option (list bosbase_file_attachment)) (files_len : nat) (expand fields
    query_json headers_json : cstr) (out_json out_error : option loc)
| E_collection_delete (collection_name record_id body_json query_json
    headers_json : cstr) (out_error : option loc)
| E_collection_auth_with_password (collection_name identity password
    body_json expand fields query_json headers_json : cstr) (out_json
    out_error : option loc)
| E_collection_auth_refresh (collection_name body_json expand fields
    query_json headers_json : cstr) (out_json out_error : option loc)
| E_collection_request_password_reset (collection_name email body_json
    query_json headers_json : cstr) (out_error : option loc)
| E_collection_confirm_password_reset (collection_name token password
    password_confirm body_json query_json headers_json : cstr) (out_error :
    option loc)
| E_collection_request_verification (collection_name email body_json
    query_json headers_json : cstr) (out_error : option loc)
| E_collection_confirm_verification (collection_name token body_json
    query_json headers_json : cstr) (out_error : option loc)
| E_files_get_url (record_json filename thumb token : cstr) (download : Z)
    (query_json : cstr) (out_url out_error : option loc)
| E_files_get_token (query_json headers_json : cstr) (out_json out_error :
    option loc)
| E_health_check (query_json headers_json : cstr) (out_json out_error :
    option loc)
| E_graphql_query (query variables_json query_json headers_json : cstr)
    (out_json out_error : option loc)
| E_sql_execute (query query_json headers_json : cstr) (out_json out_error :
    option loc)
| E_vector_create_collection (name config_json query_json headers_json :
    cstr) (out_json out_error : option loc)
| E_vector_update_collection (name config_json query_json headers_json :
    cstr) (out_json out_error : option loc)
| E_vector_list_collections (query_json headers_json : cstr) (out_json
    out_error : option loc)
| E_vector_delete_collection (name query_json headers_json : cstr)
    (out_error : option loc)
| E_vector_insert (collection_name document_json query_json headers_json :
    cstr) (out_json out_error : option loc)
| E_vector_batch_insert (collection_name options_json query_json
    headers_json : cstr) (out_json out_error : option loc)
| E_vector_get (collection_name id query_json headers_json : cstr) (out_json
    out_error : option loc)
| E_vector_update (collection_name id document_json query_json headers_json
    : cstr) (out_json out_error : option loc)
| E_vector_delete (collection_name id query_json headers_json : cstr)
    (out_error : option loc)
| E_vector_list (collection_name : cstr) (page per_page : Z) (query_json
    headers_json : cstr) (out_json out_error : option loc)
| E_vector_search (collection_name options_json query_json headers_json :
    cstr) (out_json out_error : option loc)
| E_cache_list (query_json headers_json : cstr) (out_json out_error : option
    loc)
| E_cache_create (name body_json query_json headers_json : cstr) (out_json
    out_error : option loc)
| E_cache_update (name body_json query_json headers_json : cstr) (out_json
    out_error : option loc)
| E_cache_delete (name query_json headers_json : cstr) (out_error : option
    loc)
| E_cache_set_entry (cache key value_json : cstr) (ttl_seconds : Z)
    (body_json query_json headers_json : cstr) (out_json out_error : option
    loc)
| E_cache_get_entry (cache key query_json headers_json : cstr) (out_json
    out_error : option loc)
| E_cache_renew_entry (cache key : cstr) (ttl_seconds : Z) (body_json
    query_json headers_json : cstr) (out_json out_error : option loc)
| E_cache_delete_entry (cache key query_json headers_json : cstr) (out_error
    : option loc)
| E_backup_get_full_list (query_json headers_json : cstr) (out_json
    out_error : option loc)
| E_backup_create (basename query_json headers_json : cstr) (out_json
    out_error : option loc)
| E_backup_upload (file : option bosbase_file_attachment) (query_json
    headers_json : cstr) (out_json out_error : option loc)
| E_backup_delete (key query_json headers_json : cstr) (out_error : option
    loc)
| E_backup_restore (key query_json headers_json : cstr) (out_json out_error
    : option loc)
| E_backup_get_download_url (token key : cstr) (out_url out_error : option
    loc)
| E_cron_get_full_list (query_json headers_json : cstr) (out_json out_error
    : option loc)
| E_cron_run (job_id query_json headers_json : cstr) (out_json out_error :
    option loc)
| E_logs_get_list (page per_page : Z) (query_json headers_json : cstr)
    (out_json out_error : option loc)
| E_logs_get_one (id query_json headers_json : cstr) (out_json out_error :
    option loc)
| E_logs_get_stats (query_json headers_json : cstr) (out_json out_error :
    option loc)
| E_settings_get_all (query_json headers_json : cstr) (out_json out_error :
    option loc)
| E_settings_update (body_json query_json headers_json : cstr) (out_json
    out_error : option loc)
| E_settings_test_s3 (filesystem query_json headers_json : cstr) (out_json
    out_error : option loc)
| E_settings_test_email (collection_name to_email template_name query_json
    headers_json : cstr) (out_json out_error : option loc)
| E_settings_generate_apple_client_secret (client_id team_id key_id
    private_key : cstr) (duration : Z) (query_json headers_json : cstr)
    (out_json out_error : option loc)
| E_langchaingo_completions (payload_json query_json headers_json : cstr)
    (out_json out_error : option loc)
| E_langchaingo_rag (payload_json query_json headers_json : cstr) (out_json
    out_error : option loc)
| E_langchaingo_query_documents (payload_json query_json headers_json :
    cstr) (out_json out_error : option loc)
| E_langchaingo_sql (payload_json query_json headers_json : cstr) (out_json
    out_error : option loc)
| E_llm_list_collections (query_json headers_json : cstr) (out_json
    out_error : option loc)
| E_llm_create_collection (name metadata_json query_json headers_json :
    cstr) (out_error : option loc)
| E_llm_delete_collection (name query_json headers_json : cstr) (out_error :
    option loc)
| E_llm_insert (collection_name document_json query_json headers_json :
    cstr) (out_json out_error : option loc)
| E_llm_get (collection_name id query_json headers_json : cstr) (out_json
    out_error : option loc)
| E_llm_update (collection_name id document_json query_json headers_json :
    cstr) (out_json out_error : option loc)
| E_llm_delete (collection_name id query_json headers_json : cstr)
    (out_error : option loc)
| E_llm_list (collection_name : cstr) (page per_page : Z) (query_json
    headers_json : cstr) (out_json out_error : option loc)
| E_llm_query (collection_name options_json query_json headers_json : cstr)
    (out_json out_error : option loc)
| E_pubsub_publish (topic data_json : cstr) (out_json out_error : option
    loc).

Inductive batch_call :=
| E_batch_collection_create (collection_name body_json : cstr) (files :
    option (list bosbase_file_attachment)) (files_len : nat) (expand fields
    query_json : cstr) (out_error : option loc)
| E_batch_collection_upsert (collection_name body_json : cstr) (files :
    option (list bosbase_file_attachment)) (files_len : nat) (expand fields
    query_json : cstr) (out_error : option loc)
| E_batch_collection_update (collection_name record_id body_json : cstr)
    (files : option (list bosbase_file_attachment)) (files_len : nat) (expand
    fields query_json : cstr) (out_error : option loc)
| E_batch_collection_delete (collection_name record_id body_json query_json
    : cstr) (out_error : option loc)
| E_batch_send (body_json query_json headers_json : cstr) (out_json
    out_error : option loc).

(** A call of a status-returning entry point: the handle it is given and
    the rest of its arguments. *)
Inductive entry :=
| OnClient (client : option loc) (c : client_call)
| OnBatch (batch : option loc) (c : batch_call).

(** The [query_json] argument of a call, for the entry points that have one. *)
Definition query_json_of_client (c : client_call) : option cstr :=
  match c with
  | E_send _ _ _ query_json _ _ _ _ _ _ => Some query_json
  | E_collection_get_list _ _ _ _ _ _ _ query_json _ _ _ => Some query_json
  | E_collection_get_one _ _ _ _ query_json _ _ _ => Some query_json
  | E_collection_get_full_list _ _ _ _ _ _ query_json _ _ _ => Some
      query_json
  | E_collection_create _ _ _ _ _ _ query_json _ _ _ => Some query_json
  | E_collection_update _ _ _ _ _ _ _ query_json _ _ _ => Some query_json
  | E_collection_delete _ _ _ query_json _ _ => Some query_json
  | E_collection_auth_with_password _ _ _ _ _ _ query_json _ _ _ => Some
      query_json
  | E_collection_auth_refresh _ _ _ _ query_json _ _ _ => Some query_json
  | E_collection_request_password_reset _ _ _ query_json _ _ => Some
      query_json
  | E_collection_confirm_password_reset _ _ _ _ _ query_json _ _ => Some
      query_json
  | E_collection_request_verification _ _ _ query_json _ _ => Some
      query_json
  | E_collection_confirm_verification _ _ _ query_json _ _ => Some
      query_json
  | E_files_get_url _ _ _ _ _ query_json _ _ => Some query_json
  | E_files_get_token query_json _ _ _ => Some query_json
  | E_health_check query_json _ _ _ => Some query_json
  | E_graphql_query _ _ query_json _ _ _ => Some query_json
  | E_sql_execute _ query_json _ _ _ => Some query_json
  | E_vector_create_collection _ _ query_json _ _ _ => Some query_json
  | E_vector_update_collection _ _ query_json _ _ _ => Some query_json
  | E_vector_list_collections query_json _ _ _ => Some query_json
  | E_vector_delete_collection _ query_json _ _ => Some query_json
  | E_vector_insert _ _ query_json _ _ _ => Some query_json
  | E_vector_batch_insert _ _ query_json _ _ _ => Some query_json
  | E_vector_get _ _ query_json _ _ _ => Some query_json
  | E_vector_update _ _ _ query_json _ _ _ => Some query_json
  | E_vector_delete _ _ query_json _ _ => Some query_json
  | E_vector_list _ _ _ query_json _ _ _ => Some query_json
  | E_vector_search _ _ query_json _ _ _ => Some query_json
  | E_cache_list query_json _ _ _ => Some query_json
  | E_cache_create _ _ query_json _ _ _ => Some query_json
  | E_cache_update _ _ query_json _ _ _ => Some query_json
  | E_cache_delete _ query_json _ _ => Some query_json
  | E_cache_set_entry _ _ _ _ _ query_json _ _ _ => Some query_json
  | E_cache_get_entry _ _ query_json _ _ _ => Some query_json
  | E_cache_renew_entry _ _ _ _ query_json _ _ _ => Some query_json
  | E_cache_delete_entry _ _ query_json _ _ => Some query_json
  | E_backup_get_full_list query_json _ _ _ => Some query_json
  | E_backup_create _ query_json _ _ _ => Some query_json
  | E_backup_upload _ query_json _ _ _ => Some query_json
  | E_backup_delete _ query_json _ _ => Some query_json
  | E_backup_restore _ query_json _ _ _ => Some query_json
  | E_cron_get_full_list query_json _ _ _ => Some query_json
  | E_cron_run _ query_json _ _ _ => Some query_json
  | E_logs_get_list _ _ query_json _ _ _ => Some query_json
  | E_logs_get_one _ query_json _ _ _ => Some query_json
  | E_logs_get_stats query_json _ _ _ => Some query_json
  | E_settings_get_all query_json _ _ _ => Some query_json
  | E_settings_update _ query_json _ _ _ => Some query_json
  | E_settings_test_s3 _ query_json _ _ _ => Some query_json
  | E_settings_test_email _ _ _ query_json _ _ _ => Some query_json
  | E_settings_generate_apple_client_secret _ _ _ _ _ query_json _ _ _ =>
      Some query_json
  | E_langchaingo_completions _ query_json _ _ _ => Some query_json
  | E_langchaingo_rag _ query_json _ _ _ => Some query_json
  | E_langchaingo_query_documents _ query_json _ _ _ => Some query_json
  | E_langchaingo_sql _ query_json _ _ _ => Some query_json
  | E_llm_list_collections query_json _ _ _ => Some query_json
  | E_llm_create_collection _ _ query_json _ _ => Some query_json
  | E_llm_delete_collection _ query_json _ _ => Some query_json
  | E_llm_insert _ _ query_json _ _ _ => Some query_json
  | E_llm_get _ _ query_json _ _ _ => Some query_json
  | E_llm_update _ _ _ query_json _ _ _ => Some query_json
  | E_llm_delete _ _ query_json _ _ => Some query_json
  | E_llm_list _ _ _ query_json _ _ _ => Some query_json
  | E_llm_query _ _ query_json _ _ _ => Some query_json
  | _ => None
  end.

Definition query_json_of_batch (c : batch_call) : option cstr :=
  match c with
  | E_batch_collection_create _ _ _ _ _ _ query_json _ => Some query_json
  | E_batch_collection_upsert _ _ _ _ _ _ query_json _ => Some query_json
  | E_batch_collection_update _ _ _ _ _ _ _ query_json _ => Some query_json
  | E_batch_collection_delete _ _ _ query_json _ => Some query_json
  | E_batch_send _ query_json _ _ _ => Some query_json
  end.

Definition query_json_of (e : entry) : option cstr :=
  match e with
  | OnClient _ c => query_json_of_client c
  | OnBatch _ c => query_json_of_batch c
  end.

(** The [headers_json] argument of a call, for the entry points that have one. *)
Definition headers_json_of_client (c : client_call) : option cstr :=
  match c with
  | E_send _ _ _ _ headers_json _ _ _ _ _ => Some headers_json
  | E_collection_get_list _ _ _ _ _ _ _ _ headers_json _ _ => Some
      headers_json
  | E_collection_get_one _ _ _ _ _ headers_json _ _ => Some headers_json
  | E_collection_get_full_list _ _ _ _ _ _ _ headers_json _ _ => Some
      headers_json
  | E_collection_create _ _ _ _ _ _ _ headers_json _ _ => Some headers_json
  | E_collection_update _ _ _ _ _ _ _ _ headers_json _ _ => Some
      headers_json
  | E_collection_delete _ _ _ _ headers_json _ => Some headers_json
  | E_collection_auth_with_password _ _ _ _ _ _ _ headers_json _ _ => Some
      headers_json
  | E_collection_auth_refresh _ _ _ _ _ headers_json _ _ => Some
      headers_json
  | E_collection_request_password_reset _ _ _ _ headers_json _ => Some
      headers_json
  | E_collection_confirm_password_reset _ _ _ _ _ _ headers_json _ => Some
      headers_json
  | E_collection_request_verification _ _ _ _ headers_json _ => Some
      headers_json
  | E_collection_confirm_verification _ _ _ _ headers_json _ => Some
      headers_json
  | E_files_get_token _ headers_json _ _ => Some headers_json
  | E_health_check _ headers_json _ _ => Some headers_json
  | E_graphql_query _ _ _ headers_json _ _ => Some headers_json
  | E_sql_execute _ _ headers_json _ _ => Some headers_json
  | E_vector_create_collection _ _ _ headers_json _ _ => Some headers_json
  | E_vector_update_collection _ _ _ headers_json _ _ => Some headers_json
  | E_vector_list_collections _ headers_json _ _ => Some headers_json
  | E_vector_delete_collection _ _ headers_json _ => Some headers_json
  | E_vector_insert _ _ _ headers_json _ _ => Some headers_json
  | E_vector_batch_insert _ _ _ headers_json _ _ => Some headers_json
  | E_vector_get _ _ _ headers_json _ _ => Some headers_json
  | E_vector_update _ _ _ _ headers_json _ _ => Some headers_json
  | E_vector_delete _ _ _ headers_json _ => Some headers_json
  | E_vector_list _ _ _ _ headers_json _ _ => Some headers_json
  | E_vector_search _ _ _ headers_json _ _ => Some headers_json
  | E_cache_list _ headers_json _ _ => Some headers_json
  | E_cache_create _ _ _ headers_json _ _ => Some headers_json
  | E_cache_update _ _ _ headers_json _ _ => Some headers_json
  | E_cache_delete _ _ headers_json _ => Some headers_json
  | E_cache_set_entry _ _ _ _ _ _ headers_json _ _ => Some headers_json
  | E_cache_get_entry _ _ _ headers_json _ _ => Some headers_json
  | E_cache_renew_entry _ _ _ _ _ headers_json _ _ => Some headers_json
  | E_cache_delete_entry _ _ _ headers_json _ => Some headers_json
  | E_backup_get_full_list _ headers_json _ _ => Some headers_json
  | E_backup_create _ _ headers_json _ _ => Some headers_json
  | E_backup_upload _ _ headers_json _ _ => Some headers_json
  | E_backup_delete _ _ headers_json _ => Some headers_json
  | E_backup_restore _ _ headers_json _ _ => Some headers_json
  | E_cron_get_full_list _ headers_json _ _ => Some headers_json
  | E_cron_run _ _ headers_json _ _ => Some headers_json
  | E_logs_get_list _ _ _ headers_json _ _ => Some headers_json
  | E_logs_get_one _ _ headers_json _ _ => Some headers_json
  | E_logs_get_stats _ headers_json _ _ => Some headers_json
  | E_settings_get_all _ headers_json _ _ => Some headers_json
  | E_settings_update _ _ headers_json _ _ => Some headers_json
  | E_settings_test_s3 _ _ headers_json _ _ => Some headers_json
  | E_settings_test_email _ _ _ _ headers_json _ _ => Some headers_json
  | E_settings_generate_apple_client_secret _ _ _ _ _ _ headers_json _ _ =>
      Some headers_json
  | E_langchaingo_completions _ _ headers_json _ _ => Some headers_json
  | E_langchaingo_rag _ _ headers_json _ _ => Some headers_json
  | E_langchaingo_query_documents _ _ headers_json _ _ => Some headers_json
  | E_langchaingo_sql _ _ headers_json _ _ => Some headers_json
  | E_llm_list_collections _ headers_json _ _ => Some headers_json
  | E_llm_create_collection _ _ _ headers_json _ => Some headers_json
  | E_llm_delete_collection _ _ headers_json _ => Some headers_json
  | E_llm_insert _ _ _ headers_json _ _ => Some headers_json
  | E_llm_get _ _ _ headers_json _ _ => Some headers_json
  | E_llm_update _ _ _ _ headers_json _ _ => Some headers_json
  | E_llm_delete _ _ _ headers_json _ => Some headers_json
  | E_llm_list _ _ _ _ headers_json _ _ => Some headers_json
  | E_llm_query _ _ _ headers_json _ _ => Some headers_json
  | _ => None
  end.

Definition headers_json_of_batch (c : batch_call) : option cstr :=
  match c with
  | E_batch_send _ _ headers_json _ _ => Some headers_json
  | _ => None
  end.

Definition headers_json_of (e : entry) : option cstr :=
  match e with
  | OnClient _ c => headers_json_of_client c
  | OnBatch _ c => headers_json_of_batch c
  end.

(** The error out-parameter of a call: every status-returning entry point
    has one, null or not. *)
Definition out_error_of_client (c : client_call) : option loc :=
  match c with
  | E_auth_save _ _ out_error => out_error
  | E_filter _ _ _ out_error => out_error
  | E_send _ _ _ _ _ _ _ _ _ out_error => out_error
  | E_collection_get_list _ _ _ _ _ _ _ _ _ _ out_error => out_error
  | E_collection_get_one _ _ _ _ _ _ _ out_error => out_error
  | E_collection_get_full_list _ _ _ _ _ _ _ _ _ out_error => out_error
  | E_collection_create _ _ _ _ _ _ _ _ _ out_error => out_error
  | E_collection_update _ _ _ _ _ _ _ _ _ _ out_error => out_error
  | E_collection_delete _ _ _ _ _ out_error => out_error
  | E_collection_auth_with_password _ _ _ _ _ _ _ _ _ out_error => out_error
  | E_collection_auth_refresh _ _ _ _ _ _ _ out_error => out_error
  | E_collection_request_password_reset _ _ _ _ _ out_error => out_error
  | E_collection_confirm_password_reset _ _ _ _ _ _ _ out_error => out_error
  | E_collection_request_verification _ _ _ _ _ out_error => out_error
  | E_collection_confirm_verification _ _ _ _ _ out_error => out_error
  | E_files_get_url _ _ _ _ _ _ _ out_error => out_error
  | E_files_get_token _ _ _ out_error => out_error
  | E_health_check _ _ _ out_error => out_error
  | E_graphql_query _ _ _ _ _ out_error => out_error
  | E_sql_execute _ _ _ _ out_error => out_error
  | E_vector_create_collection _ _ _ _ _ out_error => out_error
  | E_vector_update_collection _ _ _ _ _ out_error => out_error
  | E_vector_list_collections _ _ _ out_error => out_error
  | E_vector_delete_collection _ _ _ out_error => out_error
  | E_vector_insert _ _ _ _ _ out_error => out_error
  | E_vector_batch_insert _ _ _ _ _ out_error => out_error
  | E_vector_get _ _ _ _ _ out_error => out_error
  | E_vector_update _ _ _ _ _ _ out_error => out_error
  | E_vector_delete _ _ _ _ out_error => out_error
  | E_vector_list _ _ _ _ _ _ out_error => out_error
  | E_vector_search _ _ _ _ _ out_error => out_error
  | E_cache_list _ _ _ out_error => out_error
  | E_cache_create _ _ _ _ _ out_error => out_error
  | E_cache_update _ _ _ _ _ out_error => out_error
  | E_cache_delete _ _ _ out_error => out_error
  | E_cache_set_entry _ _ _ _ _ _ _ _ out_error => out_error
  | E_cache_get_entry _ _ _ _ _ out_error => out_error
  | E_cache_renew_entry _ _ _ _ _ _ _ out_error => out_error
  | E_cache_delete_entry _ _ _ _ out_error => out_error
  | E_backup_get_full_list _ _ _ out_error => out_error
  | E_backup_create _ _ _ _ out_error => out_error
  | E_backup_upload _ _ _ _ out_error => out_error
  | E_backup_delete _ _ _ out_error => out_error
  | E_backup_restore _ _ _ _ out_error => out_error
  | E_backup_get_download_url _ _ _ out_error => out_error
  | E_cron_get_full_list _ _ _ out_error => out_error
  | E_cron_run _ _ _ _ out_error => out_error
  | E_logs_get_list _ _ _ _ _ out_error => out_error
  | E_logs_get_one _ _ _ _ out_error => out_error
  | E_logs_get_stats _ _ _ out_error => out_error
  | E_settings_get_all _ _ _ out_error => out_error
  | E_settings_update _ _ _ _ out_error => out_error
  | E_settings_test_s3 _ _ _ _ out_error => out_error
  | E_settings_test_email _ _ _ _ _ _ out_error => out_error
  | E_settings_generate_apple_client_secret _ _ _ _ _ _ _ _ out_error =>
      out_error
  | E_langchaingo_completions _ _ _ _ out_error => out_error
  | E_langchaingo_rag _ _ _ _ out_error => out_error
  | E_langchaingo_query_documents _ _ _ _ out_error => out_error
  | E_langchaingo_sql _ _ _ _ out_error => out_error
  | E_llm_list_collections _ _ _ out_error => out_error
  | E_llm_create_collection _ _ _ _ out_error => out_error
  | E_llm_delete_collection _ _ _ out_error => out_error
  | E_llm_insert _ _ _ _ _ out_error => out_error
  | E_llm_get _ _ _ _ _ out_error => out_error
  | E_llm_update _ _ _ _ _ _ out_error => out_error
  | E_llm_delete _ _ _ _ out_error => out_error
  | E_llm_list _ _ _ _ _ _ out_error => out_error
  | E_llm_query _ _ _ _ _ out_error => out_error
  | E_pubsub_publish _ _ _ out_error => out_error
  end.

Definition out_error_of_batch (c : batch_call) : option loc :=
  match c with
  | E_batch_collection_create _ _ _ _ _ _ _ out_error => out_error
  | E_batch_collection_upsert _ _ _ _ _ _ _ out_error => out_error
  | E_batch_collection_update _ _ _ _ _ _ _ _ out_error => out_error
  | E_batch_collection_delete _ _ _ _ out_error => out_error
  | E_batch_send _ _ _ _ out_error => out_error
  end.

Definition out_error_of (e : entry) : option loc :=
  match e with
  | OnClient _ c => out_error_of_client c
  | OnBatch _ c => out_error_of_batch c
  end.

(** The value out-parameter of a call ([out_json], [out_url] or
    [out_string]); null also stands for the entry points without one. *)
Definition out_value_of_client (c : client_call) : option loc :=
  match c with
  | E_filter _ _ out_string _ => out_string
  | E_send _ _ _ _ _ _ _ _ out_json _ => out_json
  | E_collection_get_list _ _ _ _ _ _ _ _ _ out_json _ => out_json
  | E_collection_get_one _ _ _ _ _ _ out_json _ => out_json
  | E_collection_get_full_list _ _ _ _ _ _ _ _ out_json _ => out_json
  | E_collection_create _ _ _ _ _ _ _ _ out_json _ => out_json
  | E_collection_update _ _ _ _ _ _ _ _ _ out_json _ => out_json
  | E_collection_auth_with_password _ _ _ _ _ _ _ _ out_json _ => out_json
  | E_collection_auth_refresh _ _ _ _ _ _ out_json _ => out_json
  | E_files_get_url _ _ _ _ _ _ out_url _ => out_url
  | E_files_get_token _ _ out_json _ => out_json
  | E_health_check _ _ out_json _ => out_json
  | E_graphql_query _ _ _ _ out_json _ => out_json
  | E_sql_execute _ _ _ out_json _ => out_json
  | E_vector_create_collection _ _ _ _ out_json _ => out_json
  | E_vector_update_collection _ _ _ _ out_json _ => out_json
  | E_vector_list_collections _ _ out_json _ => out_json
  | E_vector_insert _ _ _ _ out_json _ => out_json
  | E_vector_batch_insert _ _ _ _ out_json _ => out_json
  | E_vector_get _ _ _ _ out_json _ => out_json
  | E_vector_update _ _ _ _ _ out_json _ => out_json
  | E_vector_list _ _ _ _ _ out_json _ => out_json
  | E_vector_search _ _ _ _ out_json _ => out_json
  | E_cache_list _ _ out_json _ => out_json
  | E_cache_create _ _ _ _ out_json _ => out_json
  | E_cache_update _ _ _ _ out_json _ => out_json
  | E_cache_set_entry _ _ _ _ _ _ _ out_json _ => out_json
  | E_cache_get_entry _ _ _ _ out_json _ => out_json
  | E_cache_renew_entry _ _ _ _ _ _ out_json _ => out_json
  | E_backup_get_full_list _ _ out_json _ => out_json
  | E_backup_create _ _ _ out_json _ => out_json
  | E_backup_upload _ _ _ out_json _ => out_json
  | E_backup_restore _ _ _ out_json _ => out_json
  | E_backup_get_download_url _ _ out_url _ => out_url
  | E_cron_get_full_list _ _ out_json _ => out_json
  | E_cron_run _ _ _ out_json _ => out_json
  | E_logs_get_list _ _ _ _ out_json _ => out_json
  | E_logs_get_one _ _ _ out_json _ => out_json
  | E_logs_get_stats _ _ out_json _ => out_json
  | E_settings_get_all _ _ out_json _ => out_json
  | E_settings_update _ _ _ out_json _ => out_json
  | E_settings_test_s3 _ _ _ out_json _ => out_json
  | E_settings_test_email _ _ _ _ _ out_json _ => out_json
  | E_settings_generate_apple_client_secret _ _ _ _ _ _ _ out_json _ =>
      out_json
  | E_langchaingo_completions _ _ _ out_json _ => out_json
  | E_langchaingo_rag _ _ _ out_json _ => out_json
  | E_langchaingo_query_documents _ _ _ out_json _ => out_json
  | E_langchaingo_sql _ _ _ out_json _ => out_json
  | E_llm_list_collections _ _ out_json _ => out_json
  | E_llm_insert _ _ _ _ out_json _ => out_json
  | E_llm_get _ _ _ _ out_json _ => out_json
  | E_llm_update _ _ _ _ _ out_json _ => out_json
  | E_llm_list _ _ _ _ _ out_json _ => out_json
  | E_llm_query _ _ _ _ out_json _ => out_json
  | E_pubsub_publish _ _ out_json _ => out_json
  | _ => None
  end.

Definition out_value_of_batch (c : batch_call) : option loc :=
  match c with
  | E_batch_send _ _ _ out_json _ => out_json
  | _ => None
  end.

Definition out_value_of (e : entry) : option loc :=
  match e with
  | OnClient _ c => out_value_of_client c
  | OnBatch _ c => out_value_of_batch c
  end.


(** The two entry points that return a subscription handle instead of a
    status. *)
Inductive subscribe_call :=
| S_collection_subscribe (collection_name topic : cstr) (callback : option N)
    (user_data : Z) (query_json headers_json : cstr) (out_error : option loc)
| S_pubsub_subscribe (topic : cstr) (callback : option N) (user_data : Z)
    (out_error : option loc).

(** Any call of an entry point that reports failures through an error
    out-parameter. *)
Inductive request :=
| Call (e : entry)
| Subscribe (client : option loc) (c : subscribe_call).

(** What such a call returns: a status, or a handle that is null on
    failure. *)
Inductive outcome :=
| Status (z : Z)
| Handle (h : option loc).

Definition failure (o : outcome) : Prop :=
  match o with
  | Status z => z = -1
  | Handle h => h = None
  end.

Definition request_query_json (r : request) : option cstr :=
  match r with
  | Call e => query_json_of e
  | Subscribe _ (S_collection_subscribe _ _ _ _ query_json _ _) => Some query_json
  | Subscribe _ (S_pubsub_subscribe _ _ _ _) => None
  end.

Definition request_headers_json (r : request) : option cstr :=
  match r with
  | Call e => headers_json_of e
  | Subscribe _ (S_collection_subscribe _ _ _ _ _ headers_json _) => Some headers_json
  | Subscribe _ (S_pubsub_subscribe _ _ _ _) => None
  end.

Definition request_out_error (r : request) : option loc :=
  match r with
  | Call e => out_error_of e
  | Subscribe _ (S_collection_subscribe _ _ _ _ _ _ out_error) => out_error
  | Subscribe _ (S_pubsub_subscribe _ _ _ out_error) => out_error
  end.

(** ** A concrete instance of the external parts

    A parser that knows four texts, a serialiser, an allocator that always
    serves, an inner library that answers every operation with a fixed
    value of the expected type and one that answers every operation with
    an HTTP 400, and three small machine states. *)

Definition quote : string := String (ascii_of_nat 34) EmptyString.

(** The text [{"page":5}]. *)
Definition page_five_text : string :=
  "{" +:+ quote +:+ "page" +:+ quote +:+ ":5}".

Definition sample_parse (text : string) : string + json :=
  if bool_decide (text = "{}") then inr (JObject ∅)
  else if bool_decide (text = page_five_text) then
    inr (JObject {["page" := JInt 5]})
  else if bool_decide (text = "[1]") then inr (JArray [JInt 1])
  else if bool_decide (text = "null") then inr JNull
  else inl "syntax error".

Definition sample_dump (j : json) : string :=
  match j with
  | JNull => "null"
  | JBool true => "true"
  | JBool false => "false"
  | JString t => quote +:+ t +:+ quote
  | JArray _ => "[]"
  | _ => "{}"
  end.

Definition always_served (h : gmap loc block) (n : N) : bool := false.

Definition sample_reply (t : rty) : rdenote t :=
  match t with
  | TVoid => tt
  | TJson => JObject ∅
  | TString => "text"
  | TSql => {| bosbase.columns := JArray []; bosbase.rows := JArray [];
               bosbase.rowsAffected := None |}
  | TMessage => {| bosbase.PubSubMessage.id := "1";
                   bosbase.PubSubMessage.topic := "topic";
                   bosbase.PubSubMessage.created := "now";
                   bosbase.PubSubMessage.data := JNull |}
  | TCancel => Some 11%N
  | TClient => 7%N
  | TBatch => Some 9%N
  end.

Definition answering (t : rty) (tr : list event) (o : inner_op t)
  : exception + rdenote t :=
  inr (sample_reply t).

Definition bad_request : bosbase.ClientResponseError :=
  {| bosbase.status := 400; bosbase.isAbort := false;
     bosbase.url := "http://localhost:8090/api/health";
     bosbase.response := JObject ∅; bosbase.what := "400" |}.

Definition refusing (t : rty) (tr : list event) (o : inner_op t)
  : exception + rdenote t :=
  inl (ClientResponseError bad_request).

Definition plain_path (segment : string) : string := segment.

Definition plain_SendOptions : bosbase.SendOptions :=
  {| bosbase.method := "GET"; bosbase.body := JNull; bosbase.query := ∅;
     bosbase.headers := ∅; bosbase.timeoutMs := None; bosbase.files := [] |}.

Definition plain_FileAttachment : bosbase.FileAttachment :=
  {| bosbase.field := ""; bosbase.filename := ""; bosbase.contentType := "";
     bosbase.data := [] |}.

(** One live client (handle 1, inner instance 7), nothing else. *)
Definition one_client : state :=
  {| heap := ∅; out_values := ∅; out_errors := ∅;
     clients := {[1%positive := {| impl := Some 7%N |}]};
     batches := ∅; subscriptions := ∅; trace := [] |}.

(** One live subscription (handle 3) with a cancellation function. *)
Definition one_subscription : state :=
  {| heap := ∅; out_values := ∅; out_errors := ∅; clients := ∅;
     batches := ∅;
     subscriptions :=
       {[3%positive := {| holder := Some {| cancel := Some 11%N |} |}]};
     trace := [] |}.

(** One Error Value (struct at 2) whose message is the block at 4. *)
Definition sample_error : bosbase_error :=
  {| status := -1; is_abort := 0; url := Null; message := Heap 4;
     response := Null |}.

Definition one_error : state :=
  {| heap := {[2%positive := BError sample_error;
               4%positive := BString "query_json must be an object"]};
     out_values := ∅; out_errors := ∅; clients := ∅; batches := ∅;
     subscriptions := ∅; trace := [] |}.

(** A callback of each kind that looks at nothing and returns, a file to
    upload, and a state with one live client and one live subscription. *)
Definition quiet_record_cb (callback : N) (json_event : ptr) (user_data : Z)
  : M unit :=
  ret tt.

Definition quiet_pubsub_cb (callback : N) (topic message_id created : string)
    (data_json : ptr) (user_data : Z) : M unit :=
  ret tt.

Definition sample_listener : bosbase.Listener :=
  {| bosbase.callback := 21; bosbase.user_data := 0 |}.

Definition sample_file : bosbase_file_attachment :=
  {| field := Some "file"; filename := Some "backup.zip";
     content_type := None; data := Some [Byte.x50; Byte.x4b]; data_len := 2 |}.

Definition client_and_subscription : state :=
  {| heap := ∅; out_values := ∅; out_errors := ∅;
     clients := {[1%positive := {| impl := Some 7%N |}]};
     batches := ∅;
     subscriptions :=
       {[3%positive := {| holder := Some {| cancel := Some 11%N |} |}]};
     trace := [] |}.

(** ** The boundary *)

Section Boundary.

(** [nlohmann::json::parse]: a document, or the [what()] of the
    [json::parse_error] it throws; and [dump()]. *)
Variable json_parse : string -> string + json.
Variable json_dump : json -> string.

(** Whether [malloc] refuses a request of the given size in the given heap,
    and [sizeof(bosbase_error)]. *)
Variable out_of_memory : gmap loc block -> N -> bool.
Variable sizeof_bosbase_error : N.

(** The reply of the inner library to an operation, given what it was asked
    before: the value returned or the exception thrown. *)
Variable inner : forall t : rty, list event -> inner_op t -> exception + rdenote t.

(** [bosbase::encodePathSegment] and the default-constructed
    [bosbase::SendOptions] and [bosbase::FileAttachment]. *)
Variable encodePathSegment : string -> string.
Variable default_SendOptions : bosbase.SendOptions.
Variable default_FileAttachment : bosbase.FileAttachment.

(** *** Allocation *)

(** [std::malloc(n)]: null when refused, otherwise a block no live block
    shares its address with. *)
Definition malloc (n : N) : M (option loc) :=
  fun s =>
    if out_of_memory (heap s) n then Done None s
    else
      let a := fresh (dom (heap s)) in
      Done (Some a) (set_heap (<[a := BRaw n]> (heap s)) s).

(** [std::memcpy(data, s.c_str(), s.size() + 1)] into a block of that
    size. *)
Definition memcpy (a : loc) (src : string) : M unit :=
  fun s =>
    match heap s !! a with
    | Some _ => Done tt (set_heap (<[a := BString src]> (heap s)) s)
    | None => Fault
    end.

(** [std::free(p)]: nothing for null, release of a live [malloc] block,
    undefined for anything else. *)
Definition free (p : ptr) : M unit :=
  fun s =>
    match p with
    | Null => Done tt s
    | Heap a =>
        match heap s !! a with
        | Some _ => Done tt (set_heap (delete a (heap s)) s)
        | None => Fault
        end
    | Literal _ | Internal _ _ => Fault
    end.

(** Assignment of the five fields of the struct at [a]. *)
Definition assign_error (a : loc) (e : bosbase_error) : M unit :=
  fun s =>
    match heap s !! a with
    | Some _ => Done tt (set_heap (<[a := BError e]> (heap s)) s)
    | None => Fault
    end.

(** [err->f] for a field [f] of the struct at [a]. *)
Definition read_error (a : loc) (f : bosbase_error -> ptr) : M ptr :=
  fun s =>
    match heap s !! a with
    | Some (BError e) => Done (f e) s
    | _ => Fault
    end.

Definition dup_string (str : string) : M ptr :=
  data <- malloc (N.of_nat (String.length str) + 1) ;;
  match data with
  | None => ret Null
  | Some a => memcpy a str ;;; ret (Heap a)
  end.

Definition dup_json (j : json) : M ptr :=
  dup_string (json_dump j).

(** [make_error(const std::string& message, int status = -1)]. *)
Definition make_error (message : string) (status : Z) : M (option loc) :=
  err <- malloc sizeof_bosbase_error ;;
  match err with
  | None => ret None
  | Some a =>
      msg <- dup_string message ;;
      assign_error a {| status := status; is_abort := 0; url := Null;
                        message := msg; response := Null |} ;;;
      ret (Some a)
  end.

(** [make_error(const bosbase::ClientResponseError& ex)]. *)
Definition make_error_ex (ex : bosbase.ClientResponseError) : M (option loc) :=
  err <- malloc sizeof_bosbase_error ;;
  match err with
  | None => ret None
  | Some a =>
      u <- dup_string (bosbase.url ex) ;;
      msg <- dup_string (json_dump (bosbase.response ex)) ;;
      resp <- dup_string (json_dump (bosbase.response ex)) ;;
      assign_error a {| status := to_int (bosbase.status ex);
                        is_abort := if bosbase.isAbort ex then 1 else 0;
                        url := u; message := msg; response := resp |} ;;;
      ret (Some a)
  end.

(** *** Parameter marshalling *)

Definition lift {A} (r : exception + A) : M A :=
  fun s =>
    match r with
    | inr a => Done a s
    | inl e => Thrown e s
    end.

(** [nlohmann::json::parse(text)], its [parse_error] being a
    [std::exception]. *)
Definition parse (text : string) : exception + json :=
  match json_parse text with
  | inl w => inl (std_exception w)
  | inr j => inr j
  end.

Definition parse_json_or (text : cstr) (fallback : json) : exception + json :=
  match text with
  | None | Some EmptyString => inr fallback
  | Some t => parse t
  end.

Definition parse_query (text : cstr) : exception + gmap string json :=
  match text with
  | None | Some EmptyString => inr ∅
  | Some t =>
      match parse t with
      | inl e => inl e
      | inr (JObject members) =>
          inr (map_fold (fun key value result => <[key := value]> result)
                 ∅ members)
      | inr _ => inl (std_exception "query_json must be an object")
      end
  end.

Definition parse_headers (text : cstr) : exception + gmap string string :=
  match text with
  | None | Some EmptyString => inr ∅
  | Some t =>
      match parse t with
      | inl e => inl e
      | inr (JObject members) =>
          inr (map_fold
                 (fun key value result =>
                    match value with
                    | JString v => <[key := v]> result
                    | _ => <[key := json_dump value]> result
                    end)
                 ∅ members)
      | inr _ => inl (std_exception "headers_json must be an object")
      end
  end.

(** One element of [convert_files]. *)
Definition convert_file (f : bosbase_file_attachment) : bosbase.FileAttachment :=
  let att := default_FileAttachment in
  let att :=
    match field f with
    | Some x =>
        {| bosbase.field := x; bosbase.filename := bosbase.filename att;
           bosbase.contentType := bosbase.contentType att;
           bosbase.data := bosbase.data att |}
    | None => att
    end in
  let att :=
    match filename f with
    | Some x =>
        {| bosbase.field := bosbase.field att; bosbase.filename := x;
           bosbase.contentType := bosbase.contentType att;
           bosbase.data := bosbase.data att |}
    | None => att
    end in
  let att :=
    match content_type f with
    | Some x =>
        {| bosbase.field := bosbase.field att;
           bosbase.filename := bosbase.filename att;
           bosbase.contentType := x; bosbase.data := bosbase.data att |}
    | None => att
    end in
  match data f with
  | Some bytes =>
      if bool_decide (0 < data_len f)%nat then
        {| bosbase.field := bosbase.field att;
           bosbase.filename := bosbase.filename att;
           bosbase.contentType := bosbase.contentType att;
           bosbase.data := take (data_len f) bytes |}
      else att
  | None => att
  end.

(** [convert_files(files, len)]: the first [len] elements of the array. *)
Definition convert_files (files : option (list bosbase_file_attachment))
    (len : nat) : list bosbase.FileAttachment :=
  match files with
  | None => []
  | Some fs => if bool_decide (len = 0%nat) then [] else convert_file <$> take len fs
  end.

(** [p ? p : d] and [p && *p ? std::optional<std::string>(p) : std::nullopt]. *)
Definition str_or (p : cstr) (d : string) : string :=
  match p with
  | Some t => t
  | None => d
  end.

Definition opt_str (p : cstr) : option string :=
  match p with
  | None | Some EmptyString => None
  | Some t => Some t
  end.

(** [p && *p ? p : d]. *)
Definition nonempty_or (p : cstr) (d : string) : string :=
  match p with
  | None | Some EmptyString => d
  | Some t => t
  end.

(** *** Talking to the inner library *)

(** [owner->collection(name)]: resolves the service, sends nothing. *)
Definition collection (owner : N) (name : string) : M bosbase.RecordService :=
  fun s =>
    let svc := {| bosbase.owner := owner; bosbase.collection := name |} in
    Done svc (set_trace (trace s ++ [Resolved svc]) s).

(** A call of an inner operation: it is recorded, then returns or throws
    as the inner library decides. *)
Definition call {t : rty} (o : inner_op t) : M (rdenote t) :=
  fun s =>
    let s' := set_trace (trace s ++ [Issued t o]) s in
    match inner t (trace s) o with
    | inr v => Done v s'
    | inl e => Thrown e s'
    end.

(** *** Out-parameters and handles *)

(** [*out = p] for a non-null [char** out] or [bosbase_error** out]. *)
Definition store_value (l : loc) (p : ptr) : M unit :=
  modify (fun s => set_out_values (<[l := p]> (out_values s)) s).

Definition store_error (l : loc) (e : option loc) : M unit :=
  modify (fun s => set_out_errors (<[l := e]> (out_errors s)) s).

(** [if (out) *out = e;] *)
Definition set_value (out : option loc) (e : M ptr) : M unit :=
  match out with
  | None => ret tt
  | Some l => p <- e ;; store_value l p
  end.

Definition set_error (out_error : option loc) (e : M (option loc)) : M unit :=
  match out_error with
  | None => ret tt
  | Some l => err <- e ;; store_error l err
  end.

(** [client ? client->impl : null], the test [!client || !client->impl]
    being [None] of it.  Dereferencing a destroyed handle is undefined. *)
Definition client_impl (client : option loc) : M (option N) :=
  fun s =>
    match client with
    | None => Done None s
    | Some c =>
        match clients s !! c with
        | Some w => Done (impl w) s
        | None => Fault
        end
    end.

Definition batch_service (batch : option loc) : M (option N) :=
  fun s =>
    match batch with
    | None => Done None s
    | Some b =>
        match batches s !! b with
        | Some w => Done (batch_impl w) s
        | None => Fault
        end
    end.

(** *** Error translation *)

(** The handler pair
    [catch (const ClientResponseError& ex) { if (out_error) *out_error = make_error(ex); }
     catch (const std::exception& ex) { if (out_error) *out_error = make_error(ex.what()); }]. *)
Definition catch_both (out_error : option loc) (e : exception) : M unit :=
  match e with
  | ClientResponseError ex => set_error out_error (make_error_ex ex)
  | std_exception w => set_error out_error (make_error w (-1))
  end.

(** The single handler
    [catch (const std::exception& ex) { if (out_error) *out_error = make_error(ex.what()); }]. *)
Definition catch_std (out_error : option loc) (e : exception) : M unit :=
  set_error out_error (make_error (what e) (-1)).

Definition wrap_json (fn : M json) (out_json out_error : option loc) : M Z :=
  try_catch
    (result <- fn ;;
     set_value out_json (dup_json result) ;;;
     ret 0)
    (fun e => catch_both out_error e ;;; ret (-1)).

Definition wrap_void (fn : M unit) (out_error : option loc) : M Z :=
  try_catch
    (fn ;;; ret 0)
    (fun e => catch_both out_error e ;;; ret (-1)).

(** *** Release operations *)

Definition bosbase_free_string (str : ptr) : M unit :=
  free str.

Definition bosbase_free_error (err : option loc) : M unit :=
  match err with
  | None => ret tt
  | Some a =>
      u <- read_error a url ;;
      bosbase_free_string u ;;;
      m <- read_error a message ;;
      bosbase_free_string m ;;;
      r <- read_error a response ;;
      bosbase_free_string r ;;;
      free (Heap a)
  end.

(** The two endings of an entry point's own handlers: the error is
    reported, then the function returns -1. *)
Definition fail_std (out_error : option loc) (e : exception) : M Z :=
  catch_std out_error e ;;; ret (-1).

Definition fail_both (out_error : option loc) (e : exception) : M Z :=
  catch_both out_error e ;;; ret (-1).

(** *** Handles *)

(** [new bosbase_client()], [new bosbase_batch()],
    [new bosbase_subscription()] with the fields then assigned. *)
Definition new_client (w : bosbase_client) : M loc :=
  fun s =>
    let c := fresh (dom (clients s)) in
    Done c (set_clients (<[c := w]> (clients s)) s).

Definition new_batch (w : bosbase_batch) : M loc :=
  fun s =>
    let b := fresh (dom (batches s)) in
    Done b (set_batches (<[b := w]> (batches s)) s).

Definition new_subscription (w : bosbase_subscription) : M loc :=
  fun s =>
    let a := fresh (dom (subscriptions s)) in
    Done a (set_subscriptions (<[a := w]> (subscriptions s)) s).

(** [sub->holder] of a live subscription object. *)
Definition subscription_holder (a : loc) : M (option SubscriptionHolder) :=
  fun s =>
    match subscriptions s !! a with
    | Some w => Done (holder w) s
    | None => Fault
    end.

(** [delete p] for a non-null handle: undefined unless the object is live. *)
Definition delete_client (c : loc) : M unit :=
  fun s =>
    match clients s !! c with
    | Some _ => Done tt (set_clients (delete c (clients s)) s)
    | None => Fault
    end.

Definition delete_batch (b : loc) : M unit :=
  fun s =>
    match batches s !! b with
    | Some _ => Done tt (set_batches (delete b (batches s)) s)
    | None => Fault
    end.

Definition delete_subscription (a : loc) : M unit :=
  fun s =>
    match subscriptions s !! a with
    | Some _ => Done tt (set_subscriptions (delete a (subscriptions s)) s)
    | None => Fault
    end.

Definition bosbase_client_new (base_url lang : cstr) : M (option loc) :=
  let base := str_or base_url "/" in
  let language := str_or lang "en-US" in
  client <- call (BosBase_new base language) ;;
  wrapper <- new_client {| impl := Some client |} ;;
  ret (Some wrapper).

Definition bosbase_client_free (client : option loc) : M unit :=
  match client with
  | None => ret tt
  | Some c => delete_client c
  end.

Definition bosbase_batch_new (client : option loc) : M (option loc) :=
  pb <- client_impl client ;;
  match pb with
  | None => ret None
  | Some pb =>
      batch <- call (BosBase_createBatch pb) ;;
      match batch with
      | None => ret None
      | Some bs =>
          wrapper <- new_batch {| batch_owner := client; batch_impl := Some bs |} ;;
          ret (Some wrapper)
      end
  end.

Definition bosbase_batch_free (batch : option loc) : M unit :=
  match batch with
  | None => ret tt
  | Some b => delete_batch b
  end.

(** *** Auth store *)

Definition bosbase_auth_token (client : option loc) : M ptr :=
  pb <- client_impl client ;;
  match pb with
  | None => ret (Literal "")
  | Some pb =>
      token <- call (AuthStore_token pb) ;;
      ret (Internal pb token)
  end.

Definition bosbase_auth_record (client : option loc) : M ptr :=
  pb <- client_impl client ;;
  match pb with
  | None => ret Null
  | Some pb =>
      record <- call (AuthStore_record pb) ;;
      dup_json record
  end.

Definition bosbase_auth_save (client : option loc) (token record_json : cstr)
    (out_error : option loc) : M Z :=
  pb <- client_impl client ;;
  match pb with
  | None => ret (-1)
  | Some pb =>
      wrap_void
        (data <- lift (parse_json_or record_json (JObject ∅)) ;;
         call (AuthStore_save pb (str_or token "") data))
        out_error
  end.

Definition bosbase_auth_clear (client : option loc) : M unit :=
  pb <- client_impl client ;;
  match pb with
  | None => ret tt
  | Some pb => call (AuthStore_clear pb)
  end.

(** *** Generic dispatch *)

Definition bosbase_filter (client : option loc) (expr params_json : cstr)
    (out_string out_error : option loc) : M Z :=
  pb <- client_impl client ;;
  match pb with
  | None => ret (-1)
  | Some pb =>
      try_catch
        (params <- lift (parse_query params_json) ;;
         result <- call (BosBase_filter pb (str_or expr "") params) ;;
         set_value out_string (dup_string result) ;;;
         ret 0)
        (fail_std out_error)
  end.

Definition bosbase_send (client : option loc)
    (path method body_json query_json headers_json : cstr) (timeout_ms : Z)
    (files : option (list bosbase_file_attachment)) (files_len : nat)
    (out_json out_error : option loc) : M Z :=
  pb <- client_impl client ;;
  match pb with
  | None => ret (-1)
  | Some pb =>
      let opts := bosbase.with_method (nonempty_or method "GET") default_SendOptions in
      marshalled <-
        try_catch
          (body <- lift (parse_json_or body_json (JObject ∅)) ;;
           let opts := bosbase.with_body body opts in
           query <- lift (parse_query query_json) ;;
           let opts := bosbase.with_query query opts in
           headers <- lift (parse_headers headers_json) ;;
           let opts := bosbase.with_headers headers opts in
           let opts :=
             if bool_decide (0 < timeout_ms) then bosbase.with_timeoutMs timeout_ms opts
             else opts in
           let opts := bosbase.with_files (convert_files files files_len) opts in
           ret (Some opts))
          (fun e => catch_std out_error e ;;; ret None) ;;
      match marshalled with
      | None => ret (-1)
      | Some opts =>
          wrap_json (call (BosBase_send pb (str_or path "/") opts)) out_json out_error
      end
  end.

(** *** Collections *)

Definition bosbase_collection_get_list (client : option loc) (collection_name : cstr)
    (page per_page : Z) (filter sort expand fields query_json headers_json : cstr)
    (out_json out_error : option loc) : M Z :=
  pb <- client_impl client ;;
  match pb with
  | None => ret (-1)
  | Some pb =>
      try_catch
        (svc <- collection pb (str_or collection_name "") ;;
         query <- lift (parse_query query_json) ;;
         headers <- lift (parse_headers headers_json) ;;
         let f := opt_str filter in
         let s := opt_str sort in
         let e := opt_str expand in
         let fld := opt_str fields in
         wrap_json
           (call (Record_getList svc page per_page false query headers f s e fld))
           out_json out_error)
        (fail_std out_error)
  end.

Definition bosbase_collection_get_one (client : option loc)
    (collection_name record_id expand fields query_json headers_json : cstr)
    (out_json out_error : option loc) : M Z :=
  pb <- client_impl client ;;
  match pb with
  | None => ret (-1)
  | Some pb =>
      try_catch
        (svc <- collection pb (str_or collection_name "") ;;
         query <- lift (parse_query query_json) ;;
         headers <- lift (parse_headers headers_json) ;;
         let e := opt_str expand in
         let fld := opt_str fields in
         wrap_json
           (call (Record_getOne svc (str_or record_id "") query headers e fld))
           out_json out_error)
        (fail_std out_error)
  end.

Definition bosbase_collection_get_full_list (client : option loc)
    (collection_name : cstr) (batch_size : Z)
    (filter sort expand fields query_json headers_json : cstr)
    (out_json out_error : option loc) : M Z :=
  pb <- client_impl client ;;
  match pb with
  | None => ret (-1)
  | Some pb =>
      try_catch
        (svc <- collection pb (str_or collection_name "") ;;
         query <- lift (parse_query query_json) ;;
         headers <- lift (parse_headers headers_json) ;;
         let f := opt_str filter in
         let s := opt_str sort in
         let e := opt_str expand in
         let fld := opt_str fields in
         wrap_json
           (call (Record_getFullList svc batch_size query headers f s e fld))
           out_json out_error)
        (fail_std out_error)
  end.

Definition bosbase_collection_create (client : option loc)
    (collection_name body_json : cstr)
    (files : option (list bosbase_file_attachment)) (files_len : nat)
    (expand fields query_json headers_json : cstr)
    (out_json out_error : option loc) : M Z :=
  pb <- client_impl client ;;
  match pb with
  | None => ret (-1)
  | Some pb =>
      try_catch
        (svc <- collection pb (str_or collection_name "") ;;
         body <- lift (parse_json_or body_json (JObject ∅)) ;;
         query <- lift (parse_query query_json) ;;
         headers <- lift (parse_headers headers_json) ;;
         let attachments := convert_files files files_len in
         let e := opt_str expand in
         let fld := opt_str fields in
         wrap_json
           (call (Record_create svc body query attachments headers e fld))
           out_json out_error)
        (fail_std out_error)
  end.

Definition bosbase_collection_update (client : option loc)
    (collection_name record_id body_json : cstr)
    (files : option (list bosbase_file_attachment)) (files_len : nat)
    (expand fields query_json headers_json : cstr)
    (out_json out_error : option loc) : M Z :=
  pb <- client_impl client ;;
  match pb with
  | None => ret (-1)
  | Some pb =>
      try_catch
        (svc <- collection pb (str_or collection_name "") ;;
         body <- lift (parse_json_or body_json (JObject ∅)) ;;
         query <- lift (parse_query query_json) ;;
         headers <- lift (parse_headers headers_json) ;;
         let attachments := convert_files files files_len in
         let e := opt_str expand in
         let fld := opt_str fields in
         wrap_json
           (call (Record_update svc (str_or record_id "") body query attachments
                    headers e fld))
           out_json out_error)
        (fail_std out_error)
  end.

Definition bosbase_collection_delete (client : option loc)
    (collection_name record_id body_json query_json headers_json : cstr)
    (out_error : option loc) : M Z :=
  pb <- client_impl client ;;
  match pb with
  | None => ret (-1)
  | Some pb =>
      try_catch
        (svc <- collection pb (str_or collection_name "") ;;
         body <- lift (parse_json_or body_json (JObject ∅)) ;;
         query <- lift (parse_query query_json) ;;
         headers <- lift (parse_headers headers_json) ;;
         wrap_void
           (call (Record_remove svc (str_or record_id "") body query headers))
           out_error)
        (fail_std out_error)
  end.

Definition bosbase_collection_auth_with_password (client : option loc)
    (collection_name identity password body_json expand fields query_json
       headers_json : cstr)
    (out_json out_error : option loc) : M Z :=
  pb <- client_impl client ;;
  match pb with
  | None => ret (-1)
  | Some pb =>
      try_catch
        (svc <- collection pb (str_or collection_name "") ;;
         body <- lift (parse_json_or body_json (JObject ∅)) ;;
         query <- lift (parse_query query_json) ;;
         headers <- lift (parse_headers headers_json) ;;
         let e := opt_str expand in
         let fld := opt_str fields in
         wrap_json
           (call (Record_authWithPassword svc (str_or identity "")
                    (str_or password "") e fld body query headers))
           out_json out_error)
        (fail_std out_error)
  end.

Definition bosbase_collection_auth_refresh (client : option loc)
    (collection_name body_json expand fields query_json headers_json : cstr)
    (out_json out_error : option loc) : M Z :=
  pb <- client_impl client ;;
  match pb with
  | None => ret (-1)
  | Some pb =>
      try_catch
        (svc <- collection pb (str_or collection_name "") ;;
         body <- lift (parse_json_or body_json (JObject ∅)) ;;
         query <- lift (parse_query query_json) ;;
         headers <- lift (parse_headers headers_json) ;;
         let e := opt_str expand in
         let fld := opt_str fields in
         wrap_json
           (call (Record_authRefresh svc body query headers e fld))
           out_json out_error)
        (fail_std out_error)
  end.

Definition bosbase_collection_request_password_reset (client : option loc)
    (collection_name email body_json query_json headers_json : cstr)
    (out_error : option loc) : M Z :=
  pb <- client_impl client ;;
  match pb with
  | None => ret (-1)
  | Some pb =>
      try_catch
        (svc <- collection pb (str_or collection_name "") ;;
         body <- lift (parse_json_or body_json (JObject ∅)) ;;
         query <- lift (parse_query query_json) ;;
         headers <- lift (parse_headers headers_json) ;;
         wrap_void
           (call (Record_requestPasswordReset svc (str_or email "") body query
                    headers))
           out_error)
        (fail_std out_error)
  end.

Definition bosbase_collection_confirm_password_reset (client : option loc)
    (collection_name token password password_confirm body_json query_json
       headers_json : cstr)
    (out_error : option loc) : M Z :=
  pb <- client_impl client ;;
  match pb with
  | None => ret (-1)
  | Some pb =>
      try_catch
        (svc <- collection pb (str_or collection_name "") ;;
         body <- lift (parse_json_or body_json (JObject ∅)) ;;
         query <- lift (parse_query query_json) ;;
         headers <- lift (parse_headers headers_json) ;;
         wrap_void
           (call (Record_confirmPasswordReset svc (str_or token "")
                    (str_or password "") (str_or password_confirm "") body query
                    headers))
           out_error)
        (fail_std out_error)
  end.

Definition bosbase_collection_request_verification (client : option loc)
    (collection_name email body_json query_json headers_json : cstr)
    (out_error : option loc) : M Z :=
  pb <- client_impl client ;;
  match pb with
  | None => ret (-1)
  | Some pb =>
      try_catch
        (svc <- collection pb (str_or collection_name "") ;;
         body <- lift (parse_json_or body_json (JObject ∅)) ;;
         query <- lift (parse_query query_json) ;;
         headers <- lift (parse_headers headers_json) ;;
         wrap_void
           (call (Record_requestVerification svc (str_or email "") body query
                    headers))
           out_error)
        (fail_std out_error)
  end.

Definition bosbase_collection_confirm_verification (client : option loc)
    (collection_name token body_json query_json headers_json : cstr)
    (out_error : option loc) : M Z :=
  pb <- client_impl client ;;
  match pb with
  | None => ret (-1)
  | Some pb =>
      try_catch
        (svc <- collection pb (str_or collection_name "") ;;
         body <- lift (parse_json_or body_json (JObject ∅)) ;;
         query <- lift (parse_query query_json) ;;
         headers <- lift (parse_headers headers_json) ;;
         wrap_void
           (call (Record_confirmVerification svc (str_or token "") body query
                    headers))
           out_error)
        (fail_std out_error)
  end.

(** *** Subscriptions *)

Definition bosbase_collection_subscribe (client : option loc)
    (collection_name topic : cstr) (callback : option N) (user_data : Z)
    (query_json headers_json : cstr) (out_error : option loc)
    : M (option loc) :=
  pb <- client_impl client ;;
  match pb, callback with
  | Some pb, Some callback =>
      try_catch
        (svc <- collection pb (str_or collection_name "") ;;
         query <- lift (parse_query query_json) ;;
         headers <- lift (parse_headers headers_json) ;;
         let cb := {| bosbase.callback := callback;
                      bosbase.user_data := user_data |} in
         cancel <- call (Record_subscribe svc (str_or topic "*") cb query headers) ;;
         sub <- new_subscription {| holder := Some {| cancel := cancel |} |} ;;
         ret (Some sub))
        (fun e => catch_both out_error e ;;; ret None)
  | _, _ => ret None
  end.

Definition bosbase_subscription_cancel (sub : option loc) : M unit :=
  match sub with
  | None => ret tt
  | Some a =>
      h <- subscription_holder a ;;
      match h with
      | None => ret tt
      | Some h =>
          match cancel h with
          | Some k => call (Cancel_invoke k)
          | None => ret tt
          end ;;;
          delete_subscription a
      end
  end.

(** *** Files, health, GraphQL, SQL *)

Definition bosbase_files_get_url (client : option loc)
    (record_json filename thumb token : cstr) (download : Z) (query_json : cstr)
    (out_url out_error : option loc) : M Z :=
  pb <- client_impl client ;;
  match pb with
  | None => ret (-1)
  | Some pb =>
      try_catch
        (record <- lift (parse_json_or record_json (JObject ∅)) ;;
         query <- lift (parse_query query_json) ;;
         let tmb := opt_str thumb in
         let tkn := opt_str token in
         let dl :=
           if bool_decide (download = 0) || bool_decide (download = 1)
           then Some (bool_decide (download = 1))
           else None in
         url <- call (Files_getURL pb record (str_or filename "") tmb tkn dl query) ;;
         set_value out_url (dup_string url) ;;;
         ret 0)
        (fail_both out_error)
  end.

Definition bosbase_files_get_token (client : option loc)
    (query_json headers_json : cstr)
    (out_json out_error : option loc) : M Z :=
  pb <- client_impl client ;;
  match pb with
  | None => ret (-1)
  | Some pb =>
      try_catch
        (query <- lift (parse_query query_json) ;;
         headers <- lift (parse_headers headers_json) ;;
         wrap_json
           (call (Files_getToken pb query headers))
           out_json out_error)
        (fail_std out_error)
  end.

Definition bosbase_health_check (client : option loc)
    (query_json headers_json : cstr)
    (out_json out_error : option loc) : M Z :=
  pb <- client_impl client ;;
  match pb with
  | None => ret (-1)
  | Some pb =>
      try_catch
        (query <- lift (parse_query query_json) ;;
         headers <- lift (parse_headers headers_json) ;;
         wrap_json
           (call (Health_check pb query headers))
           out_json out_error)
        (fail_std out_error)
  end.

Definition bosbase_graphql_query (client : option loc)
    (query variables_json query_json headers_json : cstr)
    (out_json out_error : option loc) : M Z :=
  pb <- client_impl client ;;
  match pb with
  | None => ret (-1)
  | Some pb =>
      try_catch
        (vars <- lift (parse_json_or variables_json (JObject ∅)) ;;
         q <- lift (parse_query query_json) ;;
         headers <- lift (parse_headers headers_json) ;;
         wrap_json
           (call (GraphQL_sendQuery pb (str_or query "") vars q headers))
           out_json out_error)
        (fail_std out_error)
  end.

Definition bosbase_sql_execute (client : option loc)
    (query query_json headers_json : cstr)
    (out_json out_error : option loc) : M Z :=
  pb <- client_impl client ;;
  match pb with
  | None => ret (-1)
  | Some pb =>
      try_catch
        (query_params <- lift (parse_query query_json) ;;
         headers <- lift (parse_headers headers_json) ;;
         wrap_json
           (result <- call (SQL_execute pb (str_or query "") query_params headers) ;;
            let payload := JNull in
            let payload := set_key "columns" (bosbase.columns result) payload in
            let payload := set_key "rows" (bosbase.rows result) payload in
            let payload :=
              match bosbase.rowsAffected result with
              | Some n => set_key "rowsAffected" (JInt n) payload
              | None => payload
              end in
            ret payload)
           out_json out_error)
        (fail_both out_error)
  end.

(** *** Vector collections and documents *)

Definition bosbase_vector_create_collection (client : option loc)
    (name config_json query_json headers_json : cstr)
    (out_json out_error : option loc) : M Z :=
  pb <- client_impl client ;;
  match pb with
  | None => ret (-1)
  | Some pb =>
      try_catch
        (body <- lift (parse_json_or config_json (JObject ∅)) ;;
         query <- lift (parse_query query_json) ;;
         headers <- lift (parse_headers headers_json) ;;
         let opts :=
           bosbase.with_headers headers (bosbase.with_query query 
             (bosbase.with_body body (bosbase.with_method "POST" default_SendOptions))) in
         wrap_json
           (call (BosBase_send pb
              ("/api/vectors/collections/" +:+ encodePathSegment (str_or name ""))
              opts))
           out_json out_error)
        (fail_std out_error)
  end.

Definition bosbase_vector_update_collection (client : option loc)
    (name config_json query_json headers_json : cstr)
    (out_json out_error : option loc) : M Z :=
  pb <- client_impl client ;;
  match pb with
  | None => ret (-1)
  | Some pb =>
      try_catch
        (body <- lift (parse_json_or config_json (JObject ∅)) ;;
         query <- lift (parse_query query_json) ;;
         headers <- lift (parse_headers headers_json) ;;
         let opts :=
           bosbase.with_headers headers (bosbase.with_query query 
             (bosbase.with_body body (bosbase.with_method "PATCH" default_SendOptions))) in
         wrap_json
           (call (BosBase_send pb
              ("/api/vectors/collections/" +:+ encodePathSegment (str_or name ""))
              opts))
           out_json out_error)
        (fail_std out_error)
  end.

Definition bosbase_vector_list_collections (client : option loc)
    (query_json headers_json : cstr)
    (out_json out_error : option loc) : M Z :=
  pb <- client_impl client ;;
  match pb with
  | None => ret (-1)
  | Some pb =>
      try_catch
        (query <- lift (parse_query query_json) ;;
         headers <- lift (parse_headers headers_json) ;;
         wrap_json
           (let opts :=
              bosbase.with_headers headers (bosbase.with_query query default_SendOptions) in
            call (BosBase_send pb "/api/vectors/collections" opts))
           out_json out_error)
        (fail_std out_error)
  end.

Definition bosbase_vector_delete_collection (client : option loc)
    (name query_json headers_json : cstr)
    (out_error : option loc) : M Z :=
  pb <- client_impl client ;;
  match pb with
  | None => ret (-1)
  | Some pb =>
      try_catch
        (query <- lift (parse_query query_json) ;;
         headers <- lift (parse_headers headers_json) ;;
         wrap_void
           (let opts :=
              bosbase.with_headers headers
                (bosbase.with_query query
                   (bosbase.with_method "DELETE" default_SendOptions)) in
            _ <- call (BosBase_send pb
                   ("/api/vectors/collections/" +:+ encodePathSegment (str_or name ""))
                   opts) ;;
            ret tt)
           out_error)
        (fail_std out_error)
  end.

Definition bosbase_vector_insert (client : option loc)
    (collection_name document_json query_json headers_json : cstr)
    (out_json out_error : option loc) : M Z :=
  pb <- client_impl client ;;
  match pb with
  | None => ret (-1)
  | Some pb =>
      try_catch
        (body <- lift (parse_json_or document_json (JObject ∅)) ;;
         query <- lift (parse_query query_json) ;;
         headers <- lift (parse_headers headers_json) ;;
         let opts :=
           bosbase.with_headers headers (bosbase.with_query query 
             (bosbase.with_body body (bosbase.with_method "POST" default_SendOptions))) in
         wrap_json
           (call (BosBase_send pb
              ("/api/vectors/" +:+ encodePathSegment (str_or collection_name ""))
              opts))
           out_json out_error)
        (fail_std out_error)
  end.

Definition bosbase_vector_batch_insert (client : option loc)
    (collection_name options_json query_json headers_json : cstr)
    (out_json out_error : option loc) : M Z :=
  pb <- client_impl client ;;
  match pb with
  | None => ret (-1)
  | Some pb =>
      try_catch
        (body <- lift (parse_json_or options_json (JObject ∅)) ;;
         query <- lift (parse_query query_json) ;;
         headers <- lift (parse_headers headers_json) ;;
         let opts :=
           bosbase.with_headers headers (bosbase.with_query query 
             (bosbase.with_body body (bosbase.with_method "POST" default_SendOptions))) in
         wrap_json
           (call (BosBase_send pb
              ("/api/vectors/" +:+ encodePathSegment (str_or collection_name "") +:+ "/documents/batch")
              opts))
           out_json out_error)
        (fail_std out_error)
  end.

Definition bosbase_vector_get (client : option loc)
    (collection_name id query_json headers_json : cstr)
    (out_json out_error : option loc) : M Z :=
  pb <- client_impl client ;;
  match pb with
  | None => ret (-1)
  | Some pb =>
      try_catch
        (query <- lift (parse_query query_json) ;;
         headers <- lift (parse_headers headers_json) ;;
         let opts :=
           bosbase.with_headers headers (bosbase.with_query query 
             default_SendOptions) in
         wrap_json
           (call (BosBase_send pb
              ("/api/vectors/" +:+ encodePathSegment (str_or collection_name "")
                 +:+ "/" +:+ encodePathSegment (str_or id ""))
              opts))
           out_json out_error)
        (fail_std out_error)
  end.

Definition bosbase_vector_update (client : option loc)
    (collection_name id document_json query_json headers_json : cstr)
    (out_json out_error : option loc) : M Z :=
  pb <- client_impl client ;;
  match pb with
  | None => ret (-1)
  | Some pb =>
      try_catch
        (body <- lift (parse_json_or document_json (JObject ∅)) ;;
         query <- lift (parse_query query_json) ;;
         headers <- lift (parse_headers headers_json) ;;
         let opts :=
           bosbase.with_headers headers (bosbase.with_query query 
             (bosbase.with_body body (bosbase.with_method "PATCH" default_SendOptions))) in
         wrap_json
           (call (BosBase_send pb
              ("/api/vectors/" +:+ encodePathSegment (str_or collection_name "")
                 +:+ "/" +:+ encodePathSegment (str_or id ""))
              opts))
           out_json out_error)
        (fail_std out_error)
  end.

Definition bosbase_vector_delete (client : option loc)
    (collection_name id query_json headers_json : cstr)
    (out_error : option loc) : M Z :=
  pb <- client_impl client ;;
  match pb with
  | None => ret (-1)
  | Some pb =>
      try_catch
        (query <- lift (parse_query query_json) ;;
         headers <- lift (parse_headers headers_json) ;;
         wrap_void
           (let opts :=
              bosbase.with_headers headers
                (bosbase.with_query query
                   (bosbase.with_method "DELETE" default_SendOptions)) in
            _ <- call (BosBase_send pb
                   ("/api/vectors/" +:+ encodePathSegment (str_or collection_name "")
                      +:+ "/" +:+ encodePathSegment (str_or id ""))
                   opts) ;;
            ret tt)
           out_error)
        (fail_std out_error)
  end.

Definition bosbase_vector_list (client : option loc)
    (collection_name : cstr) (page per_page : Z) (query_json headers_json : cstr)
    (out_json out_error : option loc) : M Z :=
  pb <- client_impl client ;;
  match pb with
  | None => ret (-1)
  | Some pb =>
      try_catch
        (query <- lift (parse_query query_json) ;;
         headers <- lift (parse_headers headers_json) ;;
         let query := if bool_decide (0 < page) then <["page" := JInt page]> query else query in
         let query :=
           if bool_decide (0 < per_page) then <["perPage" := JInt per_page]> query
           else query in
         wrap_json
           (let opts :=
              bosbase.with_headers headers (bosbase.with_query query default_SendOptions) in
            call (BosBase_send pb
              ("/api/vectors/" +:+ encodePathSegment (str_or collection_name ""))
              opts))
           out_json out_error)
        (fail_std out_error)
  end.

Definition bosbase_vector_search (client : option loc)
    (collection_name options_json query_json headers_json : cstr)
    (out_json out_error : option loc) : M Z :=
  pb <- client_impl client ;;
  match pb with
  | None => ret (-1)
  | Some pb =>
      try_catch
        (body <- lift (parse_json_or options_json (JObject ∅)) ;;
         query <- lift (parse_query query_json) ;;
         headers <- lift (parse_headers headers_json) ;;
         let opts :=
           bosbase.with_headers headers (bosbase.with_query query 
             (bosbase.with_body body (bosbase.with_method "POST" default_SendOptions))) in
         wrap_json
           (call (BosBase_send pb
              ("/api/vectors/" +:+ encodePathSegment (str_or collection_name "") +:+ "/documents/search")
              opts))
           out_json out_error)
        (fail_std out_error)
  end.

(** *** Caches *)

Definition bosbase_cache_list (client : option loc)
    (query_json headers_json : cstr)
    (out_json out_error : option loc) : M Z :=
  pb <- client_impl client ;;
  match pb with
  | None => ret (-1)
  | Some pb =>
      try_catch
        (query <- lift (parse_query query_json) ;;
         headers <- lift (parse_headers headers_json) ;;
         wrap_json
           (call (Caches_list pb query headers))
           out_json out_error)
        (fail_std out_error)
  end.

(** [body.contains(key) && body[key].is_number_integer()] guarding
    [body[key].get<int>()]. *)
Definition optional_int (body : json) (key : string) : option Z :=
  if contains body key && is_number_integer (at_key body key) then
    match at_key body key with
    | JInt n => Some (to_int n)
    | _ => None
    end
  else None.

Definition bosbase_cache_create (client : option loc)
    (name body_json query_json headers_json : cstr)
    (out_json out_error : option loc) : M Z :=
  pb <- client_impl client ;;
  match pb with
  | None => ret (-1)
  | Some pb =>
      try_catch
        (body <- lift (parse_json_or body_json (JObject ∅)) ;;
         query <- lift (parse_query query_json) ;;
         headers <- lift (parse_headers headers_json) ;;
         let size_bytes := optional_int body "sizeBytes" in
         let default_ttl := optional_int body "defaultTTLSeconds" in
         let read_timeout := optional_int body "readTimeoutMs" in
         wrap_json
           (call (Caches_create pb (str_or name "") size_bytes default_ttl read_timeout
                    body query headers))
           out_json out_error)
        (fail_std out_error)
  end.

Definition bosbase_cache_update (client : option loc)
    (name body_json query_json headers_json : cstr)
    (out_json out_error : option loc) : M Z :=
  pb <- client_impl client ;;
  match pb with
  | None => ret (-1)
  | Some pb =>
      try_catch
        (body <- lift (parse_json_or body_json (JObject ∅)) ;;
         query <- lift (parse_query query_json) ;;
         headers <- lift (parse_headers headers_json) ;;
         wrap_json
           (call (Caches_update pb (str_or name "") body query headers))
           out_json out_error)
        (fail_std out_error)
  end.

Definition bosbase_cache_delete (client : option loc)
    (name query_json headers_json : cstr)
    (out_error : option loc) : M Z :=
  pb <- client_impl client ;;
  match pb with
  | None => ret (-1)
  | Some pb =>
      try_catch
        (query <- lift (parse_query query_json) ;;
         headers <- lift (parse_headers headers_json) ;;
         wrap_void
           (call (Caches_remove pb (str_or name "") query headers))
           out_error)
        (fail_std out_error)
  end.

Definition bosbase_cache_set_entry (client : option loc)
    (cache key value_json : cstr) (ttl_seconds : Z)
    (body_json query_json headers_json : cstr)
    (out_json out_error : option loc) : M Z :=
  pb <- client_impl client ;;
  match pb with
  | None => ret (-1)
  | Some pb =>
      try_catch
        (value <- lift (parse_json_or value_json (JObject ∅)) ;;
         body <- lift (parse_json_or body_json (JObject ∅)) ;;
         query <- lift (parse_query query_json) ;;
         headers <- lift (parse_headers headers_json) ;;
         let ttl := if bool_decide (0 <= ttl_seconds) then Some ttl_seconds else None in
         wrap_json
           (call (Caches_setEntry pb (str_or cache "") (str_or key "") value ttl body
                    query headers))
           out_json out_error)
        (fail_std out_error)
  end.

Definition bosbase_cache_get_entry (client : option loc)
    (cache key query_json headers_json : cstr)
    (out_json out_error : option loc) : M Z :=
  pb <- client_impl client ;;
  match pb with
  | None => ret (-1)
  | Some pb =>
      try_catch
        (query <- lift (parse_query query_json) ;;
         headers <- lift (parse_headers headers_json) ;;
         wrap_json
           (call (Caches_getEntry pb (str_or cache "") (str_or key "") query headers))
           out_json out_error)
        (fail_std out_error)
  end.

Definition bosbase_cache_renew_entry (client : option loc)
    (cache key : cstr) (ttl_seconds : Z)
    (body_json query_json headers_json : cstr)
    (out_json out_error : option loc) : M Z :=
  pb <- client_impl client ;;
  match pb with
  | None => ret (-1)
  | Some pb =>
      try_catch
        (body <- lift (parse_json_or body_json (JObject ∅)) ;;
         query <- lift (parse_query query_json) ;;
         headers <- lift (parse_headers headers_json) ;;
         let ttl := if bool_decide (0 <= ttl_seconds) then Some ttl_seconds else None in
         wrap_json
           (call (Caches_renewEntry pb (str_or cache "") (str_or key "") ttl body query
                    headers))
           out_json out_error)
        (fail_std out_error)
  end.

Definition bosbase_cache_delete_entry (client : option loc)
    (cache key query_json headers_json : cstr)
    (out_error : option loc) : M Z :=
  pb <- client_impl client ;;
  match pb with
  | None => ret (-1)
  | Some pb =>
      try_catch
        (query <- lift (parse_query query_json) ;;
         headers <- lift (parse_headers headers_json) ;;
         wrap_void
           (call (Caches_deleteEntry pb (str_or cache "") (str_or key "") query headers))
           out_error)
        (fail_std out_error)
  end.

(** *** Backups *)

Definition bosbase_backup_get_full_list (client : option loc)
    (query_json headers_json : cstr)
    (out_json out_error : option loc) : M Z :=
  pb <- client_impl client ;;
  match pb with
  | None => ret (-1)
  | Some pb =>
      try_catch
        (query <- lift (parse_query query_json) ;;
         headers <- lift (parse_headers headers_json) ;;
         wrap_json
           (call (Backups_getFullList pb query headers))
           out_json out_error)
        (fail_std out_error)
  end.

Definition bosbase_backup_create (client : option loc)
    (basename query_json headers_json : cstr)
    (out_json out_error : option loc) : M Z :=
  pb <- client_impl client ;;
  match pb with
  | None => ret (-1)
  | Some pb =>
      try_catch
        (query <- lift (parse_query query_json) ;;
         headers <- lift (parse_headers headers_json) ;;
         wrap_json
           (call (Backups_create pb (str_or basename "") query headers))
           out_json out_error)
        (fail_std out_error)
  end.

Definition bosbase_backup_upload (client : option loc)
    (file : option bosbase_file_attachment) (query_json headers_json : cstr)
    (out_json out_error : option loc) : M Z :=
  pb <- client_impl client ;;
  match pb with
  | None => ret (-1)
  | Some pb =>
      try_catch
        (let attachments :=
           convert_files (match file with Some f => Some [f] | None => None end)
             (if file is Some _ then 1%nat else 0%nat) in
         match attachments with
         | [] => throw (std_exception "file is required for backup upload")
         | front :: _ =>
             query <- lift (parse_query query_json) ;;
             headers <- lift (parse_headers headers_json) ;;
             wrap_json
               (call (Backups_upload pb front query headers))
               out_json out_error
         end)
        (fail_std out_error)
  end.

Definition bosbase_backup_delete (client : option loc)
    (key query_json headers_json : cstr)
    (out_error : option loc) : M Z :=
  pb <- client_impl client ;;
  match pb with
  | None => ret (-1)
  | Some pb =>
      try_catch
        (query <- lift (parse_query query_json) ;;
         headers <- lift (parse_headers headers_json) ;;
         wrap_void
           (call (Backups_remove pb (str_or key "") query headers))
           out_error)
        (fail_std out_error)
  end.

Definition bosbase_backup_restore (client : option loc)
    (key query_json headers_json : cstr)
    (out_json out_error : option loc) : M Z :=
  pb <- client_impl client ;;
  match pb with
  | None => ret (-1)
  | Some pb =>
      try_catch
        (query <- lift (parse_query query_json) ;;
         headers <- lift (parse_headers headers_json) ;;
         wrap_json
           (call (Backups_restore pb (str_or key "") query headers))
           out_json out_error)
        (fail_std out_error)
  end.

Definition bosbase_backup_get_download_url (client : option loc)
    (token key : cstr) (out_url out_error : option loc) : M Z :=
  pb <- client_impl client ;;
  match pb with
  | None => ret (-1)
  | Some pb =>
      try_catch
        (url <- call (Backups_getDownloadURL pb (str_or token "") (str_or key "")) ;;
         set_value out_url (dup_string url) ;;;
         ret 0)
        (fail_std out_error)
  end.

(** *** Crons, logs, settings *)

Definition bosbase_cron_get_full_list (client : option loc)
    (query_json headers_json : cstr)
    (out_json out_error : option loc) : M Z :=
  pb <- client_impl client ;;
  match pb with
  | None => ret (-1)
  | Some pb =>
      try_catch
        (query <- lift (parse_query query_json) ;;
         headers <- lift (parse_headers headers_json) ;;
         wrap_json
           (call (Crons_getFullList pb query headers))
           out_json out_error)
        (fail_std out_error)
  end.

Definition bosbase_cron_run (client : option loc)
    (job_id query_json headers_json : cstr)
    (out_json out_error : option loc) : M Z :=
  pb <- client_impl client ;;
  match pb with
  | None => ret (-1)
  | Some pb =>
      try_catch
        (query <- lift (parse_query query_json) ;;
         headers <- lift (parse_headers headers_json) ;;
         wrap_json
           (call (Crons_run pb (str_or job_id "") query headers))
           out_json out_error)
        (fail_std out_error)
  end.

Definition bosbase_logs_get_list (client : option loc)
    (page per_page : Z) (query_json headers_json : cstr)
    (out_json out_error : option loc) : M Z :=
  pb <- client_impl client ;;
  match pb with
  | None => ret (-1)
  | Some pb =>
      try_catch
        (query <- lift (parse_query query_json) ;;
         headers <- lift (parse_headers headers_json) ;;
         wrap_json
           (call (Logs_getList pb page per_page query headers))
           out_json out_error)
        (fail_std out_error)
  end.

Definition bosbase_logs_get_one (client : option loc)
    (id query_json headers_json : cstr)
    (out_json out_error : option loc) : M Z :=
  pb <- client_impl client ;;
  match pb with
  | None => ret (-1)
  | Some pb =>
      try_catch
        (query <- lift (parse_query query_json) ;;
         headers <- lift (parse_headers headers_json) ;;
         wrap_json
           (call (Logs_getOne pb (str_or id "") query headers))
           out_json out_error)
        (fail_std out_error)
  end.

Definition bosbase_logs_get_stats (client : option loc)
    (query_json headers_json : cstr)
    (out_json out_error : option loc) : M Z :=
  pb <- client_impl client ;;
  match pb with
  | None => ret (-1)
  | Some pb =>
      try_catch
        (query <- lift (parse_query query_json) ;;
         headers <- lift (parse_headers headers_json) ;;
         wrap_json
           (call (Logs_getStats pb query headers))
           out_json out_error)
        (fail_std out_error)
  end.

Definition bosbase_settings_get_all (client : option loc)
    (query_json headers_json : cstr)
    (out_json out_error : option loc) : M Z :=
  pb <- client_impl client ;;
  match pb with
  | None => ret (-1)
  | Some pb =>
      try_catch
        (query <- lift (parse_query query_json) ;;
         headers <- lift (parse_headers headers_json) ;;
         wrap_json
           (call (Settings_getAll pb query headers))
           out_json out_error)
        (fail_std out_error)
  end.

Definition bosbase_settings_update (client : option loc)
    (body_json query_json headers_json : cstr)
    (out_json out_error : option loc) : M Z :=
  pb <- client_impl client ;;
  match pb with
  | None => ret (-1)
  | Some pb =>
      try_catch
        (body <- lift (parse_json_or body_json (JObject ∅)) ;;
         query <- lift (parse_query query_json) ;;
         headers <- lift (parse_headers headers_json) ;;
         wrap_json
           (call (Settings_update pb body query headers))
           out_json out_error)
        (fail_std out_error)
  end.

Definition bosbase_settings_test_s3 (client : option loc)
    (filesystem query_json headers_json : cstr)
    (out_json out_error : option loc) : M Z :=
  pb <- client_impl client ;;
  match pb with
  | None => ret (-1)
  | Some pb =>
      try_catch
        (query <- lift (parse_query query_json) ;;
         headers <- lift (parse_headers headers_json) ;;
         wrap_json
           (call (Settings_testS3 pb (nonempty_or filesystem "storage") query headers))
           out_json out_error)
        (fail_std out_error)
  end.

Definition bosbase_settings_test_email (client : option loc)
    (collection_name to_email template_name query_json headers_json : cstr)
    (out_json out_error : option loc) : M Z :=
  pb <- client_impl client ;;
  match pb with
  | None => ret (-1)
  | Some pb =>
      try_catch
        (query <- lift (parse_query query_json) ;;
         headers <- lift (parse_headers headers_json) ;;
         wrap_json
           (call (Settings_testEmail pb (str_or collection_name "") (str_or to_email "")
                    (str_or template_name "") query headers))
           out_json out_error)
        (fail_std out_error)
  end.

Definition bosbase_settings_generate_apple_client_secret (client : option loc)
    (client_id team_id key_id private_key : cstr) (duration : Z)
    (query_json headers_json : cstr)
    (out_json out_error : option loc) : M Z :=
  pb <- client_impl client ;;
  match pb with
  | None => ret (-1)
  | Some pb =>
      try_catch
        (query <- lift (parse_query query_json) ;;
         headers <- lift (parse_headers headers_json) ;;
         wrap_json
           (call (Settings_generateAppleClientSecret pb (str_or client_id "")
                    (str_or team_id "") (str_or key_id "") (str_or private_key "")
                    duration query headers))
           out_json out_error)
        (fail_std out_error)
  end.

(** *** LangChain passthrough *)

Definition bosbase_langchaingo_completions (client : option loc)
    (payload_json query_json headers_json : cstr)
    (out_json out_error : option loc) : M Z :=
  pb <- client_impl client ;;
  match pb with
  | None => ret (-1)
  | Some pb =>
      try_catch
        (body <- lift (parse_json_or payload_json (JObject ∅)) ;;
         query <- lift (parse_query query_json) ;;
         headers <- lift (parse_headers headers_json) ;;
         let opts :=
           bosbase.with_headers headers (bosbase.with_query query 
             (bosbase.with_body body (bosbase.with_method "POST" default_SendOptions))) in
         wrap_json
           (call (BosBase_send pb "/api/langchaingo/completions" opts))
           out_json out_error)
        (fail_std out_error)
  end.

Definition bosbase_langchaingo_rag (client : option loc)
    (payload_json query_json headers_json : cstr)
    (out_json out_error : option loc) : M Z :=
  pb <- client_impl client ;;
  match pb with
  | None => ret (-1)
  | Some pb =>
      try_catch
        (body <- lift (parse_json_or payload_json (JObject ∅)) ;;
         query <- lift (parse_query query_json) ;;
         headers <- lift (parse_headers headers_json) ;;
         let opts :=
           bosbase.with_headers headers (bosbase.with_query query 
             (bosbase.with_body body (bosbase.with_method "POST" default_SendOptions))) in
         wrap_json
           (call (BosBase_send pb "/api/langchaingo/rag" opts))
           out_json out_error)
        (fail_std out_error)
  end.

Definition bosbase_langchaingo_query_documents (client : option loc)
    (payload_json query_json headers_json : cstr)
    (out_json out_error : option loc) : M Z :=
  pb <- client_impl client ;;
  match pb with
  | None => ret (-1)
  | Some pb =>
      try_catch
        (body <- lift (parse_json_or payload_json (JObject ∅)) ;;
         query <- lift (parse_query query_json) ;;
         headers <- lift (parse_headers headers_json) ;;
         let opts :=
           bosbase.with_headers headers (bosbase.with_query query 
             (bosbase.with_body body (bosbase.with_method "POST" default_SendOptions))) in
         wrap_json
           (call (BosBase_send pb "/api/langchaingo/documents/query" opts))
           out_json out_error)
        (fail_std out_error)
  end.

Definition bosbase_langchaingo_sql (client : option loc)
    (payload_json query_json headers_json : cstr)
    (out_json out_error : option loc) : M Z :=
  pb <- client_impl client ;;
  match pb with
  | None => ret (-1)
  | Some pb =>
      try_catch
        (body <- lift (parse_json_or payload_json (JObject ∅)) ;;
         query <- lift (parse_query query_json) ;;
         headers <- lift (parse_headers headers_json) ;;
         let opts :=
           bosbase.with_headers headers (bosbase.with_query query 
             (bosbase.with_body body (bosbase.with_method "POST" default_SendOptions))) in
         wrap_json
           (call (BosBase_send pb "/api/langchaingo/sql" opts))
           out_json out_error)
        (fail_std out_error)
  end.

(** *** LLM documents *)

Definition bosbase_llm_list_collections (client : option loc)
    (query_json headers_json : cstr)
    (out_json out_error : option loc) : M Z :=
  pb <- client_impl client ;;
  match pb with
  | None => ret (-1)
  | Some pb =>
      try_catch
        (query <- lift (parse_query query_json) ;;
         headers <- lift (parse_headers headers_json) ;;
         wrap_json
           (let opts :=
              bosbase.with_headers headers (bosbase.with_query query default_SendOptions) in
            call (BosBase_send pb "/api/llm-documents/collections" opts))
           out_json out_error)
        (fail_std out_error)
  end.

Definition bosbase_llm_create_collection (client : option loc)
    (name metadata_json query_json headers_json : cstr)
    (out_error : option loc) : M Z :=
  pb <- client_impl client ;;
  match pb with
  | None => ret (-1)
  | Some pb =>
      try_catch
        (query <- lift (parse_query query_json) ;;
         headers <- lift (parse_headers headers_json) ;;
         body <- lift (parse_json_or metadata_json (JObject ∅)) ;;
         let opts :=
           bosbase.with_headers headers (bosbase.with_query query
             (bosbase.with_body (if is_null body then JObject ∅ else body)
                (bosbase.with_method "POST" default_SendOptions))) in
         wrap_void
           (_ <- call (BosBase_send pb
                   ("/api/llm-documents/collections/" +:+ encodePathSegment (str_or name ""))
                   opts) ;;
            ret tt)
           out_error)
        (fail_std out_error)
  end.

Definition bosbase_llm_delete_collection (client : option loc)
    (name query_json headers_json : cstr)
    (out_error : option loc) : M Z :=
  pb <- client_impl client ;;
  match pb with
  | None => ret (-1)
  | Some pb =>
      try_catch
        (query <- lift (parse_query query_json) ;;
         headers <- lift (parse_headers headers_json) ;;
         let opts :=
           bosbase.with_headers headers (bosbase.with_query query 
             (bosbase.with_method "DELETE" default_SendOptions)) in
         wrap_void
           (_ <- call (BosBase_send pb
                   ("/api/llm-documents/collections/" +:+ encodePathSegment (str_or name ""))
                   opts) ;;
            ret tt)
           out_error)
        (fail_std out_error)
  end.

Definition bosbase_llm_insert (client : option loc)
    (collection_name document_json query_json headers_json : cstr)
    (out_json out_error : option loc) : M Z :=
  pb <- client_impl client ;;
  match pb with
  | None => ret (-1)
  | Some pb =>
      try_catch
        (body <- lift (parse_json_or document_json (JObject ∅)) ;;
         query <- lift (parse_query query_json) ;;
         headers <- lift (parse_headers headers_json) ;;
         let opts :=
           bosbase.with_headers headers (bosbase.with_query query 
             (bosbase.with_body body (bosbase.with_method "POST" default_SendOptions))) in
         wrap_json
           (call (BosBase_send pb
              ("/api/llm-documents/" +:+ encodePathSegment (str_or collection_name ""))
              opts))
           out_json out_error)
        (fail_std out_error)
  end.

Definition bosbase_llm_get (client : option loc)
    (collection_name id query_json headers_json : cstr)
    (out_json out_error : option loc) : M Z :=
  pb <- client_impl client ;;
  match pb with
  | None => ret (-1)
  | Some pb =>
      try_catch
        (query <- lift (parse_query query_json) ;;
         headers <- lift (parse_headers headers_json) ;;
         wrap_json
           (let opts :=
              bosbase.with_headers headers (bosbase.with_query query default_SendOptions) in
            call (BosBase_send pb
              ("/api/llm-documents/" +:+ encodePathSegment (str_or collection_name "")
                 +:+ "/" +:+ encodePathSegment (str_or id ""))
              opts))
           out_json out_error)
        (fail_std out_error)
  end.

Definition bosbase_llm_update (client : option loc)
    (collection_name id document_json query_json headers_json : cstr)
    (out_json out_error : option loc) : M Z :=
  pb <- client_impl client ;;
  match pb with
  | None => ret (-1)
  | Some pb =>
      try_catch
        (body <- lift (parse_json_or document_json (JObject ∅)) ;;
         query <- lift (parse_query query_json) ;;
         headers <- lift (parse_headers headers_json) ;;
         let opts :=
           bosbase.with_headers headers (bosbase.with_query query 
             (bosbase.with_body body (bosbase.with_method "PATCH" default_SendOptions))) in
         wrap_json
           (call (BosBase_send pb
              ("/api/llm-documents/" +:+ encodePathSegment (str_or collection_name "")
                 +:+ "/" +:+ encodePathSegment (str_or id ""))
              opts))
           out_json out_error)
        (fail_std out_error)
  end.

Definition bosbase_llm_delete (client : option loc)
    (collection_name id query_json headers_json : cstr)
    (out_error : option loc) : M Z :=
  pb <- client_impl client ;;
  match pb with
  | None => ret (-1)
  | Some pb =>
      try_catch
        (query <- lift (parse_query query_json) ;;
         headers <- lift (parse_headers headers_json) ;;
         let opts :=
           bosbase.with_headers headers (bosbase.with_query query 
             (bosbase.with_method "DELETE" default_SendOptions)) in
         wrap_void
           (_ <- call (BosBase_send pb
                   ("/api/llm-documents/" +:+ encodePathSegment (str_or collection_name "")
                      +:+ "/" +:+ encodePathSegment (str_or id ""))
                   opts) ;;
            ret tt)
           out_error)
        (fail_std out_error)
  end.

Definition bosbase_llm_list (client : option loc)
    (collection_name : cstr) (page per_page : Z) (query_json headers_json : cstr)
    (out_json out_error : option loc) : M Z :=
  pb <- client_impl client ;;
  match pb with
  | None => ret (-1)
  | Some pb =>
      try_catch
        (query <- lift (parse_query query_json) ;;
         headers <- lift (parse_headers headers_json) ;;
         let query := if bool_decide (0 < page) then <["page" := JInt page]> query else query in
         let query :=
           if bool_decide (0 < per_page) then <["perPage" := JInt per_page]> query
           else query in
         let opts :=
           bosbase.with_headers headers (bosbase.with_query query default_SendOptions) in
         wrap_json
           (call (BosBase_send pb
              ("/api/llm-documents/" +:+ encodePathSegment (str_or collection_name ""))
              opts))
           out_json out_error)
        (fail_std out_error)
  end.

Definition bosbase_llm_query (client : option loc)
    (collection_name options_json query_json headers_json : cstr)
    (out_json out_error : option loc) : M Z :=
  pb <- client_impl client ;;
  match pb with
  | None => ret (-1)
  | Some pb =>
      try_catch
        (body <- lift (parse_json_or options_json (JObject ∅)) ;;
         query <- lift (parse_query query_json) ;;
         headers <- lift (parse_headers headers_json) ;;
         let opts :=
           bosbase.with_headers headers (bosbase.with_query query 
             (bosbase.with_body body (bosbase.with_method "POST" default_SendOptions))) in
         wrap_json
           (call (BosBase_send pb
              ("/api/llm-documents/" +:+ encodePathSegment (str_or collection_name "") +:+ "/documents/query")
              opts))
           out_json out_error)
        (fail_std out_error)
  end.

(** *** Batch builder *)

Definition bosbase_batch_collection_create (batch : option loc)
    (collection_name body_json : cstr)
    (files : option (list bosbase_file_attachment)) (files_len : nat)
    (expand fields query_json : cstr)
    (out_error : option loc) : M Z :=
  bs <- batch_service batch ;;
  match bs with
  | None => ret (-1)
  | Some bs =>
      try_catch
        (body <- lift (parse_json_or body_json (JObject ∅)) ;;
         query <- lift (parse_query query_json) ;;
         let attachments := convert_files files files_len in
         let e := opt_str expand in
         let fld := opt_str fields in
         svc <- collection bs (str_or collection_name "") ;;
         call (Batch_create svc body query attachments e fld) ;;;
         ret 0)
        (fail_both out_error)
  end.

Definition bosbase_batch_collection_upsert (batch : option loc)
    (collection_name body_json : cstr)
    (files : option (list bosbase_file_attachment)) (files_len : nat)
    (expand fields query_json : cstr)
    (out_error : option loc) : M Z :=
  bs <- batch_service batch ;;
  match bs with
  | None => ret (-1)
  | Some bs =>
      try_catch
        (body <- lift (parse_json_or body_json (JObject ∅)) ;;
         query <- lift (parse_query query_json) ;;
         let attachments := convert_files files files_len in
         let e := opt_str expand in
         let fld := opt_str fields in
         svc <- collection bs (str_or collection_name "") ;;
         call (Batch_upsert svc body query attachments e fld) ;;;
         ret 0)
        (fail_both out_error)
  end.

Definition bosbase_batch_collection_update (batch : option loc)
    (collection_name record_id body_json : cstr)
    (files : option (list bosbase_file_attachment)) (files_len : nat)
    (expand fields query_json : cstr)
    (out_error : option loc) : M Z :=
  bs <- batch_service batch ;;
  match bs with
  | None => ret (-1)
  | Some bs =>
      try_catch
        (body <- lift (parse_json_or body_json (JObject ∅)) ;;
         query <- lift (parse_query query_json) ;;
         let attachments := convert_files files files_len in
         let e := opt_str expand in
         let fld := opt_str fields in
         svc <- collection bs (str_or collection_name "") ;;
         call (Batch_update svc (str_or record_id "") body query attachments e fld) ;;;
         ret 0)
        (fail_both out_error)
  end.

Definition bosbase_batch_collection_delete (batch : option loc)
    (collection_name record_id body_json query_json : cstr)
    (out_error : option loc) : M Z :=
  bs <- batch_service batch ;;
  match bs with
  | None => ret (-1)
  | Some bs =>
      try_catch
        (body <- lift (parse_json_or body_json (JObject ∅)) ;;
         query <- lift (parse_query query_json) ;;
         svc <- collection bs (str_or collection_name "") ;;
         call (Batch_remove svc (str_or record_id "") body query) ;;;
         ret 0)
        (fail_both out_error)
  end.

Definition bosbase_batch_send (batch : option loc)
    (body_json query_json headers_json : cstr)
    (out_json out_error : option loc) : M Z :=
  bs <- batch_service batch ;;
  match bs with
  | None => ret (-1)
  | Some bs =>
      try_catch
        (body <- lift (parse_json_or body_json (JObject ∅)) ;;
         query <- lift (parse_query query_json) ;;
         headers <- lift (parse_headers headers_json) ;;
         wrap_json
           (call (Batch_send bs body query headers))
           out_json out_error)
        (fail_both out_error)
  end.

(** *** Publish / subscribe *)

Definition bosbase_pubsub_publish (client : option loc) (topic data_json : cstr)
    (out_json out_error : option loc) : M Z :=
  pb <- client_impl client ;;
  match pb with
  | None => ret (-1)
  | Some pb =>
      try_catch
        (data <- lift (parse_json_or data_json (JObject ∅)) ;;
         wrap_json
           (msg <- call (PubSub_publish pb (str_or topic "") data) ;;
            let payload := JNull in
            let payload :=
              set_key "id" (JString (bosbase.PubSubMessage.id msg)) payload in
            let payload :=
              set_key "topic" (JString (bosbase.PubSubMessage.topic msg)) payload in
            let payload :=
              set_key "created" (JString (bosbase.PubSubMessage.created msg))
                payload in
            let payload := set_key "data" (bosbase.PubSubMessage.data msg) payload in
            ret payload)
           out_json out_error)
        (fail_both out_error)
  end.

Definition bosbase_pubsub_subscribe (client : option loc) (topic : cstr)
    (callback : option N) (user_data : Z) (out_error : option loc)
    : M (option loc) :=
  pb <- client_impl client ;;
  match pb, callback with
  | Some pb, Some callback =>
      try_catch
        (let cb := {| bosbase.callback := callback;
                      bosbase.user_data := user_data |} in
         cancel <- call (PubSub_subscribe pb (str_or topic "") cb) ;;
         sub <- new_subscription {| holder := Some {| cancel := cancel |} |} ;;
         ret (Some sub))
        (fun e => catch_both out_error e ;;; ret None)
  | _, _ => ret None
  end.

Definition bosbase_pubsub_disconnect (client : option loc) : M unit :=
  pb <- client_impl client ;;
  match pb with
  | None => ret tt
  | Some pb => call (PubSub_disconnect pb)
  end.

(** *** Dispatch of a call to the function it names *)

Definition run_client (client : option loc) (c : client_call) : M Z :=
  match c with
  | E_auth_save token record_json out_error
      => bosbase_auth_save client token record_json out_error
  | E_filter expr params_json out_string out_error
      => bosbase_filter client expr params_json out_string out_error
  | E_send path method body_json query_json headers_json timeout_ms files files_len
      out_json out_error
      => bosbase_send client path method body_json query_json headers_json
         timeout_ms files files_len out_json out_error
  | E_collection_get_list collection_name page per_page filter sort expand fields query_json
      headers_json out_json out_error
      => bosbase_collection_get_list client collection_name page per_page
         filter sort expand fields query_json headers_json out_json out_error
  | E_collection_get_one collection_name record_id expand fields query_json headers_json out_json
      out_error
      => bosbase_collection_get_one client collection_name record_id expand
         fields query_json headers_json out_json out_error
  | E_collection_get_full_list collection_name batch_size filter sort expand fields query_json
      headers_json out_json out_error
      => bosbase_collection_get_full_list client collection_name batch_size
         filter sort expand fields query_json headers_json out_json out_error
  | E_collection_create collection_name body_json files files_len expand fields query_json
      headers_json out_json out_error
      => bosbase_collection_create client collection_name body_json files
         files_len expand fields query_json headers_json out_json out_error
  | E_collection_update collection_name record_id body_json files files_len expand fields
      query_json headers_json out_json out_error
      => bosbase_collection_update client collection_name record_id body_json
         files files_len expand fields query_json headers_json out_json
         out_error
  | E_collection_delete collection_name record_id body_json query_json headers_json out_error
      => bosbase_collection_delete client collection_name record_id body_json
         query_json headers_json out_error
  | E_collection_auth_with_password collection_name identity password body_json expand fields query_json
      headers_json out_json out_error
      => bosbase_collection_auth_with_password client collection_name identity
         password body_json expand fields query_json headers_json out_json
         out_error
  | E_collection_auth_refresh collection_name body_json expand fields query_json headers_json out_json
      out_error
      => bosbase_collection_auth_refresh client collection_name body_json
         expand fields query_json headers_json out_json out_error
  | E_collection_request_password_reset collection_name email body_json query_json headers_json out_error
      => bosbase_collection_request_password_reset client collection_name
         email body_json query_json headers_json out_error
  | E_collection_confirm_password_reset collection_name token password password_confirm body_json query_json
      headers_json out_error
      => bosbase_collection_confirm_password_reset client collection_name
         token password password_confirm body_json query_json headers_json
         out_error
  | E_collection_request_verification collection_name email body_json query_json headers_json out_error
      => bosbase_collection_request_verification client collection_name email
         body_json query_json headers_json out_error
  | E_collection_confirm_verification collection_name token body_json query_json headers_json out_error
      => bosbase_collection_confirm_verification client collection_name token
         body_json query_json headers_json out_error
  | E_files_get_url record_json filename thumb token download query_json out_url out_error
      => bosbase_files_get_url client record_json filename thumb token
         download query_json out_url out_error
  | E_files_get_token query_json headers_json out_json out_error
      => bosbase_files_get_token client query_json headers_json out_json
         out_error
  | E_health_check query_json headers_json out_json out_error
      => bosbase_health_check client query_json headers_json out_json
         out_error
  | E_graphql_query query variables_json query_json headers_json out_json out_error
      => bosbase_graphql_query client query variables_json query_json
         headers_json out_json out_error
  | E_sql_execute query query_json headers_json out_json out_error
      => bosbase_sql_execute client query query_json headers_json out_json
         out_error
  | E_vector_create_collection name config_json query_json headers_json out_json out_error
      => bosbase_vector_create_collection client name config_json query_json
         headers_json out_json out_error
  | E_vector_update_collection name config_json query_json headers_json out_json out_error
      => bosbase_vector_update_collection client name config_json query_json
         headers_json out_json out_error
  | E_vector_list_collections query_json headers_json out_json out_error
      => bosbase_vector_list_collections client query_json headers_json
         out_json out_error
  | E_vector_delete_collection name query_json headers_json out_error
      => bosbase_vector_delete_collection client name query_json headers_json
         out_error
  | E_vector_insert collection_name document_json query_json headers_json out_json out_error
      => bosbase_vector_insert client collection_name document_json query_json
         headers_json out_json out_error
  | E_vector_batch_insert collection_name options_json query_json headers_json out_json out_error
      => bosbase_vector_batch_insert client collection_name options_json
         query_json headers_json out_json out_error
  | E_vector_get collection_name id query_json headers_json out_json out_error
      => bosbase_vector_get client collection_name id query_json headers_json
         out_json out_error
  | E_vector_update collection_name id document_json query_json headers_json out_json
      out_error
      => bosbase_vector_update client collection_name id document_json
         query_json headers_json out_json out_error
  | E_vector_delete collection_name id query_json headers_json out_error
      => bosbase_vector_delete client collection_name id query_json
         headers_json out_error
  | E_vector_list collection_name page per_page query_json headers_json out_json out_error
      => bosbase_vector_list client collection_name page per_page query_json
         headers_json out_json out_error
  | E_vector_search collection_name options_json query_json headers_json out_json out_error
      => bosbase_vector_search client collection_name options_json query_json
         headers_json out_json out_error
  | E_cache_list query_json headers_json out_json out_error
      => bosbase_cache_list client query_json headers_json out_json out_error
  | E_cache_create name body_json query_json headers_json out_json out_error
      => bosbase_cache_create client name body_json query_json headers_json
         out_json out_error
  | E_cache_update name body_json query_json headers_json out_json out_error
      => bosbase_cache_update client name body_json query_json headers_json
         out_json out_error
  | E_cache_delete name query_json headers_json out_error
      => bosbase_cache_delete client name query_json headers_json out_error
  | E_cache_set_entry cache key value_json ttl_seconds body_json query_json headers_json
      out_json out_error
      => bosbase_cache_set_entry client cache key value_json ttl_seconds
         body_json query_json headers_json out_json out_error
  | E_cache_get_entry cache key query_json headers_json out_json out_error
      => bosbase_cache_get_entry client cache key query_json headers_json
         out_json out_error
  | E_cache_renew_entry cache key ttl_seconds body_json query_json headers_json out_json
      out_error
      => bosbase_cache_renew_entry client cache key ttl_seconds body_json
         query_json headers_json out_json out_error
  | E_cache_delete_entry cache key query_json headers_json out_error
      => bosbase_cache_delete_entry client cache key query_json headers_json
         out_error
  | E_backup_get_full_list query_json headers_json out_json out_error
      => bosbase_backup_get_full_list client query_json headers_json out_json
         out_error
  | E_backup_create basename query_json headers_json out_json out_error
      => bosbase_backup_create client basename query_json headers_json
         out_json out_error
  | E_backup_upload file query_json headers_json out_json out_error
      => bosbase_backup_upload client file query_json headers_json out_json
         out_error
  | E_backup_delete key query_json headers_json out_error
      => bosbase_backup_delete client key query_json headers_json out_error
  | E_backup_restore key query_json headers_json out_json out_error
      => bosbase_backup_restore client key query_json headers_json out_json
         out_error
  | E_backup_get_download_url token key out_url out_error
      => bosbase_backup_get_download_url client token key out_url out_error
  | E_cron_get_full_list query_json headers_json out_json out_error
      => bosbase_cron_get_full_list client query_json headers_json out_json
         out_error
  | E_cron_run job_id query_json headers_json out_json out_error
      => bosbase_cron_run client job_id query_json headers_json out_json
         out_error
  | E_logs_get_list page per_page query_json headers_json out_json out_error
      => bosbase_logs_get_list client page per_page query_json headers_json
         out_json out_error
  | E_logs_get_one id query_json headers_json out_json out_error
      => bosbase_logs_get_one client id query_json headers_json out_json
         out_error
  | E_logs_get_stats query_json headers_json out_json out_error
      => bosbase_logs_get_stats client query_json headers_json out_json
         out_error
  | E_settings_get_all query_json headers_json out_json out_error
      => bosbase_settings_get_all client query_json headers_json out_json
         out_error
  | E_settings_update body_json query_json headers_json out_json out_error
      => bosbase_settings_update client body_json query_json headers_json
         out_json out_error
  | E_settings_test_s3 filesystem query_json headers_json out_json out_error
      => bosbase_settings_test_s3 client filesystem query_json headers_json
         out_json out_error
  | E_settings_test_email collection_name to_email template_name query_json headers_json out_json
      out_error
      => bosbase_settings_test_email client collection_name to_email
         template_name query_json headers_json out_json out_error
  | E_settings_generate_apple_client_secret client_id team_id key_id private_key duration query_json headers_json
      out_json out_error
      => bosbase_settings_generate_apple_client_secret client client_id
         team_id key_id private_key duration query_json headers_json out_json
         out_error
  | E_langchaingo_completions payload_json query_json headers_json out_json out_error
      => bosbase_langchaingo_completions client payload_json query_json
         headers_json out_json out_error
  | E_langchaingo_rag payload_json query_json headers_json out_json out_error
      => bosbase_langchaingo_rag client payload_json query_json headers_json
         out_json out_error
  | E_langchaingo_query_documents payload_json query_json headers_json out_json out_error
      => bosbase_langchaingo_query_documents client payload_json query_json
         headers_json out_json out_error
  | E_langchaingo_sql payload_json query_json headers_json out_json out_error
      => bosbase_langchaingo_sql client payload_json query_json headers_json
         out_json out_error
  | E_llm_list_collections query_json headers_json out_json out_error
      => bosbase_llm_list_collections client query_json headers_json out_json
         out_error
  | E_llm_create_collection name metadata_json query_json headers_json out_error
      => bosbase_llm_create_collection client name metadata_json query_json
         headers_json out_error
  | E_llm_delete_collection name query_json headers_json out_error
      => bosbase_llm_delete_collection client name query_json headers_json
         out_error
  | E_llm_insert collection_name document_json query_json headers_json out_json out_error
      => bosbase_llm_insert client collection_name document_json query_json
         headers_json out_json out_error
  | E_llm_get collection_name id query_json headers_json out_json out_error
      => bosbase_llm_get client collection_name id query_json headers_json
         out_json out_error
  | E_llm_update collection_name id document_json query_json headers_json out_json
      out_error
      => bosbase_llm_update client collection_name id document_json query_json
         headers_json out_json out_error
  | E_llm_delete collection_name id query_json headers_json out_error
      => bosbase_llm_delete client collection_name id query_json headers_json
         out_error
  | E_llm_list collection_name page per_page query_json headers_json out_json out_error
      => bosbase_llm_list client collection_name page per_page query_json
         headers_json out_json out_error
  | E_llm_query collection_name options_json query_json headers_json out_json out_error
      => bosbase_llm_query client collection_name options_json query_json
         headers_json out_json out_error
  | E_pubsub_publish topic data_json out_json out_error
      => bosbase_pubsub_publish client topic data_json out_json out_error
  end.

Definition run_batch (batch : option loc) (c : batch_call) : M Z :=
  match c with
  | E_batch_collection_create collection_name body_json files files_len expand fields query_json
      out_error
      => bosbase_batch_collection_create batch collection_name body_json files
         files_len expand fields query_json out_error
  | E_batch_collection_upsert collection_name body_json files files_len expand fields query_json
      out_error
      => bosbase_batch_collection_upsert batch collection_name body_json files
         files_len expand fields query_json out_error
  | E_batch_collection_update collection_name record_id body_json files files_len expand fields
      query_json out_error
      => bosbase_batch_collection_update batch collection_name record_id
         body_json files files_len expand fields query_json out_error
  | E_batch_collection_delete collection_name record_id body_json query_json out_error
      => bosbase_batch_collection_delete batch collection_name record_id
         body_json query_json out_error
  | E_batch_send body_json query_json headers_json out_json out_error
      => bosbase_batch_send batch body_json query_json headers_json out_json
         out_error
  end.

Definition run (e : entry) : M Z :=
  match e with
  | OnClient client c => run_client client c
  | OnBatch batch c => run_batch batch c
  end.


Definition run_subscribe (client : option loc) (c : subscribe_call)
  : M (option loc) :=
  match c with
  | S_collection_subscribe collection_name topic callback user_data query_json
      headers_json out_error
      => bosbase_collection_subscribe client collection_name topic callback
           user_data query_json headers_json out_error
  | S_pubsub_subscribe topic callback user_data out_error
      => bosbase_pubsub_subscribe client topic callback user_data out_error
  end.

Definition perform (r : request) : M outcome :=
  match r with
  | Call e => z <- run e ;; ret (Status z)
  | Subscribe client c => h <- run_subscribe client c ;; ret (Handle h)
  end.

(** ** What a caller observes *)

(** The text behind a character pointer. *)
Definition text_at (s : state) (p : ptr) : option string :=
  match p with
  | Null => None
  | Heap a =>
      match heap s !! a with
      | Some (BString t) => Some t
      | _ => None
      end
  | Literal t => Some t
  | Internal _ t => Some t
  end.

(** The Error Value behind the caller's variable [l] after a call. *)
Definition error_at (s : state) (l : loc) : option bosbase_error :=
  match out_errors s !! l with
  | Some (Some a) =>
      match heap s !! a with
      | Some (BError e) => Some e
      | _ => None
      end
  | _ => None
  end.

(** The handle of a call is null or refers to a live object. *)
Definition usable (s : state) (e : entry) : Prop :=
  match e with
  | OnClient None _ | OnBatch None _ => True
  | OnClient (Some c) _ => is_Some (clients s !! c)
  | OnBatch (Some b) _ => is_Some (batches s !! b)
  end.

(** The handle of a call refers to a live object whose inner
    implementation is present. *)
Definition ready (s : state) (e : entry) : Prop :=
  match e with
  | OnClient (Some c) _ => exists pb, clients s !! c = Some {| impl := Some pb |}
  | OnBatch (Some b) _ =>
      exists o bs, batches s !! b = Some {| batch_owner := o; batch_impl := Some bs |}
  | _ => False
  end.

(** The handle of a call is null, or refers to a live object whose inner
    implementation pointer is null. *)
Definition null_handle (s : state) (e : entry) : Prop :=
  match e with
  | OnClient None _ | OnBatch None _ => True
  | OnClient (Some c) _ => clients s !! c = Some {| impl := None |}
  | OnBatch (Some b) _ =>
      exists o, batches s !! b = Some {| batch_owner := o; batch_impl := None |}
  end.

(** A non-empty text that is not the encoding of an object. *)
Definition malformed (text : string) : Prop :=
  text <> "" /\
  match json_parse text with
  | inl _ => True
  | inr j => is_object j = false
  end.

(** What [dup_string] may have done to a heap: nothing when the allocator
    refused, otherwise one new block holding the text. *)
Definition duplicated (h : gmap loc block) (str : string) (p : ptr)
    (h' : gmap loc block) : Prop :=
  (p = Null /\ h' = h /\
   out_of_memory h (N.of_nat (String.length str) + 1) = true) \/
  (exists b, p = Heap b /\ h !! b = None /\ h' = <[b := BString str]> h /\
             out_of_memory h (N.of_nat (String.length str) + 1) = false).

(** A Boundary String: the pointer is a block that did not exist before
    the call and that the call added to the heap, filled with a text. *)
Definition boundary_string (s s' : state) (p : ptr) : Prop :=
  exists a t, p = Heap a /\ heap s !! a = None /\
              heap s' = <[a := BString t]> (heap s).

(** What a status-returning call [e] leaves behind when it returns [z]
    in [s'] after starting in [s]. *)
Definition framed (e : entry) (s : state) (z : Z) (s' : state) : Prop :=
  (z = 0 \/ z = -1) /\
  clients s' = clients s /\ batches s' = batches s /\
  subscriptions s' = subscriptions s /\
  (z = 0 ->
   out_errors s' = out_errors s /\
   match out_value_of e with
   | None => out_values s' = out_values s /\ heap s' = heap s
   | Some l =>
       exists p, out_values s' = <[l := p]> (out_values s) /\
                 ((p = Null /\ heap s' = heap s) \/ boundary_string s s' p)
   end) /\
  (z <> 0 -> out_values s' = out_values s) /\
  (z <> 0 -> out_error_of e = None ->
   out_errors s' = out_errors s /\ heap s' = heap s).

(** An Error Value built by the boundary itself. *)
Definition local_error (err : bosbase_error) : Prop :=
  status err = -1 /\ is_abort err = 0 /\ url err = Null /\ response err = Null.

(** A call failed before the inner library was asked to do anything:
    no operation was issued, the value out-parameter is as before, and the
    error out-parameter, when given, holds a local Error Value. *)
Definition failed_locally (out_error : option loc) (s s' : state) : Prop :=
  operations (trace s') = operations (trace s) /\
  out_values s' = out_values s /\
  match out_error with
  | None => out_errors s' = out_errors s /\ heap s' = heap s
  | Some l => exists err, error_at s' l = Some err /\ local_error err
  end.


(** The pointer [p] is a heap block of [h] holding the text [t]. *)
Definition text_in (h : gmap loc block) (p : ptr) (t : string) : Prop :=
  exists b, p = Heap b /\ h !! b = Some (BString t).



(** The call is given a live handle with its inner implementation, and a
    subscription is given a callback. *)
Definition request_ready (s : state) (r : request) : Prop :=
  match r with
  | Call e => ready s e
  | Subscribe (Some c) (S_collection_subscribe _ _ (Some _) _ _ _ _)
  | Subscribe (Some c) (S_pubsub_subscribe _ (Some _) _ _) =>
      exists pb, clients s !! c = Some {| impl := Some pb |}
  | _ => False
  end.


(** The heap after [std::free(p)], and what makes [p] fit for it: null, or
    a live [malloc] block. *)
Definition release (p : ptr) (h : gmap loc block) : gmap loc block :=
  match p with
  | Heap b => delete b h
  | _ => h
  end.

Definition owned (h : gmap loc block) (p : ptr) : Prop :=
  match p with
  | Null => True
  | Heap b => is_Some (h !! b)
  | _ => False
  end.

Definition block_of (p : ptr) : list loc :=
  match p with
  | Heap b => [b]
  | _ => []
  end.

(** The struct at [a] is an Error Value whose three strings are null or
    live blocks of their own. *)
Definition releasable (h : gmap loc block) (a : loc) (err : bosbase_error)
  : Prop :=
  h !! a = Some (BError err) /\
  owned h (url err) /\ owned h (message err) /\ owned h (response err) /\
  NoDup (a :: block_of (url err) ++ block_of (message err)
           ++ block_of (response err)).



(** A piece of boundary code that, whenever it returns, leaves the store of
    subscription handles as it found it. *)
Definition keeps_subscriptions {A} (m : M A) (s : state) : Prop :=
  forall a s', m s = Done a s' -> subscriptions s' = subscriptions s.

(** ** Reasoning about boundary code

    [wp m Q E s]: from [s], [m] neither faults nor hangs; if it returns,
    [Q] holds of the value and the final state, and if it throws, [E]
    holds of the exception and the final state. *)
Definition wp {A} (m : M A) (Q : A -> state -> Prop)
    (E : exception -> state -> Prop) (s : state) : Prop :=
  match m s with
  | Done a s' => Q a s'
  | Thrown e s' => E e s'
  | Fault => False
  end.

Definition never : exception -> state -> Prop := fun _ _ => False.

(** ** Event delivery

    The closures that the two subscribe entry points hand to the inner
    library, which runs them when an event arrives.  What a closure calls
    is the C function behind the caller's callback pointer:
    [record_event_cb] and [pubsub_cb] give, for a callback pointer, that
    function applied to its arguments.  The [const char*] arguments that
    point into the message are given by their text. *)

(** [[callback, user_data](const nlohmann::json& evt) { ... }] of
    [bosbase_collection_subscribe]. *)
Definition record_listener (record_event_cb : N -> ptr -> Z -> M unit)
    (cb : bosbase.Listener) (evt : json) : M unit :=
  json <- dup_json evt ;;
  record_event_cb (bosbase.callback cb) json (bosbase.user_data cb) ;;;
  bosbase_free_string json.

(** [[callback, user_data](const bosbase::PubSubMessage& msg) { ... }] of
    [bosbase_pubsub_subscribe]. *)
Definition pubsub_listener
    (pubsub_cb : N -> string -> string -> string -> ptr -> Z -> M unit)
    (cb : bosbase.Listener) (msg : bosbase.PubSubMessage.t) : M unit :=
  data <- dup_json (bosbase.PubSubMessage.data msg) ;;
  pubsub_cb (bosbase.callback cb) (bosbase.PubSubMessage.topic msg)
    (bosbase.PubSubMessage.id msg) (bosbase.PubSubMessage.created msg)
    data (bosbase.user_data cb) ;;;
  bosbase_free_string data.

(** ** Error Values, by what they were made from *)

(** The Error Value that the handler pair of [wrap_json] and [wrap_void]
    makes from an exception, as it reads in the state [s']: from a
    standard exception the status -1, no URL, no response, and [what()]
    as message; from a [ClientResponseError] its status, abort flag and
    URL, and its serialised response both as message and as response. *)
Definition translation (e : exception) (s' : state) (err : bosbase_error)
  : Prop :=
  match e with
  | std_exception w =>
      status err = -1 /\ is_abort err = 0 /\ url err = Null /\
      response err = Null /\ text_at s' (message err) = Some w
  | ClientResponseError ex =>
      status err = to_int (bosbase.status ex) /\
      is_abort err = (if bosbase.isAbort ex then 1 else 0) /\
      text_at s' (url err) = Some (bosbase.url ex) /\
      text_at s' (message err) = Some (json_dump (bosbase.response ex)) /\
      text_at s' (response err) = Some (json_dump (bosbase.response ex))
  end.

(** The Error Value that a handler for [std::exception] alone makes from
    any exception: status -1, no URL, no response, [what()] as message. *)
Definition flattened (e : exception) (s' : state) (err : bosbase_error)
  : Prop :=
  status err = -1 /\ is_abort err = 0 /\ url err = Null /\
  response err = Null /\ text_at s' (message err) = Some (what e).

(** ** Error Values, by what releasing them gives back *)

(** The heap [h'] holds, besides what [h] holds, exactly the blocks of the
    Error Value [v]: nothing when [v] is null, otherwise a struct with
    strings that are null or blocks of their own, without which [h'] is
    [h]. *)
Definition released_to (h : gmap loc block) (v : option loc)
    (h' : gmap loc block) : Prop :=
  match v with
  | None => h' = h
  | Some a =>
      exists err,
        releasable h' a err /\
        delete a (release (response err)
                    (release (message err) (release (url err) h'))) = h
  end.

(** ** The other JSON texts of a call

    The texts of a call, other than [query_json] and [headers_json], that
    the entry point parses: the parameters it gives to [parse_json_or],
    and the [params_json] of [bosbase_filter], which it gives to
    [parse_query]. *)
Definition documents_of_client (c : client_call) : list cstr :=
  match c with
  | E_auth_save _ record_json _ => [record_json]
  | E_filter _ params_json _ _ => [params_json]
  | E_send _ _ body_json _ _ _ _ _ _ _ => [body_json]
  | E_collection_create _ body_json _ _ _ _ _ _ _ _ => [body_json]
  | E_collection_update _ _ body_json _ _ _ _ _ _ _ _ => [body_json]
  | E_collection_delete _ _ body_json _ _ _ => [body_json]
  | E_collection_auth_with_password _ _ _ body_json _ _ _ _ _ _ =>
      [body_json]
  | E_collection_auth_refresh _ body_json _ _ _ _ _ _ => [body_json]
  | E_collection_request_password_reset _ _ body_json _ _ _ => [body_json]
  | E_collection_confirm_password_reset _ _ _ _ body_json _ _ _ =>
      [body_json]
  | E_collection_request_verification _ _ body_json _ _ _ => [body_json]
  | E_collection_confirm_verification _ _ body_json _ _ _ => [body_json]
  | E_files_get_url record_json _ _ _ _ _ _ _ => [record_json]
  | E_graphql_query _ variables_json _ _ _ _ => [variables_json]
  | E_vector_create_collection _ config_json _ _ _ _ => [config_json]
  | E_vector_update_collection _ config_json _ _ _ _ => [config_json]
  | E_vector_insert _ document_json _ _ _ _ => [document_json]
  | E_vector_batch_insert _ options_json _ _ _ _ => [options_json]
  | E_vector_update _ _ document_json _ _ _ _ => [document_json]
  | E_vector_search _ options_json _ _ _ _ => [options_json]
  | E_cache_create _ body_json _ _ _ _ => [body_json]
  | E_cache_update _ body_json _ _ _ _ => [body_json]
  | E_cache_set_entry _ _ value_json _ body_json _ _ _ _ => [value_json;
      body_json]
  | E_cache_renew_entry _ _ _ body_json _ _ _ _ => [body_json]
  | E_settings_update body_json _ _ _ _ => [body_json]
  | E_langchaingo_completions payload_json _ _ _ _ => [payload_json]
  | E_langchaingo_rag payload_json _ _ _ _ => [payload_json]
  | E_langchaingo_query_documents payload_json _ _ _ _ => [payload_json]
  | E_langchaingo_sql payload_json _ _ _ _ => [payload_json]
  | E_llm_create_collection _ metadata_json _ _ _ => [metadata_json]
  | E_llm_insert _ document_json _ _ _ _ => [document_json]
  | E_llm_update _ _ document_json _ _ _ _ => [document_json]
  | E_llm_query _ options_json _ _ _ _ => [options_json]
  | E_pubsub_publish _ data_json _ _ => [data_json]
  | _ => []
  end.

Definition documents_of_batch (c : batch_call) : list cstr :=
  match c with
  | E_batch_collection_create _ body_json _ _ _ _ _ _ => [body_json]
  | E_batch_collection_upsert _ body_json _ _ _ _ _ _ => [body_json]
  | E_batch_collection_update _ _ body_json _ _ _ _ _ _ => [body_json]
  | E_batch_collection_delete _ _ body_json _ _ => [body_json]
  | E_batch_send body_json _ _ _ _ => [body_json]
  end.

Definition documents_of (e : entry) : list cstr :=
  match e with
  | OnClient _ c => documents_of_client c
  | OnBatch _ c => documents_of_batch c
  end.

(** ** Programs of calls *)

(** A sequence of status-returning calls, run one after the other, with
    the statuses they return. *)
Fixpoint run_all (calls : list entry) : M (list Z) :=
  match calls with
  | [] => ret []
  | e :: rest =>
      z <- run e ;;
      zs <- run_all rest ;;
      ret (z :: zs)
  end.

(** ** Rules of the calculus *)

Lemma wp_ret {A} (a : A) Q E s : Q a s -> wp (ret a) Q E s.
Proof. intros H. exact H. Qed.

Lemma wp_throw {A} e (Q : A -> state -> Prop) E s : E e s -> wp (throw e) Q E s.
Proof. intros H. exact H. Qed.

Lemma wp_bind {A B} (m : M A) (f : A -> M B) Q E s :
  wp m (fun a s' => wp (f a) Q E s') E s -> wp (bind m f) Q E s.
Proof. unfold wp, bind. destruct (m s); auto. Qed.

Lemma wp_try {A} (m : M A) h Q E s :
  wp m Q (fun e s' => wp (h e) Q E s') s -> wp (try_catch m h) Q E s.
Proof. unfold wp, try_catch. destruct (m s); auto. Qed.

Lemma wp_lift {A} (r : exception + A) Q E s :
  match r with inr a => Q a s | inl e => E e s end -> wp (lift r) Q E s.
Proof. unfold wp, lift. destruct r; auto. Qed.

Lemma wp_modify f Q E s : Q tt (f s) -> wp (modify f) Q E s.
Proof. intros H. exact H. Qed.

Lemma wp_collection owner name Q E s :
  Q {| bosbase.owner := owner; bosbase.collection := name |}
    (set_trace (trace s ++ [Resolved {| bosbase.owner := owner;
                                         bosbase.collection := name |}]) s) ->
  wp (collection owner name) Q E s.
Proof. intros H. exact H. Qed.

Lemma wp_call {t} (o : inner_op t) Q E s :
  match inner t (trace s) o with
  | inr v => Q v (set_trace (trace s ++ [Issued t o]) s)
  | inl e => E e (set_trace (trace s ++ [Issued t o]) s)
  end ->
  wp (call o) Q E s.
Proof. unfold wp, call. destruct (inner t (trace s) o); auto. Qed.

Lemma wp_client_impl client Q E s :
  match client with
  | None => Q None s
  | Some c =>
      match clients s !! c with
      | Some w => Q (impl w) s
      | None => False
      end
  end ->
  wp (client_impl client) Q E s.
Proof.
  unfold wp, client_impl. destruct client as [c|]; [|auto].
  destruct (clients s !! c); auto.
Qed.

Lemma wp_batch_service batch Q E s :
  match batch with
  | None => Q None s
  | Some b =>
      match batches s !! b with
      | Some w => Q (batch_impl w) s
      | None => False
      end
  end ->
  wp (batch_service batch) Q E s.
Proof.
  unfold wp, batch_service. destruct batch as [b|]; [|auto].
  destruct (batches s !! b); auto.
Qed.

Lemma wp_modify_like w Q E s :
  Q (fresh (dom (subscriptions s)))
    (set_subscriptions (<[fresh (dom (subscriptions s)) := w]> (subscriptions s)) s) ->
  wp (new_subscription w) Q E s.
Proof. intros H. exact H. Qed.

Lemma wp_mono {A} (m : M A) (Q Q' : A -> state -> Prop) (E E' : exception -> state -> Prop) s :
  wp m Q E s ->
  (forall a s', Q a s' -> Q' a s') ->
  (forall e s', E e s' -> E' e s') ->
  wp m Q' E' s.
Proof. unfold wp. destruct (m s); auto. Qed.

(** *** Allocation *)

Lemma set_heap_set_heap h h' s : set_heap h (set_heap h' s) = set_heap h s.
Proof. reflexivity. Qed.

Lemma fresh_heap (h : gmap loc block) : h !! fresh (dom h) = None.
Proof. apply not_elem_of_dom. apply is_fresh. Qed.

(** [dup_string] either finds no memory and changes nothing, or adds one
    block at an address that was free and fills it with the text. *)
Lemma wp_dup_string str Q E s :
  (out_of_memory (heap s) (N.of_nat (String.length str) + 1) = true -> Q Null s) ->
  (forall a, heap s !! a = None ->
             out_of_memory (heap s) (N.of_nat (String.length str) + 1) = false ->
             Q (Heap a) (set_heap (<[a := BString str]> (heap s)) s)) ->
  wp (dup_string str) Q E s.
Proof.
  intros Hnull Hheap. unfold wp, dup_string, bind, malloc.
  destruct (out_of_memory (heap s) _) eqn:Hoom; [by apply Hnull|].
  unfold memcpy, ret. cbn [heap set_heap].
  rewrite lookup_insert_eq. rewrite insert_insert_eq.
  apply Hheap; [apply fresh_heap | done].
Qed.

Lemma wp_make_error msg st Q E s :
  (out_of_memory (heap s) sizeof_bosbase_error = true -> Q None s) ->
  (forall a m h1,
      heap s !! a = None ->
      duplicated (<[a := BRaw sizeof_bosbase_error]> (heap s)) msg m h1 ->
      Q (Some a)
        (set_heap (<[a := BError {| status := st; is_abort := 0; url := Null;
                                    message := m; response := Null |}]> h1) s)) ->
  wp (make_error msg st) Q E s.
Proof.
  intros Hnull Hok. unfold make_error. apply wp_bind.
  unfold wp at 1, malloc.
  destruct (out_of_memory (heap s) _) eqn:Hoom; [by apply wp_ret, Hnull|].
  set (a := fresh (dom (heap s))).
  assert (Ha : heap s !! a = None) by apply fresh_heap.
  apply wp_bind, wp_dup_string; cbn [heap set_heap].
  - intros Hm. apply wp_bind. unfold wp at 1, assign_error. cbn [heap set_heap].
    rewrite lookup_insert_eq. apply wp_ret. rewrite set_heap_set_heap.
    apply Hok; [done | left; done].
  - intros b Hb Hm. apply wp_bind. unfold wp at 1, assign_error.
    cbn [heap set_heap].
    destruct (decide (a = b)) as [->|Hab]; [by rewrite lookup_insert_eq in Hb|].
    rewrite lookup_insert_ne by done. rewrite lookup_insert_eq.
    apply wp_ret. rewrite !set_heap_set_heap.
    apply Hok; [done | right; eauto 10].
Qed.

Lemma wp_make_error_ex ex Q E s :
  (out_of_memory (heap s) sizeof_bosbase_error = true -> Q None s) ->
  (forall a u m r h1 h2 h3,
      heap s !! a = None ->
      duplicated (<[a := BRaw sizeof_bosbase_error]> (heap s)) (bosbase.url ex) u h1 ->
      duplicated h1 (json_dump (bosbase.response ex)) m h2 ->
      duplicated h2 (json_dump (bosbase.response ex)) r h3 ->
      h3 !! a = Some (BRaw sizeof_bosbase_error) ->
      Q (Some a)
        (set_heap (<[a := BError {| status := to_int (bosbase.status ex);
                                    is_abort := if bosbase.isAbort ex then 1 else 0;
                                    url := u; message := m; response := r |}]> h3) s)) ->
  wp (make_error_ex ex) Q E s.
Proof.
  intros Hnull Hok. unfold make_error_ex. apply wp_bind.
  unfold wp at 1, malloc.
  destruct (out_of_memory (heap s) _) eqn:Hoom; [by apply wp_ret, Hnull|].
  set (a := fresh (dom (heap s))).
  assert (Ha : heap s !! a = None) by apply fresh_heap.
  assert (Hdup : forall (h : gmap loc block) str (Q' : ptr -> state -> Prop) E',
             (forall p h', duplicated h str p h' -> Q' p (set_heap h' s)) ->
             wp (dup_string str) Q' E' (set_heap h s)).
  { intros h str Q' E' HQ. apply wp_dup_string; cbn [heap set_heap].
    - intros Hm. apply (HQ Null h). by left.
    - intros b Hb Hm. rewrite set_heap_set_heap. apply HQ. right; eauto 10. }
  apply wp_bind, Hdup. intros u h1 H1.
  apply wp_bind, Hdup. intros m h2 H2.
  apply wp_bind, Hdup. intros r h3 H3.
  assert (Hlive : h3 !! a = Some (BRaw sizeof_bosbase_error)).
  { assert (Hkeep : forall (h h' : gmap loc block) str p,
               duplicated h str p h' -> h !! a = Some (BRaw sizeof_bosbase_error) ->
               h' !! a = Some (BRaw sizeof_bosbase_error)).
    { intros h h' str p [(_ & -> & _)|(b & _ & Hb & -> & _)] Hh; [done|].
      rewrite lookup_insert_ne; [done|]. intros ->. congruence. }
    eapply Hkeep; [exact H3|]. eapply Hkeep; [exact H2|].
    eapply Hkeep; [exact H1|]. apply lookup_insert_eq. }
  apply wp_bind. unfold wp at 1, assign_error. cbn [heap set_heap].
  rewrite Hlive. apply wp_ret. rewrite set_heap_set_heap.
  by eapply Hok.
Qed.

(** *** Marshalling only raises standard exceptions *)

Lemma parse_throws text e : parse text = inl e -> exists w, e = std_exception w.
Proof. unfold parse. destruct (json_parse text); intros; simplify_eq; eauto. Qed.

Lemma parse_json_or_throws text fallback e :
  parse_json_or text fallback = inl e -> exists w, e = std_exception w.
Proof.
  unfold parse_json_or. destruct text as [[|a t]|]; try discriminate.
  apply parse_throws.
Qed.

Lemma parse_query_throws text e :
  parse_query text = inl e -> exists w, e = std_exception w.
Proof.
  unfold parse_query. destruct text as [[|a t]|]; try discriminate.
  destruct (parse _) as [e'|j] eqn:Hp.
  - intros; simplify_eq. by eapply parse_throws.
  - destruct j; intros; simplify_eq; eauto.
Qed.

Lemma parse_headers_throws text e :
  parse_headers text = inl e -> exists w, e = std_exception w.
Proof.
  unfold parse_headers. destruct text as [[|a t]|]; try discriminate.
  destruct (parse _) as [e'|j] eqn:Hp.
  - intros; simplify_eq. by eapply parse_throws.
  - destruct j; intros; simplify_eq; eauto.
Qed.

(** With an allocator that serves every request, the Error Values are
    complete. *)
Lemma duplicated_served h str p h' :
  (forall h n, out_of_memory h n = false) ->
  duplicated h str p h' ->
  exists b, p = Heap b /\ h !! b = None /\ h' = <[b := BString str]> h.
Proof.
  intros Hmem [(_ & _ & Hoom)|(b & ? & ? & ? & _)]; [|eauto].
  rewrite Hmem in Hoom. discriminate.
Qed.

Lemma wp_dup_string_ok str Q E s :
  (forall h n, out_of_memory h n = false) ->
  (forall a, heap s !! a = None ->
             Q (Heap a) (set_heap (<[a := BString str]> (heap s)) s)) ->
  wp (dup_string str) Q E s.
Proof.
  intros Hmem HQ. apply wp_dup_string.
  - rewrite Hmem. discriminate.
  - intros a Ha _. by apply HQ.
Qed.

Lemma wp_make_error_ok msg st Q E s :
  (forall h n, out_of_memory h n = false) ->
  (forall a h' err,
      heap s !! a = None ->
      h' !! a = Some (BError err) ->
      status err = st -> is_abort err = 0 -> url err = Null ->
      response err = Null -> text_in h' (message err) msg ->
      Q (Some a) (set_heap h' s)) ->
  wp (make_error msg st) Q E s.
Proof.
  intros Hmem HQ. apply wp_make_error.
  - rewrite Hmem. discriminate.
  - intros a m h1 Ha Hdup.
    destruct (duplicated_served _ _ _ _ Hmem Hdup) as (b & -> & Hb & ->).
    assert (a <> b) by (intros ->; by rewrite lookup_insert_eq in Hb).
    eapply HQ; [done|apply lookup_insert_eq|done..|].
    exists b. split; [done|].
    rewrite lookup_insert_ne by done. apply lookup_insert_eq.
Qed.

Lemma wp_make_error_ex_ok ex Q E s :
  (forall h n, out_of_memory h n = false) ->
  (forall a h' err,
      heap s !! a = None ->
      h' !! a = Some (BError err) ->
      status err = to_int (bosbase.status ex) ->
      is_abort err = (if bosbase.isAbort ex then 1 else 0) ->
      text_in h' (url err) (bosbase.url ex) ->
      text_in h' (message err) (json_dump (bosbase.response ex)) ->
      text_in h' (response err) (json_dump (bosbase.response ex)) ->
      Q (Some a) (set_heap h' s)) ->
  wp (make_error_ex ex) Q E s.
Proof.
  intros Hmem HQ. apply wp_make_error_ex.
  - rewrite Hmem. discriminate.
  - intros a u m r h1 h2 h3 Ha H1 H2 H3 Hlive.
    destruct (duplicated_served _ _ _ _ Hmem H1) as (b1 & -> & Hb1 & ->).
    destruct (duplicated_served _ _ _ _ Hmem H2) as (b2 & -> & Hb2 & ->).
    destruct (duplicated_served _ _ _ _ Hmem H3) as (b3 & -> & Hb3 & ->).
    assert (a <> b1) by (intros ->; by rewrite lookup_insert_eq in Hb1).
    assert (b1 <> b2) by (intros ->; by rewrite lookup_insert_eq in Hb2).
    assert (a <> b2).
    { intros ->. rewrite lookup_insert_ne in Hb2 by done.
      by rewrite lookup_insert_eq in Hb2. }
    assert (b2 <> b3) by (intros ->; by rewrite lookup_insert_eq in Hb3).
    assert (b1 <> b3).
    { intros ->. rewrite lookup_insert_ne in Hb3 by done.
      by rewrite lookup_insert_eq in Hb3. }
    assert (a <> b3).
    { intros ->. rewrite !lookup_insert_ne in Hb3 by done.
      by rewrite lookup_insert_eq in Hb3. }
    eapply HQ; [done|apply lookup_insert_eq|done|done|..].
    + exists b1. split; [done|]. cbn [url].
      rewrite !lookup_insert_ne by done. apply lookup_insert_eq.
    + exists b2. split; [done|]. cbn [message].
      rewrite !lookup_insert_ne by done. apply lookup_insert_eq.
    + exists b3. split; [done|]. cbn [response].
      rewrite !lookup_insert_ne by done. apply lookup_insert_eq.
Qed.


(** *** Symbolic execution *)

Ltac project :=
  cbn [heap out_values out_errors clients batches subscriptions trace
       set_heap set_out_values set_out_errors set_clients set_batches
       set_subscriptions set_trace] in *.

Ltac wp_step :=
  cbv beta iota zeta;
  lazymatch goal with
  | |- wp (bind _ _) _ _ _ => apply wp_bind
  | |- wp (ret _) _ _ _ => apply wp_ret
  | |- wp (throw _) _ _ _ => apply wp_throw
  | |- wp (try_catch _ _) _ _ _ => apply wp_try
  | |- wp (lift ?r) _ _ _ =>
      apply wp_lift;
      first [ match goal with H : r = _ |- _ => rewrite H end
            | let H := fresh "Hparse" in
              let w := fresh "w" in
              destruct r eqn:H;
              [ first [ pose proof (parse_json_or_throws _ _ _ H) as [w ->]
                      | pose proof (parse_query_throws _ _ H) as [w ->]
                      | pose proof (parse_headers_throws _ _ H) as [w ->]
                      | idtac ]
              | ] ]
  | |- wp (@call ?t ?o) _ _ _ =>
      apply (@wp_call t o);
      first [ match goal with
              | H : forall t tr o, inner t tr o = _ |- _ => rewrite H
              end
            | let R := fresh "Hreply" in
              destruct (inner _ _ _) as [[?|?]|?] eqn:R ]
  | |- wp (collection _ _) _ _ _ => apply wp_collection
  | |- wp (modify _) _ _ _ => apply wp_modify
  | |- wp (store_value _ _) _ _ _ => unfold store_value
  | |- wp (store_error _ _) _ _ _ => unfold store_error
  | |- wp (set_value ?o _) _ _ _ => unfold set_value; destruct o
  | |- wp (set_error ?o _) _ _ _ => unfold set_error; destruct o
  | |- wp (catch_both _ ?e) _ _ _ => unfold catch_both
  | |- wp (catch_std _ _) _ _ _ => unfold catch_std
  | |- wp (fail_std _ _) _ _ _ => unfold fail_std
  | |- wp (fail_both _ _) _ _ _ => unfold fail_both
  | |- wp (wrap_json _ _ _) _ _ _ => unfold wrap_json
  | |- wp (wrap_void _ _) _ _ _ => unfold wrap_void
  | |- wp (dup_json _) _ _ _ => unfold dup_json
  | |- wp (dup_string _) _ _ _ =>
      first [ apply wp_dup_string_ok; [assumption|intros ? ?]
            | apply wp_dup_string; [intros ?|intros ? ? ?] ]
  | |- wp (make_error _ _) _ _ _ =>
      first [ apply wp_make_error_ok; [assumption|intros ? ? ? ? ? ? ? ? ? ?]
            | apply wp_make_error; [intros ?|intros ? ? ? ? ?] ]
  | |- wp (make_error_ex _) _ _ _ =>
      first [ apply wp_make_error_ex_ok; [assumption|intros ? ? ? ? ? ? ? ? ? ?]
            | apply wp_make_error_ex; [intros ?|intros ? ? ? ? ? ? ? ? ? ? ? ?] ]
  | |- wp (new_subscription _) _ _ _ => apply wp_modify_like
  | |- wp (match ?x with _ => _ end) _ _ _ => destruct x eqn:?
  end.

Ltac wp_run := repeat wp_step; project.

Ltac head_of t :=
  lazymatch t with
  | ?f _ => head_of f
  | _ => t
  end.

Ltac unfold_entry :=
  lazymatch goal with
  | |- wp ?m _ _ _ => let h := head_of m in unfold h
  end.

(** *** The frame of an entry point *)

Ltac frame_leaf :=
  unfold framed, boundary_string;
  cbn [out_error_of out_error_of_client out_error_of_batch
       out_value_of out_value_of_client out_value_of_batch];
  project;
  repeat split; intros; try done; try lia; try congruence;
  eauto 10.

Lemma entry_framed e s : usable s e -> wp (run e) (framed e s) never s.
Proof.
  destruct e as [client c|batch c]; intros Hlive.
  - destruct c; cbn [run run_client]; unfold_entry.
    all: apply wp_bind, wp_client_impl.
    all: destruct client as [cl|]; [destruct Hlive as [w ->]; destruct (impl w)|].
    all: wp_run.
    all: frame_leaf.
  - destruct c; cbn [run run_batch]; unfold_entry.
    all: apply wp_bind, wp_batch_service.
    all: destruct batch as [b|]; [destruct Hlive as [w ->]; destruct (batch_impl w)|].
    all: wp_run.
    all: frame_leaf.
Qed.

(** *** Null handles *)

Lemma null_handle_returns e s : null_handle s e -> run e s = Done (-1) s.
Proof.
  destruct e as [client c|batch c]; intros Hnull.
  - destruct c; cbn [run run_client];
      lazymatch goal with |- ?m _ = _ => let h := head_of m in unfold h end;
      unfold bind, client_impl;
      (destruct client as [cl|]; [cbn in Hnull; rewrite Hnull|]); reflexivity.
  - destruct c; cbn [run run_batch];
      lazymatch goal with |- ?m _ = _ => let h := head_of m in unfold h end;
      unfold bind, batch_service;
      (destruct batch as [b|]; [destruct Hnull as [o Hnull]; rewrite Hnull|]);
      reflexivity.
Qed.

(** *** Malformed parameter bags *)

Lemma parse_query_malformed text :
  malformed text -> exists w, parse_query (Some text) = inl (std_exception w).
Proof.
  intros [Hne Hbad]. destruct text as [|a t]; [done|].
  unfold parse_query, parse. destruct (json_parse _) as [w|j]; [eauto|].
  destruct j; try discriminate; eauto.
Qed.

Lemma parse_headers_malformed text :
  malformed text -> exists w, parse_headers (Some text) = inl (std_exception w).
Proof.
  intros [Hne Hbad]. destruct text as [|a t]; [done|].
  unfold parse_headers, parse. destruct (json_parse _) as [w|j]; [eauto|].
  destruct j; try discriminate; eauto.
Qed.

Lemma operations_app tr tr' : operations (tr ++ tr') = operations tr ++ operations tr'.
Proof. unfold operations. apply List.filter_app. Qed.

Lemma operations_resolved tr svc : operations (tr ++ [Resolved svc]) = operations tr.
Proof. rewrite operations_app. cbn. apply app_nil_r. Qed.

Ltac local_leaf :=
  unfold failed_locally, local_error, error_at;
  cbn [out_error_of out_error_of_client out_error_of_batch];
  project;
  rewrite ?operations_resolved;
  repeat split; try done;
  try (eexists; rewrite lookup_insert_eq;
       match goal with H : _ !! _ = Some (BError _) |- _ => rewrite H end;
       split; [reflexivity|done]).

Lemma entry_rejects_malformed e s text :
  ready s e ->
  (forall h n, out_of_memory h n = false) ->
  malformed text ->
  query_json_of e = Some (Some text) \/ headers_json_of e = Some (Some text) ->
  wp (run e) (fun z s' => z = -1 /\ failed_locally (out_error_of e) s s') never s.
Proof.
  intros Hready Hmem Hbad Harg.
  destruct (parse_query_malformed _ Hbad) as [wq Hq].
  destruct (parse_headers_malformed _ Hbad) as [wh Hh].
  destruct e as [client c|batch c].
  - destruct client as [cl|]; [|done]. destruct Hready as [pb Hcl].
    destruct Harg as [Harg|Harg].
    + destruct c; cbn in Harg; simplify_eq; cbn [run run_client]; unfold_entry.
      all: apply wp_bind, wp_client_impl; rewrite Hcl; cbn [impl].
      all: wp_run.
      all: local_leaf.
    + destruct c; cbn in Harg; simplify_eq; cbn [run run_client]; unfold_entry.
      all: apply wp_bind, wp_client_impl; rewrite Hcl; cbn [impl].
      all: wp_run.
      all: local_leaf.
  - destruct batch as [b|]; [|done]. destruct Hready as (o & bs & Hb).
    destruct Harg as [Harg|Harg].
    + destruct c; cbn in Harg; simplify_eq; cbn [run run_batch]; unfold_entry.
      all: apply wp_bind, wp_batch_service; rewrite Hb; cbn [batch_impl].
      all: wp_run.
      all: local_leaf.
    + destruct c; cbn in Harg; simplify_eq; cbn [run run_batch]; unfold_entry.
      all: apply wp_bind, wp_batch_service; rewrite Hb; cbn [batch_impl].
      all: wp_run.
      all: local_leaf.
Qed.

(** *** HTTP-style failures of the inner library *)

Lemma text_at_in s p t : text_in (heap s) p t -> text_at s p = Some t.
Proof. intros (b & -> & Hb). unfold text_at. by rewrite Hb. Qed.




(** *** The same for every request *)

Lemma request_rejects_malformed r s text :
  request_ready s r ->
  (forall h n, out_of_memory h n = false) ->
  malformed text ->
  request_query_json r = Some (Some text) \/
  request_headers_json r = Some (Some text) ->
  wp (perform r)
    (fun o s' => failure o /\ failed_locally (request_out_error r) s s')
    never s.
Proof.
  intros Hready Hmem Hbad Harg. destruct r as [e|client c]; cbn [perform].
  - apply wp_bind. eapply wp_mono; [by eapply entry_rejects_malformed| |done].
    intros z s' [-> Hlocal]. by apply wp_ret.
  - destruct (parse_query_malformed _ Hbad) as [wq Hq].
    destruct (parse_headers_malformed _ Hbad) as [wh Hh].
    destruct client as [cl|]; [|done].
    destruct c as [? ? [cb|] ? ? ? ?|? [cb|] ? ?]; try done;
      destruct Hready as [pb Hcl]; cbn in Harg;
      destruct Harg as [Harg|Harg]; simplify_eq.
    all: apply wp_bind; cbn [run_subscribe]; unfold_entry.
    all: apply wp_bind, wp_client_impl; rewrite Hcl; cbn [impl].
    all: wp_run.
    all: split; [done|]; local_leaf.
Qed.


(** *** Release *)

Lemma set_heap_id s : set_heap (heap s) s = s.
Proof. by destruct s. Qed.

Lemma free_owned p s :
  owned (heap s) p -> free p s = Done tt (set_heap (release p (heap s)) s).
Proof.
  destruct p as [|b|t|o t]; cbn; try done.
  - intros _. by rewrite set_heap_id.
  - intros [x ->]. done.
Qed.

Lemma release_lookup p h a : a ∉ block_of p -> release p h !! a = h !! a.
Proof.
  destruct p as [|b|t|o t]; cbn; try done.
  intros Hne. apply lookup_delete_ne. set_solver.
Qed.

Lemma release_owned p q h :
  owned h q -> (forall b, b ∈ block_of q -> b ∉ block_of p) ->
  owned (release p h) q.
Proof.
  destruct q as [|b|t|o t]; cbn; try done.
  intros Hb Hne. rewrite release_lookup; [done|]. apply Hne. set_solver.
Qed.

Lemma free_error_releases s a err :
  releasable (heap s) a err ->
  bosbase_free_error (Some a) s =
    Done tt (set_heap (delete a (release (response err)
                                   (release (message err)
                                      (release (url err) (heap s))))) s).
Proof.
  intros (Ha & Hu & Hm & Hr & Hnd).
  apply NoDup_cons in Hnd as [Ha_out Hnd].
  apply NoDup_app in Hnd as (_ & Hum & Hnd).
  apply NoDup_app in Hnd as (_ & Hmr & _).
  assert (Hau : a ∉ block_of (url err)) by set_solver.
  assert (Ham : a ∉ block_of (message err)) by set_solver.
  assert (Har : a ∉ block_of (response err)) by set_solver.
  unfold bosbase_free_error, bosbase_free_string, bind.
  unfold read_error at 1. rewrite Ha.
  rewrite (free_owned _ _ Hu).
  unfold read_error at 1. cbn [heap set_heap].
  rewrite release_lookup by done. rewrite Ha.
  rewrite free_owned; cbn [heap set_heap]; [|apply release_owned; set_solver].
  unfold read_error at 1. cbn [heap set_heap].
  rewrite !release_lookup by done. rewrite Ha.
  rewrite free_owned; cbn [heap set_heap];
    [|do 2 (apply release_owned; [|set_solver]); done].
  unfold free. cbn [heap set_heap].
  rewrite !release_lookup by done. rewrite Ha.
  by rewrite !set_heap_set_heap.
Qed.

Lemma boundary_string_release s s' p :
  boundary_string s s' p ->
  bosbase_free_string p s' = Done tt (set_heap (heap s) s').
Proof.
  intros (a & t & -> & Ha & Hh). unfold bosbase_free_string, free.
  rewrite Hh, lookup_insert_eq. by rewrite delete_insert_id.
Qed.

Lemma duplicated_release h str p h' :
  duplicated h str p h' ->
  release p h' = h /\ owned h' p /\
  (forall a, is_Some (h !! a) -> (a ∉ block_of p) /\ h' !! a = h !! a).
Proof.
  intros [(-> & -> & _)|(b & -> & Hb & -> & _)]; cbn.
  - split_and!; [done..|]. intros a _. split; [set_solver|done].
  - split_and!; [by apply delete_insert_id|by rewrite lookup_insert_eq|].
    intros a [x Hx]. assert (Hab : a <> b) by congruence.
    split; [by intros ?%list_elem_of_singleton|].
    apply lookup_insert_ne. congruence.
Qed.

(** An Error Value made by the boundary is released block for block: the
    heap is afterwards what it was before the value was made. *)
Lemma make_error_then_free msg st s :
  wp (make_error msg st)
    (fun p s1 => bosbase_free_error p s1 = Done tt (set_heap (heap s) s1))
    never s.
Proof.
  apply wp_make_error.
  - intros _. cbn. by rewrite set_heap_id.
  - intros a m h1 Ha Hdup.
    destruct (duplicated_release _ _ _ _ Hdup) as (Hrel & Hown & Hkeep).
    destruct (Hkeep a) as [Ham Hlook]; [by rewrite lookup_insert_eq|].
    set (err := {| status := st; is_abort := 0; url := Null; message := m;
                   response := Null |}).
    assert (Hok : releasable (<[a := BError err]> h1) a err).
    { split_and!; cbn [url message response owned block_of err].
      - apply lookup_insert_eq.
      - done.
      - destruct m as [|b| |]; cbn in *; try done.
        rewrite lookup_insert_ne; [done|].
        intros ->. apply Ham, list_elem_of_singleton. done.
      - done.
      - cbn. rewrite app_nil_r. apply NoDup_cons_2; [done|].
        destruct m; cbn; [apply NoDup_nil_2|apply NoDup_singleton|
                          apply NoDup_nil_2..]. }
    assert (Hdel : delete a (release m (<[a := BError err]> h1)) = heap s).
    { destruct m as [|b| |]; cbn [release]; cbn in Hrel.
      - subst h1. rewrite !delete_insert_eq. by apply delete_id.
      - rewrite delete_insert_ne
          by (intros ->; apply Ham, list_elem_of_singleton; done).
        rewrite Hrel. rewrite !delete_insert_eq. by apply delete_id.
      - subst h1. rewrite !delete_insert_eq. by apply delete_id.
      - subst h1. rewrite !delete_insert_eq. by apply delete_id. }
    rewrite (free_error_releases _ a err) by exact Hok.
    cbn [heap set_heap url message response err release].
    rewrite set_heap_set_heap. fold err. by rewrite Hdel.
Qed.

Ltac map_cases :=
  apply map_eq; intros ?;
  repeat first [rewrite lookup_delete | rewrite lookup_insert];
  repeat case_decide; simplify_eq; try done; try congruence.

Lemma make_error_ex_then_free ex s :
  wp (make_error_ex ex)
    (fun p s1 => bosbase_free_error p s1 = Done tt (set_heap (heap s) s1))
    never s.
Proof.
  apply wp_make_error_ex.
  - intros _. cbn. by rewrite set_heap_id.
  - intros a u m r h1 h2 h3 Ha H1 H2 H3 Hlive.
    set (err := {| status := to_int (bosbase.status ex);
                   is_abort := if bosbase.isAbort ex then 1 else 0;
                   url := u; message := m; response := r |}).
    assert (Hok : releasable (<[a := BError err]> h3) a err /\
                  delete a (release r (release m (release u
                    (<[a := BError err]> h3)))) = heap s).
    { unfold releasable. cbn [url message response err].
      rewrite lookup_insert_eq.
      destruct H1 as [(-> & -> & _)|(b1 & -> & Hb1 & -> & _)];
        destruct H2 as [(-> & -> & _)|(b2 & -> & Hb2 & -> & _)];
        destruct H3 as [(-> & -> & _)|(b3 & -> & Hb3 & -> & _)];
        cbn [owned block_of release app];
        repeat match goal with
               | H : <[_ := _]> _ !! _ = None |- _ =>
                   apply lookup_insert_None in H as [? ?]
               end;
        (split; [split_and!; try done;
                 try (rewrite !lookup_insert_ne by done;
                      rewrite lookup_insert_eq; done);
                 try (rewrite lookup_insert_ne by done;
                      rewrite lookup_insert_eq; done);
                 repeat (apply NoDup_cons_2;
                         [rewrite ?not_elem_of_cons; repeat split;
                          try apply not_elem_of_nil; congruence|]);
                 apply NoDup_nil_2
                |map_cases]). }
    destruct Hok as [Hok Hdel].
    rewrite (free_error_releases _ a err) by exact Hok.
    cbn [heap set_heap url message response err].
    rewrite set_heap_set_heap. fold err. by rewrite Hdel.
Qed.

(** *** Texts handed to the caller *)

Lemma auth_record_is_fresh client s :
  wp (bosbase_auth_record client)
    (fun p s' => (p = Null /\ heap s' = heap s) \/ boundary_string s s' p)
    (fun _ _ => True)
    s \/
  bosbase_auth_record client s = Fault.
Proof.
  unfold bosbase_auth_record.
  destruct client as [c|].
  - destruct (clients s !! c) as [w|] eqn:Hc.
    + left. apply wp_bind, wp_client_impl. rewrite Hc.
      destruct (impl w); wp_run; try done; try (by left).
      right. eexists _, _. eauto.
    + right. unfold bind, client_impl. by rewrite Hc.
  - left. apply wp_bind, wp_client_impl. wp_run. by left.
Qed.

Lemma auth_token_is_borrowed client s p s' :
  bosbase_auth_token client s = Done p s' ->
  heap s' = heap s /\
  (p = Literal "" \/ exists pb t, p = Internal pb t) /\
  ~ boundary_string s s' p /\
  bosbase_free_string p s' = Fault.
Proof.
  assert (Hlit : forall t, ~ boundary_string s s' (Literal t))
    by (by intros t (? & ? & ? & _)).
  assert (Hint : forall o t, ~ boundary_string s s' (Internal o t))
    by (by intros o t (? & ? & ? & _)).
  unfold bosbase_auth_token, bind, client_impl, call, ret. cbv beta zeta.
  destruct client as [c|]; cbv beta iota.
  - destruct (clients s !! c) as [[[pb|]]|]; cbv beta iota;
      cbn [impl]; cbv beta iota; [| |intros; discriminate].
    + destruct (inner TString (trace s) (AuthStore_token pb)) as [e|t];
        cbv beta iota; [intros; discriminate|].
      intros H. injection H as <- <-. split_and!; [done|eauto|done|done].
    + intros H. injection H as <- <-. split_and!; [done|eauto|done|done].
  - intros H. injection H as <- <-. split_and!; [done|eauto|done|done].
Qed.

(** *** Time-to-live and paging *)

Lemma cache_set_entry_issues s cl pb cache key value_json ttl_seconds body_json
    query_json headers_json out_json out_error value body query headers :
  clients s !! cl = Some {| impl := Some pb |} ->
  parse_json_or value_json (JObject ∅) = inr value ->
  parse_json_or body_json (JObject ∅) = inr body ->
  parse_query query_json = inr query ->
  parse_headers headers_json = inr headers ->
  wp (bosbase_cache_set_entry (Some cl) cache key value_json ttl_seconds body_json
        query_json headers_json out_json out_error)
    (fun _ s' =>
       trace s' = trace s ++
         [Issued TJson
            (Caches_setEntry pb (str_or cache "") (str_or key "") value
               (if bool_decide (0 <= ttl_seconds) then Some ttl_seconds else None)
               body query headers)])
    never s.
Proof.
  intros Hcl Hv Hb Hq Hh. unfold bosbase_cache_set_entry.
  apply wp_bind, wp_client_impl; rewrite Hcl; cbn [impl].
  wp_run; done.
Qed.

Lemma cache_renew_entry_issues s cl pb cache key ttl_seconds body_json
    query_json headers_json out_json out_error body query headers :
  clients s !! cl = Some {| impl := Some pb |} ->
  parse_json_or body_json (JObject ∅) = inr body ->
  parse_query query_json = inr query ->
  parse_headers headers_json = inr headers ->
  wp (bosbase_cache_renew_entry (Some cl) cache key ttl_seconds body_json
        query_json headers_json out_json out_error)
    (fun _ s' =>
       trace s' = trace s ++
         [Issued TJson
            (Caches_renewEntry pb (str_or cache "") (str_or key "")
               (if bool_decide (0 <= ttl_seconds) then Some ttl_seconds else None)
               body query headers)])
    never s.
Proof.
  intros Hcl Hb Hq Hh. unfold bosbase_cache_renew_entry.
  apply wp_bind, wp_client_impl; rewrite Hcl; cbn [impl].
  wp_run; done.
Qed.







(** *** Subscription handles *)

Lemma wp_done {A} (m : M A) Q E s a s' :
  wp m Q E s -> m s = Done a s' -> Q a s'.
Proof. unfold wp. intros H Hm. by rewrite Hm in H. Qed.

Lemma wp_total {A} (m : M A) Q s :
  wp m Q never s -> exists a s', m s = Done a s' /\ Q a s'.
Proof. unfold wp, never. destruct (m s); [eauto|done..]. Qed.

Lemma subscribe_adds_a_held_handle client c s r s1 :
  run_subscribe client c s = Done r s1 ->
  (forall a, is_Some (subscriptions s !! a) ->
             subscriptions s1 !! a = subscriptions s !! a) /\
  match r with
  | Some sub =>
      subscriptions s !! sub = None /\
      exists k, subscriptions s1 !! sub =
                  Some {| holder := Some {| cancel := k |} |}
  | None => True
  end.
Proof.
  assert (Hfresh : forall m : gmap loc bosbase_subscription, m !! fresh (dom m) = None).
  { intros m. apply not_elem_of_dom, is_fresh. }
  assert (Hother : forall (m : gmap loc bosbase_subscription) w a,
             is_Some (m !! a) -> <[fresh (dom m) := w]> m !! a = m !! a).
  { intros m w a [x Hx]. apply lookup_insert_ne. intros Heq.
    rewrite <- Heq, Hfresh in Hx. discriminate. }
  intros Hrun.
  assert (Hlive : client = None \/ exists cl w, client = Some cl /\ clients s !! cl = Some w).
  { destruct client as [cl|]; [|by left]. right.
    destruct (clients s !! cl) as [w|] eqn:Hcl; [eauto|].
    destruct c; cbn [run_subscribe] in Hrun;
      unfold bosbase_collection_subscribe, bosbase_pubsub_subscribe, bind,
        client_impl in Hrun; rewrite Hcl in Hrun; discriminate. }
  assert (Hwp : wp (run_subscribe client c)
                  (fun r s1 =>
                     (forall a, is_Some (subscriptions s !! a) ->
                                subscriptions s1 !! a = subscriptions s !! a) /\
                     match r with
                     | Some sub =>
                         subscriptions s !! sub = None /\
                         exists k, subscriptions s1 !! sub =
                           Some {| holder := Some {| cancel := k |} |}
                     | None => True
                     end)
                  (fun _ _ => True) s).
  { destruct c; cbn [run_subscribe]; unfold_entry.
    all: apply wp_bind, wp_client_impl.
    all: destruct Hlive as [->|(cl & w & -> & ->)].
    all: wp_run; try done.
    all: split; [by apply Hother|].
    all: split; [apply Hfresh|eexists; apply lookup_insert_eq]. }
  exact (wp_done _ _ _ _ _ _ Hwp Hrun).
Qed.

Lemma subscription_cancel_live s a h :
  subscriptions s !! a = Some {| holder := Some h |} ->
  match cancel h with
  | Some k => inner TVoid (trace s) (Cancel_invoke k) = inr tt
  | None => True
  end ->
  exists s',
    bosbase_subscription_cancel (Some a) s = Done tt s' /\
    trace s' = trace s ++
               match cancel h with
               | Some k => [Issued TVoid (Cancel_invoke k)]
               | None => []
               end /\
    subscriptions s' = delete a (subscriptions s) /\
    heap s' = heap s /\ clients s' = clients s /\ batches s' = batches s /\
    bosbase_subscription_cancel (Some a) s' = Fault.
Proof.
  intros Ha Hk.
  unfold bosbase_subscription_cancel, bind, subscription_holder, call,
    delete_subscription, ret.
  rewrite Ha. cbn [holder]. destruct (cancel h) as [k|]; cbv beta zeta.
  - rewrite Hk. project. rewrite Ha. eexists. split; [reflexivity|]. project.
    rewrite lookup_delete_eq. by split_and!.
  - rewrite Ha. eexists. split; [reflexivity|]. project.
    rewrite lookup_delete_eq, app_nil_r. by split_and!.
Qed.

Lemma keeps_ret {A} (a : A) s : keeps_subscriptions (ret a) s.
Proof. by intros ? ? [= _ <-]. Qed.

Lemma keeps_bind {A B} (m : M A) (f : A -> M B) s :
  keeps_subscriptions m s ->
  (forall a s', m s = Done a s' -> keeps_subscriptions (f a) s') ->
  keeps_subscriptions (bind m f) s.
Proof.
  intros Hm Hf b s2. unfold bind. destruct (m s) as [a s1| |] eqn:Hrun; try done.
  intros Hb. rewrite (Hf a s1 eq_refl b s2 Hb). by eapply Hm.
Qed.

Ltac keeps_primitive :=
  let H := fresh in
  intros ? ? H;
  unfold malloc, memcpy, free, read_error, call, client_impl, new_client,
    new_batch, delete_client, delete_batch, ret in H;
  cbv beta zeta in H;
  repeat case_match; simplify_eq; project; done.

Ltac keeps :=
  repeat lazymatch goal with
    | |- keeps_subscriptions (bind _ _) _ => apply keeps_bind; [|intros ? ? _]
    | |- keeps_subscriptions (ret _) _ => apply keeps_ret
    | |- keeps_subscriptions (match ?x with _ => _ end) _ => destruct x
    | |- keeps_subscriptions (dup_json _) _ => unfold dup_json
    | |- keeps_subscriptions (dup_string _) _ => unfold dup_string
    | |- keeps_subscriptions (bosbase_free_string _) _ =>
        unfold bosbase_free_string
    | |- keeps_subscriptions _ _ => solve [keeps_primitive]
    end.

Lemma other_entry_points_keep_subscriptions s :
  (forall p, keeps_subscriptions (bosbase_free_string p) s) /\
  (forall err, keeps_subscriptions (bosbase_free_error err) s) /\
  (forall base_url lang, keeps_subscriptions (bosbase_client_new base_url lang) s) /\
  (forall client, keeps_subscriptions (bosbase_client_free client) s) /\
  (forall client, keeps_subscriptions (bosbase_batch_new client) s) /\
  (forall batch, keeps_subscriptions (bosbase_batch_free batch) s) /\
  (forall client, keeps_subscriptions (bosbase_auth_token client) s) /\
  (forall client, keeps_subscriptions (bosbase_auth_record client) s) /\
  (forall client, keeps_subscriptions (bosbase_auth_clear client) s) /\
  (forall client, keeps_subscriptions (bosbase_pubsub_disconnect client) s).
Proof.
  split_and!; intros;
    unfold bosbase_free_error, bosbase_client_new, bosbase_client_free,
      bosbase_batch_new, bosbase_batch_free, bosbase_auth_token,
      bosbase_auth_record, bosbase_auth_clear, bosbase_pubsub_disconnect;
    cbv zeta; keeps.
Qed.

(** ** The properties of the boundary *)

(** C1.  Every status-returning entry point, given a null or live handle,
    returns 0 or -1 without faulting or letting an exception out.  When it
    returns 0 the caller's error variables are as before the call; when it
    returns -1 the caller's value variables are as before.  With a null
    error out-parameter a failing call neither stores nor allocates an
    Error Value. *)
Theorem out_parameters_are_framed e s :
  usable s e ->
  exists z s',
    run e s = Done z s' /\
    (z = 0 \/ z = -1) /\
    (z = 0 -> out_errors s' = out_errors s) /\
    (z <> 0 -> out_values s' = out_values s) /\
    (z <> 0 -> out_error_of e = None ->
     out_errors s' = out_errors s /\ heap s' = heap s).
Proof.
  intros Hlive.
  destruct (wp_total _ _ _ (entry_framed e s Hlive))
    as (z & s' & Hrun & Hz & _ & _ & _ & Hok & Hfail & Hnull).
  exists z, s'. split_and!; [done|done| |done|done].
  intros Hz0. by destruct (Hok Hz0).
Qed.

(** C2.  A call with a live handle whose [query_json] or [headers_json] is
    a non-empty text that does not parse, or parses to something other
    than an object, fails (-1, or a null subscription handle); no
    operation is issued to the inner library; the value out-parameter is
    untouched; and the error out-parameter, when given, receives an Error
    Value with status -1, is_abort 0, no URL and no response. *)
Theorem malformed_parameter_is_a_local_error r s text :
  request_ready s r ->
  (forall h n, out_of_memory h n = false) ->
  malformed text ->
  request_query_json r = Some (Some text) \/
  request_headers_json r = Some (Some text) ->
  exists o s',
    perform r s = Done o s' /\ failure o /\
    failed_locally (request_out_error r) s s'.
Proof.
  intros Hready Hmem Hbad Harg.
  destruct (wp_total _ _ _ (request_rejects_malformed r s text Hready Hmem Hbad Harg))
    as (o & s' & Hrun & Hfail & Hlocal).
  eauto.
Qed.


(** C4, as amended.  The text a successful call stores through its value
    out-parameter, and the text [bosbase_auth_record] returns, is null
    (allocation refused) or a block that [dup_string] allocated during
    the call, which [bosbase_free_string] releases.  The text
    [bosbase_auth_token] returns is not: it is the literal [""] or the
    token buffer of the inner client, nothing is allocated for it, and
    releasing it is undefined. *)
Theorem texts_are_boundary_strings_except_the_token e client s :
  usable s e ->
  (exists z s',
      run e s = Done z s' /\
      (z = 0 ->
       match out_value_of e with
       | None => out_values s' = out_values s
       | Some l =>
           exists p, out_values s' = <[l := p]> (out_values s) /\
                     (p = Null \/
                      (boundary_string s s' p /\
                       bosbase_free_string p s' = Done tt (set_heap (heap s) s')))
       end)) /\
  (forall p s',
      bosbase_auth_record client s = Done p s' ->
      p = Null \/
      (boundary_string s s' p /\
       bosbase_free_string p s' = Done tt (set_heap (heap s) s'))) /\
  (forall p s',
      bosbase_auth_token client s = Done p s' ->
      (p = Literal "" \/ exists pb t, p = Internal pb t) /\
      heap s' = heap s /\
      ~ boundary_string s s' p /\
      bosbase_free_string p s' = Fault).
Proof.
  intros Hlive. split_and!.
  - destruct (wp_total _ _ _ (entry_framed e s Hlive))
      as (z & s' & Hrun & _ & _ & _ & _ & Hok & _).
    exists z, s'. split; [done|]. intros Hz. destruct (Hok Hz) as [_ Hval].
    destruct (out_value_of e) as [l|]; [|by destruct Hval].
    destruct Hval as (p & Hp & [[Hnull _]|Hb]); exists p; (split; [done|]);
      [by left|].
    right. split; [done|]. by apply boundary_string_release.
  - intros p s' Hrun.
    destruct (auth_record_is_fresh client s) as [Hwp|Hfault];
      [|congruence].
    destruct (wp_done _ _ _ _ _ _ Hwp Hrun) as [[-> _]|Hb]; [by left|].
    right. split; [done|]. by apply boundary_string_release.
  - intros p s' Hrun.
    destruct (auth_token_is_borrowed _ _ _ _ Hrun) as (? & ? & ? & ?).
    done.
Qed.

(** C5.  Called with a null client or batch pointer, every
    status-returning entry point returns -1 and leaves the whole state as
    it was: nothing is parsed, whatever the parser would say, and nothing
    is asked of the inner library. *)
Theorem null_handle_is_refused_first c b s :
  run (OnClient None c) s = Done (-1) s /\
  run (OnBatch None b) s = Done (-1) s.
Proof. split; by apply null_handle_returns. Qed.

(** C6.  [bosbase_free_string] and [bosbase_free_error] do nothing on a
    null pointer.  On an Error Value whose strings are null or live blocks
    of their own, [bosbase_free_error] releases the three strings and then
    the struct, each once: exactly these blocks leave the heap, and
    releasing the value again is undefined.  Released after being made by
    either [make_error], an Error Value leaves the heap as it was before
    it was made. *)
Theorem release_operations s a err :
  bosbase_free_string Null s = Done tt s /\
  bosbase_free_error None s = Done tt s /\
  (releasable (heap s) a err ->
   exists s',
     bosbase_free_error (Some a) s = Done tt s' /\
     heap s' = delete a (release (response err)
                           (release (message err)
                              (release (url err) (heap s)))) /\
     bosbase_free_error (Some a) s' = Fault) /\
  (forall msg st,
      exists p s1, make_error msg st s = Done p s1 /\
                   bosbase_free_error p s1 = Done tt (set_heap (heap s) s1)) /\
  (forall ex,
      exists p s1, make_error_ex ex s = Done p s1 /\
                   bosbase_free_error p s1 = Done tt (set_heap (heap s) s1)).
Proof.
  split_and!; [done|done| | |].
  - intros Hok. eexists. split; [by apply free_error_releases|].
    cbn [heap set_heap]. split; [done|].
    unfold bosbase_free_error, bind, read_error. cbn [heap set_heap].
    by rewrite lookup_delete_eq.
  - intros msg st. apply wp_total, make_error_then_free.
  - intros ex. apply wp_total, make_error_ex_then_free.
Qed.

(** C7.  With a live client and parameters that parse,
    [bosbase_cache_set_entry] and [bosbase_cache_renew_entry] issue
    [setEntry] / [renewEntry] with an absent TTL when [ttl_seconds] is
    negative and with [ttl_seconds] itself when it is 0 or more. *)
Theorem ttl_is_marshalled s cl pb cache key value_json ttl_seconds body_json
    query_json headers_json out_json out_error value body query headers :
  clients s !! cl = Some {| impl := Some pb |} ->
  parse_json_or value_json (JObject ∅) = inr value ->
  parse_json_or body_json (JObject ∅) = inr body ->
  parse_query query_json = inr query ->
  parse_headers headers_json = inr headers ->
  exists ttl,
    (ttl_seconds < 0 -> ttl = None) /\
    (0 <= ttl_seconds -> ttl = Some ttl_seconds) /\
    (exists z s',
        bosbase_cache_set_entry (Some cl) cache key value_json ttl_seconds
          body_json query_json headers_json out_json out_error s = Done z s' /\
        trace s' = trace s ++
          [Issued TJson
             (Caches_setEntry pb (str_or cache "") (str_or key "") value ttl
                body query headers)]) /\
    (exists z s',
        bosbase_cache_renew_entry (Some cl) cache key ttl_seconds body_json
          query_json headers_json out_json out_error s = Done z s' /\
        trace s' = trace s ++
          [Issued TJson
             (Caches_renewEntry pb (str_or cache "") (str_or key "") ttl body
                query headers)]).
Proof.
  intros Hcl Hv Hb Hq Hh.
  exists (if bool_decide (0 <= ttl_seconds) then Some ttl_seconds else None).
  split_and!.
  - intros Hneg. by rewrite bool_decide_eq_false_2 by lia.
  - intros Hpos. by rewrite bool_decide_eq_true_2 by lia.
  - eapply wp_total, cache_set_entry_issues; eauto.
  - eapply wp_total, cache_renew_entry_issues; eauto.
Qed.


(** C9.  [bosbase_subscription_cancel] does nothing on a null pointer.  On
    a live handle, whose holder the two subscribe entry points always
    set, it invokes the stored cancellation function when there is one
    and then deletes the handle: the handle is gone from the store, and
    cancelling it again is undefined.  No other entry point removes or
    changes a live subscription handle (the status-returning ones, the
    release operations, the handle constructors and destructors and the
    auth-store accessors leave the store as it is, and the two subscribe
    entry points only add to it), so cancel is the only way to destroy
    one. *)
Theorem cancel_is_the_destructor s a h :
  bosbase_subscription_cancel None s = Done tt s /\
  (subscriptions s !! a = Some {| holder := Some h |} ->
   match cancel h with
   | Some k => inner TVoid (trace s) (Cancel_invoke k) = inr tt
   | None => True
   end ->
   exists s',
     bosbase_subscription_cancel (Some a) s = Done tt s' /\
     trace s' = trace s ++
                match cancel h with
                | Some k => [Issued TVoid (Cancel_invoke k)]
                | None => []
                end /\
     subscriptions s' = delete a (subscriptions s) /\
     subscriptions s' !! a = None /\
     bosbase_subscription_cancel (Some a) s' = Fault) /\
  (forall client c sub s1,
      run_subscribe client c s = Done (Some sub) s1 ->
      exists k, subscriptions s1 !! sub =
                  Some {| holder := Some {| cancel := k |} |}) /\
  (forall e, usable s e ->
             exists z s1, run e s = Done z s1 /\
                          subscriptions s1 = subscriptions s) /\
  (subscriptions s !! a = Some {| holder := Some h |} ->
   forall client c r s1,
     run_subscribe client c s = Done r s1 ->
     subscriptions s1 !! a = Some {| holder := Some h |}) /\
  (forall p, keeps_subscriptions (bosbase_free_string p) s) /\
  (forall err, keeps_subscriptions (bosbase_free_error err) s) /\
  (forall base_url lang, keeps_subscriptions (bosbase_client_new base_url lang) s) /\
  (forall client, keeps_subscriptions (bosbase_client_free client) s) /\
  (forall client, keeps_subscriptions (bosbase_batch_new client) s) /\
  (forall batch, keeps_subscriptions (bosbase_batch_free batch) s) /\
  (forall client, keeps_subscriptions (bosbase_auth_token client) s) /\
  (forall client, keeps_subscriptions (bosbase_auth_record client) s) /\
  (forall client, keeps_subscriptions (bosbase_auth_clear client) s) /\
  (forall client, keeps_subscriptions (bosbase_pubsub_disconnect client) s).
Proof.
  split; [|split; [|split; [|split; [|split;
    [|apply other_entry_points_keep_subscriptions]]]]].
  - done.
  - intros Ha Hk.
    destruct (subscription_cancel_live s a h Ha Hk)
      as (s' & Hrun & Htr & Hsub & _ & _ & _ & Htwice).
    exists s'. split_and!; try done. rewrite Hsub. apply lookup_delete_eq.
  - intros client c sub s1 Hrun.
    destruct (subscribe_adds_a_held_handle _ _ _ _ _ Hrun) as [_ [_ Hheld]].
    exact Hheld.
  - intros e Hlive.
    destruct (wp_total _ _ _ (entry_framed e s Hlive))
      as (z & s1 & Hrun & _ & _ & _ & Hsub & _).
    eauto.
  - intros Ha client c r s1 Hrun.
    destruct (subscribe_adds_a_held_handle _ _ _ _ _ Hrun) as [Hkeep _].
    rewrite Hkeep; [done|by rewrite Ha].
Qed.

(** C10.  When the handle is null, or live with a null inner
    implementation, a status-returning entry point returns -1 and neither
    out-parameter is written: the caller's value and error variables, the
    heap and the trace are as before, so there is no Error Value to
    release even when [out_error] was given. *)
Theorem null_handle_writes_nothing e s :
  null_handle s e ->
  exists s',
    run e s = Done (-1) s' /\
    out_values s' = out_values s /\
    out_errors s' = out_errors s /\
    heap s' = heap s /\
    trace s' = trace s.
Proof.
  intros Hnull. exists s. by rewrite (null_handle_returns e s Hnull).
Qed.

(** ** Further properties of the boundary *)

(** *** Parameter marshalling *)

(** X1.  From a non-empty text that encodes an object, [parse_query]
    returns the members of the object, each key with its document: nothing
    is dropped, renamed or converted. *)
Theorem parse_query_returns_the_members text members :
  text <> "" ->
  json_parse text = inr (JObject members) ->
  parse_query (Some text) = inr members.
Proof.
  intros Hne Hp. destruct text as [|a t]; [done|].
  unfold parse_query, parse. rewrite Hp. f_equal.
  apply (map_fold_weak_ind (fun r m => r = m)); [done|].
  by intros i x m r _ ->.
Qed.

(** X2.  From a non-empty text that encodes an object, [parse_headers]
    returns a header for every member and no other: a string member gives
    its text as it is, without quotes, and any other member gives its
    serialisation. *)
Theorem parse_headers_keeps_strings_and_dumps_the_rest text members :
  text <> "" ->
  json_parse text = inr (JObject members) ->
  exists headers,
    parse_headers (Some text) = inr headers /\
    forall key,
      headers !! key =
        match members !! key with
        | Some (JString v) => Some v
        | Some value => Some (json_dump value)
        | None => None
        end.
Proof.
  intros Hne Hp. destruct text as [|a t]; [done|].
  unfold parse_headers, parse. rewrite Hp. eexists. split; [reflexivity|].
  apply (map_fold_weak_ind
           (fun (r : gmap string string) (m : gmap string json) =>
              forall key,
                r !! key =
                  match m !! key with
                  | Some (JString v) => Some v
                  | Some value => Some (json_dump value)
                  | None => None
                  end)).
  - intros key. by rewrite !lookup_empty.
  - intros i x m r Hi IH key.
    destruct (decide (i = key)) as [->|Hne'].
    + rewrite lookup_insert_eq. destruct x; by rewrite lookup_insert_eq.
    + rewrite (lookup_insert_ne m) by done. rewrite <- IH.
      destruct x; by rewrite lookup_insert_ne.
Qed.

(** X3.  [convert_files] converts the first [len] elements of the array,
    in order, and nothing else; a null array or a zero length gives no
    attachment at all. *)
Theorem convert_files_takes_the_first_len files len :
  (len <= length files)%nat ->
  length (convert_files (Some files) len) = len /\
  (forall i, (i < len)%nat ->
             convert_files (Some files) len !! i = convert_file <$> files !! i) /\
  convert_files None len = [] /\
  convert_files (Some files) 0 = [].
Proof.
  intros Hlen. unfold convert_files. split_and!; [| |done|done].
  - case_bool_decide as H0; [by subst|].
    rewrite length_fmap, length_take. lia.
  - intros i Hi. rewrite bool_decide_eq_false_2 by lia.
    rewrite list_lookup_fmap. by rewrite lookup_take_lt.
Qed.

(** X4.  In a converted attachment a string member that was null keeps
    the value of a default-constructed attachment and one that was given
    replaces it; the bytes are the first [data_len] bytes of the buffer
    when the buffer is given and [data_len] is positive, and those of a
    default-constructed attachment otherwise. *)
Theorem convert_file_copies_what_is_given f :
  bosbase.field (convert_file f) =
    default (bosbase.field default_FileAttachment) (field f) /\
  bosbase.filename (convert_file f) =
    default (bosbase.filename default_FileAttachment) (filename f) /\
  bosbase.contentType (convert_file f) =
    default (bosbase.contentType default_FileAttachment) (content_type f) /\
  (forall bytes,
      data f = Some bytes -> (0 < data_len f <= length bytes)%nat ->
      bosbase.data (convert_file f) = take (data_len f) bytes /\
      length (bosbase.data (convert_file f)) = data_len f) /\
  (data f = None \/ data_len f = 0%nat ->
   bosbase.data (convert_file f) = bosbase.data default_FileAttachment).
Proof.
  unfold convert_file.
  destruct f as [fld fn ct dt n]; cbn [field filename content_type data data_len].
  split_and!.
  - destruct fld, fn, ct, dt; cbn; try case_bool_decide; done.
  - destruct fld, fn, ct, dt; cbn; try case_bool_decide; done.
  - destruct fld, fn, ct, dt; cbn; try case_bool_decide; done.
  - intros bytes -> [Hpos Hle]. rewrite bool_decide_eq_true_2 by done.
    destruct fld, fn, ct; cbn; (split; [done|]); rewrite length_take; lia.
  - intros [->| ->].
    + by destruct fld, fn, ct.
    + destruct dt; [rewrite bool_decide_eq_false_2 by lia|];
        by destruct fld, fn, ct.
Qed.

(** *** Allocation *)

(** X5.  [dup_string] asks [malloc] for the length of the text plus one.
    When that is refused it returns null and changes nothing.  Otherwise
    it returns a new block that holds the text, every text that could be
    read before can still be read, and [bosbase_free_string] on the result
    gives back the state before the copy. *)
Theorem dup_string_copies_or_returns_null str s :
  exists p s',
    dup_string str s = Done p s' /\
    (out_of_memory (heap s) (N.of_nat (String.length str) + 1) = true ->
     p = Null /\ s' = s) /\
    (out_of_memory (heap s) (N.of_nat (String.length str) + 1) = false ->
     (exists a, p = Heap a /\ heap s !! a = None) /\
     text_at s' p = Some str /\
     (forall q t, text_at s q = Some t -> text_at s' q = Some t) /\
     bosbase_free_string p s' = Done tt s).
Proof.
  unfold dup_string, bind, malloc.
  destruct (out_of_memory (heap s) _) eqn:Hoom.
  - eexists _, _. split; [reflexivity|]. split; [done|discriminate].
  - unfold memcpy, ret. cbn [heap set_heap]. rewrite lookup_insert_eq.
    rewrite insert_insert_eq. eexists _, _. split; [reflexivity|].
    split; [discriminate|]. intros _.
    pose proof (fresh_heap (heap s)) as Hfresh.
    split_and!.
    + eauto.
    + cbn. by rewrite lookup_insert_eq.
    + intros [|b|t'|o t'] t; cbn; try done.
      destruct (decide (b = fresh (dom (heap s)))) as [->|Hb].
      * by rewrite Hfresh.
      * by rewrite lookup_insert_ne.
    + unfold bosbase_free_string, free. cbn [heap set_heap].
      rewrite lookup_insert_eq. rewrite delete_insert_id by done.
      by destruct s.
Qed.

(** *** Error translation *)

(** X6.  When the wrapped call returns a document, [wrap_json] returns 0
    and stores through [out_json] a new block holding the serialisation
    of that document; the error variables and the trace are as the call
    left them.  If the block cannot be allocated it still returns 0 and
    stores a null pointer.  With a null [out_json] the document is
    dropped and nothing is allocated. *)
Theorem wrap_json_hands_out_the_serialisation (fn : M json) l out_error s j s1 :
  fn s = Done j s1 ->
  wrap_json fn None out_error s = Done 0 s1 /\
  exists p s2,
    wrap_json fn (Some l) out_error s = Done 0 s2 /\
    out_values s2 = <[l := p]> (out_values s1) /\
    out_errors s2 = out_errors s1 /\
    trace s2 = trace s1 /\
    if out_of_memory (heap s1) (N.of_nat (String.length (json_dump j)) + 1)
    then p = Null /\ heap s2 = heap s1
    else boundary_string s1 s2 p /\ text_at s2 p = Some (json_dump j).
Proof.
  intros Hfn. split.
  - unfold wrap_json, try_catch, bind. by rewrite Hfn.
  - assert (Hwp : wp (wrap_json fn (Some l) out_error)
                    (fun z s2 =>
                       z = 0 /\
                       exists p,
                         out_values s2 = <[l := p]> (out_values s1) /\
                         out_errors s2 = out_errors s1 /\
                         trace s2 = trace s1 /\
                         if out_of_memory (heap s1)
                              (N.of_nat (String.length (json_dump j)) + 1)
                         then p = Null /\ heap s2 = heap s1
                         else boundary_string s1 s2 p /\
                              text_at s2 p = Some (json_dump j))
                    never s).
    { unfold wrap_json. apply wp_try, wp_bind. unfold wp at 1. rewrite Hfn.
      apply wp_bind. unfold set_value, dup_json. apply wp_bind, wp_dup_string.
      - intros Hoom. unfold store_value. apply wp_modify, wp_ret.
        split; [done|]. exists Null. project. rewrite Hoom. done.
      - intros a Ha Hoom. unfold store_value. apply wp_modify, wp_ret.
        split; [done|]. exists (Heap a). project. rewrite Hoom.
        split_and!; try done.
        + by exists a, (json_dump j).
        + cbn. by rewrite lookup_insert_eq. }
    destruct (wp_total _ _ _ Hwp) as (z & s2 & Hrun & -> & p & Hp).
    by exists p, s2.
Qed.

Lemma error_at_stored s l a err :
  out_errors s !! l = Some (Some a) ->
  heap s !! a = Some (BError err) ->
  error_at s l = Some err.
Proof. intros Hl Ha. unfold error_at. by rewrite Hl, Ha. Qed.

Ltac stored_error :=
  eexists; split;
  [eapply error_at_stored; project; [apply lookup_insert_eq|eassumption]|].

Ltac translated_leaf :=
  split; [done|]; project; split; [done|]; split; [done|];
  stored_error;
  unfold translation, flattened; cbn [what];
  repeat split; try done; try congruence;
  try (apply text_at_in; project; assumption).

(** X7.  When the wrapped call throws, [wrap_void] and [wrap_json] return
    -1, leave the value variables and the trace as the call left them, and
    store through [out_error] an Error Value made from the exception: from
    a standard exception one with status -1 and [what()] as message, from
    a [ClientResponseError] one with its status, abort flag and URL whose
    message is the serialised response, not [what()]. *)
Theorem wrappers_translate_exceptions l s e s1 :
  (forall h n, out_of_memory h n = false) ->
  (forall fn : M unit,
      fn s = Thrown e s1 ->
      exists s2,
        wrap_void fn (Some l) s = Done (-1) s2 /\
        out_values s2 = out_values s1 /\ trace s2 = trace s1 /\
        exists err, error_at s2 l = Some err /\ translation e s2 err) /\
  (forall (fn : M json) out_json,
      fn s = Thrown e s1 ->
      exists s2,
        wrap_json fn out_json (Some l) s = Done (-1) s2 /\
        out_values s2 = out_values s1 /\ trace s2 = trace s1 /\
        exists err, error_at s2 l = Some err /\ translation e s2 err).
Proof.
  intros Hmem. split.
  - intros fn Hfn.
    assert (Hwp : wp (wrap_void fn (Some l))
                    (fun z s2 =>
                       z = -1 /\ out_values s2 = out_values s1 /\
                       trace s2 = trace s1 /\
                       exists err, error_at s2 l = Some err /\
                                   translation e s2 err)
                    never s).
    { unfold wrap_void. apply wp_try, wp_bind. unfold wp at 1. rewrite Hfn.
      wp_run; translated_leaf. }
    destruct (wp_total _ _ _ Hwp) as (z & s2 & Hrun & -> & Hrest). eauto.
  - intros fn out_json Hfn.
    assert (Hwp : wp (wrap_json fn out_json (Some l))
                    (fun z s2 =>
                       z = -1 /\ out_values s2 = out_values s1 /\
                       trace s2 = trace s1 /\
                       exists err, error_at s2 l = Some err /\
                                   translation e s2 err)
                    never s).
    { unfold wrap_json. apply wp_try, wp_bind. unfold wp at 1. rewrite Hfn.
      wp_run; translated_leaf. }
    destruct (wp_total _ _ _ Hwp) as (z & s2 & Hrun & -> & Hrest). eauto.
Qed.

(** X8.  [bosbase_filter] and [bosbase_backup_get_download_url] have a
    handler for [std::exception] only.  When the inner library throws,
    whatever it throws, a [ClientResponseError] included, they return -1
    and deliver an Error Value with status -1, no URL, no response, and
    [what()] of the exception as message: the HTTP status, the URL and
    the response of a [ClientResponseError] are not reported. *)
Theorem string_builders_flatten_every_exception s cl pb l e :
  clients s !! cl = Some {| impl := Some pb |} ->
  (forall h n, out_of_memory h n = false) ->
  (forall t tr o, inner t tr o = inl e) ->
  (forall expr params_json out_string,
      (exists params, parse_query params_json = inr params) ->
      exists s',
        bosbase_filter (Some cl) expr params_json out_string (Some l) s
        = Done (-1) s' /\
        out_values s' = out_values s /\
        exists err, error_at s' l = Some err /\ flattened e s' err) /\
  (forall token key out_url,
      exists s',
        bosbase_backup_get_download_url (Some cl) token key out_url (Some l) s
        = Done (-1) s' /\
        out_values s' = out_values s /\
        exists err, error_at s' l = Some err /\ flattened e s' err).
Proof.
  intros Hcl Hmem Hthrow. split.
  - intros expr params_json out_string [params Hq].
    assert (Hwp : wp (bosbase_filter (Some cl) expr params_json out_string (Some l))
                    (fun z s' =>
                       z = -1 /\ out_values s' = out_values s /\
                       exists err, error_at s' l = Some err /\
                                   flattened e s' err)
                    never s).
    { unfold bosbase_filter. apply wp_bind, wp_client_impl. rewrite Hcl.
      cbn [impl]. wp_run.
      all: split; [done|]; split; [done|]; stored_error.
      all: unfold flattened; repeat split; try done.
      all: apply text_at_in; project; assumption. }
    destruct (wp_total _ _ _ Hwp) as (z & s' & Hrun & -> & Hrest). eauto.
  - intros token key out_url.
    assert (Hwp : wp (bosbase_backup_get_download_url (Some cl) token key
                        out_url (Some l))
                    (fun z s' =>
                       z = -1 /\ out_values s' = out_values s /\
                       exists err, error_at s' l = Some err /\
                                   flattened e s' err)
                    never s).
    { unfold bosbase_backup_get_download_url.
      apply wp_bind, wp_client_impl. rewrite Hcl. cbn [impl]. wp_run.
      all: split; [done|]; split; [done|]; stored_error.
      all: unfold flattened; repeat split; try done.
      all: apply text_at_in; project; assumption. }
    destruct (wp_total _ _ _ Hwp) as (z & s' & Hrun & -> & Hrest). eauto.
Qed.

(** *** What a failed call leaves on the heap *)

Lemma free_released h v s :
  released_to h v (heap s) ->
  bosbase_free_error v s = Done tt (set_heap h s).
Proof.
  destruct v as [a|]; cbn [released_to].
  - intros (err & Hok & Hdel). rewrite (free_error_releases s a err Hok).
    by rewrite Hdel.
  - intros <-. by rewrite set_heap_id.
Qed.

Lemma wp_make_error_released msg st Q E s :
  (forall v h1, released_to (heap s) v h1 -> Q v (set_heap h1 s)) ->
  wp (make_error msg st) Q E s.
Proof.
  intros HQ. apply wp_make_error.
  - intros _. rewrite <- (set_heap_id s). by apply HQ.
  - intros a m h1 Ha Hdup. apply HQ.
    destruct (duplicated_release _ _ _ _ Hdup) as (Hrel & Hown & Hkeep).
    destruct (Hkeep a) as [Ham Hlook]; [by rewrite lookup_insert_eq|].
    set (err := {| status := st; is_abort := 0; url := Null; message := m;
                   response := Null |}).
    exists err. split.
    + split_and!; cbn [url message response owned block_of err].
      * apply lookup_insert_eq.
      * done.
      * destruct m as [|b| |]; cbn in *; try done.
        rewrite lookup_insert_ne; [done|].
        intros ->. apply Ham, list_elem_of_singleton. done.
      * done.
      * cbn. rewrite app_nil_r. apply NoDup_cons_2; [done|].
        destruct m; cbn; [apply NoDup_nil_2|apply NoDup_singleton|
                          apply NoDup_nil_2..].
    + cbn [url message response err release].
      destruct m as [|b| |]; cbn [release]; cbn in Hrel.
      * subst h1. rewrite !delete_insert_eq. by apply delete_id.
      * rewrite delete_insert_ne
          by (intros ->; apply Ham, list_elem_of_singleton; done).
        rewrite Hrel. rewrite !delete_insert_eq. by apply delete_id.
      * subst h1. rewrite !delete_insert_eq. by apply delete_id.
      * subst h1. rewrite !delete_insert_eq. by apply delete_id.
Qed.

Lemma wp_make_error_ex_released ex Q E s :
  (forall v h1, released_to (heap s) v h1 -> Q v (set_heap h1 s)) ->
  wp (make_error_ex ex) Q E s.
Proof.
  intros HQ. apply wp_make_error_ex.
  - intros _. rewrite <- (set_heap_id s). by apply HQ.
  - intros a u m r h1 h2 h3 Ha H1 H2 H3 Hlive. apply HQ.
    set (err := {| status := to_int (bosbase.status ex);
                   is_abort := if bosbase.isAbort ex then 1 else 0;
                   url := u; message := m; response := r |}).
    exists err. unfold releasable. cbn [url message response err].
    rewrite lookup_insert_eq.
    destruct H1 as [(-> & -> & _)|(b1 & -> & Hb1 & -> & _)];
      destruct H2 as [(-> & -> & _)|(b2 & -> & Hb2 & -> & _)];
      destruct H3 as [(-> & -> & _)|(b3 & -> & Hb3 & -> & _)];
      cbn [owned block_of release app];
      repeat match goal with
             | H : <[_ := _]> _ !! _ = None |- _ =>
                 apply lookup_insert_None in H as [? ?]
             end;
      (split; [split_and!; try done;
               try (rewrite !lookup_insert_ne by done;
                    rewrite lookup_insert_eq; done);
               try (rewrite lookup_insert_ne by done;
                    rewrite lookup_insert_eq; done);
               repeat (apply NoDup_cons_2;
                       [rewrite ?not_elem_of_cons; repeat split;
                        try apply not_elem_of_nil; congruence|]);
               apply NoDup_nil_2
              |map_cases]).
Qed.

Ltac released_step :=
  cbv beta iota zeta;
  lazymatch goal with
  | |- wp (make_error _ _) _ _ _ =>
      apply wp_make_error_released; intros ? ? ?
  | |- wp (make_error_ex _) _ _ _ =>
      apply wp_make_error_ex_released; intros ? ? ?
  | _ => wp_step
  end.

Ltac released_leaf :=
  project;
  first [ intros; discriminate
        | intros _; eexists; split; [reflexivity|assumption] ].

Lemma entry_error_is_released e s l :
  ready s e ->
  out_error_of e = Some l ->
  wp (run e)
    (fun z s' =>
       z = -1 ->
       exists v, out_errors s' = <[l := v]> (out_errors s) /\
                 released_to (heap s) v (heap s'))
    never s.
Proof.
  intros Hready Hout.
  destruct e as [client c|batch c].
  - destruct client as [cl|]; [|done]. destruct Hready as [pb Hcl].
    destruct c; cbn in Hout; simplify_eq; cbn [run run_client]; unfold_entry.
    all: apply wp_bind, wp_client_impl; rewrite Hcl; cbn [impl].
    all: repeat released_step.
    all: released_leaf.
  - destruct batch as [b|]; [|done]. destruct Hready as (o & bs & Hb).
    destruct c; cbn in Hout; simplify_eq; cbn [run run_batch]; unfold_entry.
    all: apply wp_bind, wp_batch_service; rewrite Hb; cbn [batch_impl].
    all: repeat released_step.
    all: released_leaf.
Qed.

(** X9.  A status-returning call on a live handle that fails with
    [out_error] given assigns the caller's error variable, even when no
    Error Value could be allocated (it is then null), and the blocks the
    call has added to the heap are exactly those of that Error Value:
    [bosbase_free_error] on it succeeds and leaves the heap as it was
    before the call. *)
Theorem a_failed_call_leaves_one_releasable_error e s l :
  ready s e ->
  out_error_of e = Some l ->
  exists z s',
    run e s = Done z s' /\
    (z = -1 ->
     exists v s'',
       out_errors s' = <[l := v]> (out_errors s) /\
       bosbase_free_error v s' = Done tt s'' /\
       heap s'' = heap s).
Proof.
  intros Hready Hout.
  destruct (wp_total _ _ _ (entry_error_is_released e s l Hready Hout))
    as (z & s' & Hrun & Hfail).
  exists z, s'. split; [done|]. intros Hz.
  destruct (Hfail Hz) as (v & Hv & Hrel).
  exists v, (set_heap (heap s) s'). split; [done|].
  split; [by apply free_released|done].
Qed.

(** *** What a call asks of the inner library *)

Lemma operations_issued tr t (o : inner_op t) :
  operations (tr ++ [Issued t o]) = operations tr ++ [Issued t o].
Proof. by rewrite operations_app. Qed.

Ltac asked_leaf :=
  project;
  repeat first [rewrite operations_issued | rewrite operations_resolved];
  first [ right; split; [reflexivity|reflexivity]
        | left; eexists _, _; reflexivity ].

Lemma entry_asks_once e s :
  usable s e ->
  wp (run e)
    (fun z s' =>
       (exists t (o : inner_op t),
           operations (trace s') = operations (trace s) ++ [Issued t o]) \/
       (z = -1 /\ operations (trace s') = operations (trace s)))
    never s.
Proof.
  destruct e as [client c|batch c]; intros Hlive.
  - destruct c; cbn [run run_client]; unfold_entry.
    all: apply wp_bind, wp_client_impl.
    all: destruct client as [cl|]; [destruct Hlive as [w ->]; destruct (impl w)|].
    all: wp_run.
    all: asked_leaf.
  - destruct c; cbn [run run_batch]; unfold_entry.
    all: apply wp_bind, wp_batch_service.
    all: destruct batch as [b|]; [destruct Hlive as [w ->]; destruct (batch_impl w)|].
    all: wp_run.
    all: asked_leaf.
Qed.

(** X10.  A status-returning call asks the inner library for at most one
    operation: when it returns 0 exactly one operation was issued, and
    when none was issued it returns -1. *)
Theorem a_call_issues_at_most_one_operation e s :
  usable s e ->
  exists z s',
    run e s = Done z s' /\
    ((exists t (o : inner_op t),
         operations (trace s') = operations (trace s) ++ [Issued t o]) \/
     (z = -1 /\ operations (trace s') = operations (trace s))).
Proof.
  intros Hlive. exact (wp_total _ _ _ (entry_asks_once e s Hlive)).
Qed.

(** *** What particular entry points send *)

Ltac on_client Hcl :=
  unfold_entry; apply wp_bind, wp_client_impl; rewrite Hcl; cbn [impl].

(** X11.  With a live client and parameters that parse, [bosbase_send]
    issues one [send] to the path given, or to ["/"] when the path is
    null.  The method is the one given, or ["GET"] when it is null or
    empty; body, query and headers are the parsed parameters; the timeout
    is [timeout_ms] when that is positive and the default of
    [SendOptions] otherwise; the files are the converted attachments. *)
Theorem send_marshals_its_options s cl pb path method body_json query_json
    headers_json timeout_ms files files_len out_json out_error body query
    headers :
  clients s !! cl = Some {| impl := Some pb |} ->
  parse_json_or body_json (JObject ∅) = inr body ->
  parse_query query_json = inr query ->
  parse_headers headers_json = inr headers ->
  exists z s' opts,
    bosbase_send (Some cl) path method body_json query_json headers_json
      timeout_ms files files_len out_json out_error s = Done z s' /\
    trace s' = trace s ++
      [Issued TJson
         (BosBase_send pb (match path with Some p => p | None => "/" end) opts)] /\
    bosbase.method opts =
      match method with
      | None | Some EmptyString => "GET"
      | Some m => m
      end /\
    bosbase.body opts = body /\
    bosbase.query opts = query /\
    bosbase.headers opts = headers /\
    (0 < timeout_ms -> bosbase.timeoutMs opts = Some timeout_ms) /\
    (timeout_ms <= 0 ->
     bosbase.timeoutMs opts = bosbase.timeoutMs default_SendOptions) /\
    bosbase.files opts = convert_files files files_len.
Proof.
  intros Hcl Hb Hq Hh.
  assert (Hwp : wp (bosbase_send (Some cl) path method body_json query_json
                      headers_json timeout_ms files files_len out_json out_error)
                  (fun _ s' =>
                     exists opts,
                       trace s' = trace s ++
                         [Issued TJson (BosBase_send pb (str_or path "/") opts)] /\
                       bosbase.method opts = nonempty_or method "GET" /\
                       bosbase.body opts = body /\
                       bosbase.query opts = query /\
                       bosbase.headers opts = headers /\
                       (0 < timeout_ms -> bosbase.timeoutMs opts = Some timeout_ms) /\
                       (timeout_ms <= 0 ->
                        bosbase.timeoutMs opts =
                          bosbase.timeoutMs default_SendOptions) /\
                       bosbase.files opts = convert_files files files_len)
                  never s).
  { on_client Hcl. wp_run.
    all: eexists; split; [reflexivity|].
    all: case_bool_decide; cbn; split_and!; try done; intros; lia. }
  destruct (wp_total _ _ _ Hwp) as (z & s' & Hrun & opts & Hopts).
  exists z, s', opts. split; [done|]. exact Hopts.
Qed.

(** X12.  With a live client and parameters that parse,
    [bosbase_files_get_url] issues one [getURL] whose download flag is
    false for 0, true for 1 and absent for every other value of
    [download]; an empty thumb or token is absent like a null one. *)
Theorem files_get_url_marshals_the_download_flag s cl pb record_json filename
    thumb token download query_json out_url out_error record query :
  clients s !! cl = Some {| impl := Some pb |} ->
  parse_json_or record_json (JObject ∅) = inr record ->
  parse_query query_json = inr query ->
  exists z s' dl,
    bosbase_files_get_url (Some cl) record_json filename thumb token download
      query_json out_url out_error s = Done z s' /\
    trace s' = trace s ++
      [Issued TString
         (Files_getURL pb record
            (match filename with Some f => f | None => "" end)
            (match thumb with None | Some EmptyString => None | t => t end)
            (match token with None | Some EmptyString => None | t => t end)
            dl query)] /\
    (download = 0 -> dl = Some false) /\
    (download = 1 -> dl = Some true) /\
    (download <> 0 -> download <> 1 -> dl = None).
Proof.
  intros Hcl Hr Hq.
  assert (Hwp : wp (bosbase_files_get_url (Some cl) record_json filename thumb
                      token download query_json out_url out_error)
                  (fun _ s' =>
                     exists dl,
                       trace s' = trace s ++
                         [Issued TString
                            (Files_getURL pb record (str_or filename "")
                               (opt_str thumb) (opt_str token) dl query)] /\
                       (download = 0 -> dl = Some false) /\
                       (download = 1 -> dl = Some true) /\
                       (download <> 0 -> download <> 1 -> dl = None))
                  never s).
  { on_client Hcl. wp_run.
    all: eexists; split; [reflexivity|].
    all: repeat case_bool_decide; cbn; split_and!; intros; try done; lia. }
  destruct (wp_total _ _ _ Hwp) as (z & s' & Hrun & dl & Htr & Hdl).
  exists z, s', dl. split; [done|]. split; [|done].
  rewrite Htr. by destruct filename, thumb as [[]|], token as [[]|].
Qed.

Ltac handed_leaf :=
  split; [done|]; eexists; project; rewrite lookup_insert_eq;
  split; [reflexivity|]; cbn; by rewrite lookup_insert_eq.

(** X13.  The three entry points whose result is a string hand it out as
    it is, not serialised as a document: when the inner library returns
    the text [t], [bosbase_filter], [bosbase_files_get_url] and
    [bosbase_backup_get_download_url] return 0 and the block stored
    through the out-parameter holds [t]. *)
Theorem string_results_are_handed_out_as_they_are s cl pb l t :
  clients s !! cl = Some {| impl := Some pb |} ->
  (forall h n, out_of_memory h n = false) ->
  (forall tr o, inner TString tr o = inr t) ->
  (forall expr params_json out_error,
      (exists params, parse_query params_json = inr params) ->
      exists p s',
        bosbase_filter (Some cl) expr params_json (Some l) out_error s
        = Done 0 s' /\
        out_values s' !! l = Some p /\ text_at s' p = Some t) /\
  (forall record_json filename thumb token download query_json out_error,
      (exists record, parse_json_or record_json (JObject ∅) = inr record) ->
      (exists query, parse_query query_json = inr query) ->
      exists p s',
        bosbase_files_get_url (Some cl) record_json filename thumb token
          download query_json (Some l) out_error s = Done 0 s' /\
        out_values s' !! l = Some p /\ text_at s' p = Some t) /\
  (forall token key out_error,
      exists p s',
        bosbase_backup_get_download_url (Some cl) token key (Some l) out_error s
        = Done 0 s' /\
        out_values s' !! l = Some p /\ text_at s' p = Some t).
Proof.
  intros Hcl Hmem Hreply.
  split_and!.
  - intros expr params_json out_error [params Hq].
    assert (Hwp : wp (bosbase_filter (Some cl) expr params_json (Some l) out_error)
                    (fun z s' =>
                       z = 0 /\ exists p, out_values s' !! l = Some p /\
                                          text_at s' p = Some t)
                    never s).
    { on_client Hcl. wp_run. all: rewrite Hreply in *; simplify_eq.
      all: handed_leaf. }
    destruct (wp_total _ _ _ Hwp) as (z & s' & Hrun & -> & p & Hp). eauto.
  - intros record_json filename thumb token download query_json out_error
      [record Hr] [query Hq].
    assert (Hwp : wp (bosbase_files_get_url (Some cl) record_json filename thumb
                        token download query_json (Some l) out_error)
                    (fun z s' =>
                       z = 0 /\ exists p, out_values s' !! l = Some p /\
                                          text_at s' p = Some t)
                    never s).
    { on_client Hcl. wp_run. all: rewrite Hreply in *; simplify_eq.
      all: handed_leaf. }
    destruct (wp_total _ _ _ Hwp) as (z & s' & Hrun & -> & p & Hp). eauto.
  - intros token key out_error.
    assert (Hwp : wp (bosbase_backup_get_download_url (Some cl) token key
                        (Some l) out_error)
                    (fun z s' =>
                       z = 0 /\ exists p, out_values s' !! l = Some p /\
                                          text_at s' p = Some t)
                    never s).
    { on_client Hcl. wp_run. all: rewrite Hreply in *; simplify_eq.
      all: handed_leaf. }
    destruct (wp_total _ _ _ Hwp) as (z & s' & Hrun & -> & p & Hp). eauto.
Qed.

(** X14.  With a live client and parameters that parse,
    [bosbase_cache_create] passes the whole body on and, beside it, each
    of [sizeBytes], [defaultTTLSeconds] and [readTimeoutMs] that the body
    holds as an integer, converted to [int]; a key that is missing, or
    whose value is not an integer, or a body that is not an object, gives
    an absent argument. *)
Theorem cache_create_reads_three_integers_from_the_body s cl pb name body_json
    query_json headers_json out_json out_error body query headers :
  clients s !! cl = Some {| impl := Some pb |} ->
  parse_json_or body_json (JObject ∅) = inr body ->
  parse_query query_json = inr query ->
  parse_headers headers_json = inr headers ->
  let integer key :=
    match body with
    | JObject members =>
        match members !! key with
        | Some (JInt n) => Some (to_int n)
        | _ => None
        end
    | _ => None
    end in
  exists z s',
    bosbase_cache_create (Some cl) name body_json query_json headers_json
      out_json out_error s = Done z s' /\
    trace s' = trace s ++
      [Issued TJson
         (Caches_create pb (match name with Some n => n | None => "" end)
            (integer "sizeBytes") (integer "defaultTTLSeconds")
            (integer "readTimeoutMs") body query headers)].
Proof.
  intros Hcl Hb Hq Hh integer.
  assert (Hint : forall key, optional_int body key = integer key).
  { intros key. unfold optional_int, integer, contains, at_key.
    destruct body as [| | | | | |m]; try done.
    destruct (m !! key) as [[]|] eqn:Hk; cbn; try done;
      rewrite ?bool_decide_eq_true_2 by eauto; done. }
  assert (Hwp : wp (bosbase_cache_create (Some cl) name body_json query_json
                      headers_json out_json out_error)
                  (fun _ s' =>
                     trace s' = trace s ++
                       [Issued TJson
                          (Caches_create pb (str_or name "")
                             (optional_int body "sizeBytes")
                             (optional_int body "defaultTTLSeconds")
                             (optional_int body "readTimeoutMs")
                             body query headers)])
                  never s).
  { on_client Hcl. wp_run; done. }
  destruct (wp_total _ _ _ Hwp) as (z & s' & Hrun & Htr).
  exists z, s'. split; [done|]. rewrite Htr, !Hint. by destruct name.
Qed.

Ltac payload_lookup :=
  repeat first [ rewrite lookup_insert_eq
               | rewrite lookup_insert_ne by done
               | rewrite lookup_singleton_eq
               | rewrite lookup_singleton_ne by done ];
  done.

Ltac payload_leaf :=
  split; [done|]; eexists _, _; project; rewrite lookup_insert_eq;
  split; [reflexivity|]; split; [cbn; by rewrite lookup_insert_eq|].

(** X15.  When the inner library answers [execute] with a result,
    [bosbase_sql_execute] returns 0 and hands out the serialisation of an
    object that holds the result's columns under [columns], its rows
    under [rows], the number of affected rows under [rowsAffected] when
    the result has one, and no other key. *)
Theorem sql_execute_hands_out_columns_and_rows s cl pb query query_json
    headers_json l out_error query_params headers result :
  clients s !! cl = Some {| impl := Some pb |} ->
  (forall h n, out_of_memory h n = false) ->
  parse_query query_json = inr query_params ->
  parse_headers headers_json = inr headers ->
  inner TSql (trace s)
    (SQL_execute pb (match query with Some q => q | None => "" end)
       query_params headers) = inr result ->
  exists s' p payload,
    bosbase_sql_execute (Some cl) query query_json headers_json (Some l)
      out_error s = Done 0 s' /\
    out_values s' !! l = Some p /\
    text_at s' p = Some (json_dump (JObject payload)) /\
    payload !! "columns" = Some (bosbase.columns result) /\
    payload !! "rows" = Some (bosbase.rows result) /\
    payload !! "rowsAffected" = JInt <$> bosbase.rowsAffected result /\
    forall key, key <> "columns" -> key <> "rows" -> key <> "rowsAffected" ->
                payload !! key = None.
Proof.
  intros Hcl Hmem Hq Hh Hreply.
  assert (Hreply' : inner TSql (trace s)
                      (SQL_execute pb (str_or query "") query_params headers)
                    = inr result) by (by destruct query).
  assert (Hwp : wp (bosbase_sql_execute (Some cl) query query_json headers_json
                      (Some l) out_error)
                  (fun z s' =>
                     z = 0 /\
                     exists p payload,
                       out_values s' !! l = Some p /\
                       text_at s' p = Some (json_dump (JObject payload)) /\
                       payload !! "columns" = Some (bosbase.columns result) /\
                       payload !! "rows" = Some (bosbase.rows result) /\
                       payload !! "rowsAffected" =
                         JInt <$> bosbase.rowsAffected result /\
                       forall key,
                         key <> "columns" -> key <> "rows" ->
                         key <> "rowsAffected" -> payload !! key = None)
                  never s).
  { on_client Hcl. wp_run.
    all: rewrite Hreply' in *; simplify_eq.
    all: cbn [set_key] in *.
    all: destruct (bosbase.rowsAffected result) as [n|].
    all: payload_leaf.
    all: split_and!; intros; payload_lookup. }
  destruct (wp_total _ _ _ Hwp) as (z & s' & Hrun & -> & p & payload & Hp).
  by exists s', p, payload.
Qed.

(** X16.  When the inner library answers [publish] with a message,
    [bosbase_pubsub_publish] returns 0 and hands out the serialisation of
    an object with the four keys [id], [topic], [created] and [data]: the
    first three are the strings of the message, the fourth its data. *)
Theorem pubsub_publish_hands_out_the_message s cl pb topic data_json l
    out_error data msg :
  clients s !! cl = Some {| impl := Some pb |} ->
  (forall h n, out_of_memory h n = false) ->
  parse_json_or data_json (JObject ∅) = inr data ->
  inner TMessage (trace s)
    (PubSub_publish pb (match topic with Some t => t | None => "" end) data)
  = inr msg ->
  exists s' p payload,
    bosbase_pubsub_publish (Some cl) topic data_json (Some l) out_error s
    = Done 0 s' /\
    out_values s' !! l = Some p /\
    text_at s' p = Some (json_dump (JObject payload)) /\
    payload !! "id" = Some (JString (bosbase.PubSubMessage.id msg)) /\
    payload !! "topic" = Some (JString (bosbase.PubSubMessage.topic msg)) /\
    payload !! "created" = Some (JString (bosbase.PubSubMessage.created msg)) /\
    payload !! "data" = Some (bosbase.PubSubMessage.data msg) /\
    forall key, key <> "id" -> key <> "topic" -> key <> "created" ->
                key <> "data" -> payload !! key = None.
Proof.
  intros Hcl Hmem Hd Hreply.
  assert (Hreply' : inner TMessage (trace s)
                      (PubSub_publish pb (str_or topic "") data) = inr msg)
    by (by destruct topic).
  assert (Hwp : wp (bosbase_pubsub_publish (Some cl) topic data_json (Some l)
                      out_error)
                  (fun z s' =>
                     z = 0 /\
                     exists p payload,
                       out_values s' !! l = Some p /\
                       text_at s' p = Some (json_dump (JObject payload)) /\
                       payload !! "id" =
                         Some (JString (bosbase.PubSubMessage.id msg)) /\
                       payload !! "topic" =
                         Some (JString (bosbase.PubSubMessage.topic msg)) /\
                       payload !! "created" =
                         Some (JString (bosbase.PubSubMessage.created msg)) /\
                       payload !! "data" =
                         Some (bosbase.PubSubMessage.data msg) /\
                       forall key,
                         key <> "id" -> key <> "topic" -> key <> "created" ->
                         key <> "data" -> payload !! key = None)
                  never s).
  { on_client Hcl. wp_run.
    all: rewrite Hreply' in *; simplify_eq.
    all: cbn [set_key] in *.
    all: payload_leaf.
    all: split_and!; intros; payload_lookup. }
  destruct (wp_total _ _ _ Hwp) as (z & s' & Hrun & -> & p & payload & Hp).
  by exists s', p, payload.
Qed.

(** X17.  [bosbase_backup_upload] looks at the file first.  Without a
    file it returns -1 with the message "file is required for backup
    upload" whatever the query and header texts are (they are not
    parsed), and asks nothing of the inner library.  With a file and
    parameters that parse it issues one [upload] of the converted
    attachment. *)
Theorem backup_upload_requires_a_file s cl pb query_json headers_json out_json
    l out_error :
  clients s !! cl = Some {| impl := Some pb |} ->
  (forall h n, out_of_memory h n = false) ->
  (exists s' err,
      bosbase_backup_upload (Some cl) None query_json headers_json out_json
        (Some l) s = Done (-1) s' /\
      trace s' = trace s /\
      out_values s' = out_values s /\
      error_at s' l = Some err /\
      flattened (std_exception "file is required for backup upload") s' err) /\
  (forall f query headers,
      parse_query query_json = inr query ->
      parse_headers headers_json = inr headers ->
      exists z s',
        bosbase_backup_upload (Some cl) (Some f) query_json headers_json
          out_json out_error s = Done z s' /\
        trace s' = trace s ++
          [Issued TJson (Backups_upload pb (convert_file f) query headers)]).
Proof.
  intros Hcl Hmem. split.
  - assert (Hwp : wp (bosbase_backup_upload (Some cl) None query_json
                        headers_json out_json (Some l))
                    (fun z s' =>
                       z = -1 /\ trace s' = trace s /\
                       out_values s' = out_values s /\
                       exists err,
                         error_at s' l = Some err /\
                         flattened
                           (std_exception "file is required for backup upload")
                           s' err)
                    never s).
    { on_client Hcl. unfold convert_files. wp_run.
      all: split_and!; try done; stored_error.
      all: unfold flattened; repeat split; try done.
      all: apply text_at_in; project; assumption. }
    destruct (wp_total _ _ _ Hwp) as (z & s' & Hrun & -> & ? & ? & err & ? & ?).
    by exists s', err.
  - intros f query headers Hq Hh.
    assert (Hwp : wp (bosbase_backup_upload (Some cl) (Some f) query_json
                        headers_json out_json out_error)
                    (fun _ s' =>
                       trace s' = trace s ++
                         [Issued TJson
                            (Backups_upload pb (convert_file f) query headers)])
                    never s).
    { on_client Hcl. unfold convert_files.
      rewrite bool_decide_eq_false_2 by done. cbn [take fmap list_fmap].
      wp_run; done. }
    exact (wp_total _ _ _ Hwp).
Qed.

(** X18.  With a live client and parameters that parse,
    [bosbase_llm_create_collection] issues one POST whose body is the
    parsed metadata, or an empty object when the metadata is null, empty
    or the document [null]; the reply is dropped and nothing is handed
    out. *)
Theorem llm_create_collection_sends_an_object s cl pb name metadata_json
    query_json headers_json out_error metadata query headers :
  clients s !! cl = Some {| impl := Some pb |} ->
  parse_query query_json = inr query ->
  parse_headers headers_json = inr headers ->
  parse_json_or metadata_json (JObject ∅) = inr metadata ->
  exists z s' opts,
    bosbase_llm_create_collection (Some cl) name metadata_json query_json
      headers_json out_error s = Done z s' /\
    trace s' = trace s ++
      [Issued TJson
         (BosBase_send pb
            ("/api/llm-documents/collections/" +:+
               encodePathSegment (match name with Some n => n | None => "" end))
            opts)] /\
    bosbase.method opts = "POST" /\
    bosbase.body opts = match metadata with JNull => JObject ∅ | b => b end /\
    bosbase.query opts = query /\
    bosbase.headers opts = headers /\
    out_values s' = out_values s.
Proof.
  intros Hcl Hq Hh Hm.
  assert (Hwp : wp (bosbase_llm_create_collection (Some cl) name metadata_json
                      query_json headers_json out_error)
                  (fun _ s' =>
                     exists opts,
                       trace s' = trace s ++
                         [Issued TJson
                            (BosBase_send pb
                               ("/api/llm-documents/collections/" +:+
                                  encodePathSegment (str_or name ""))
                               opts)] /\
                       bosbase.method opts = "POST" /\
                       bosbase.body opts =
                         match metadata with JNull => JObject ∅ | b => b end /\
                       bosbase.query opts = query /\
                       bosbase.headers opts = headers /\
                       out_values s' = out_values s)
                  never s).
  { on_client Hcl. wp_run.
    all: eexists; split; [reflexivity|]; cbn; split_and!; try done.
    all: by destruct metadata. }
  destruct (wp_total _ _ _ Hwp) as (z & s' & Hrun & opts & Htr & Hopts).
  exists z, s', opts. split; [done|]. split; [|done].
  rewrite Htr. by destruct name.
Qed.

(** *** Subscriptions *)

(** X19.  Without a callback the two subscribe entry points return a null
    handle and do nothing else: nothing is parsed, nothing is asked of
    the inner library, and no Error Value is stored to say why. *)
Theorem subscribe_refuses_a_null_callback_silently client s :
  match client with
  | Some c => is_Some (clients s !! c)
  | None => True
  end ->
  (forall collection_name topic user_data query_json headers_json out_error,
      bosbase_collection_subscribe client collection_name topic None user_data
        query_json headers_json out_error s = Done None s) /\
  (forall topic user_data out_error,
      bosbase_pubsub_subscribe client topic None user_data out_error s
      = Done None s).
Proof.
  intros Hlive. split; intros;
    unfold bosbase_collection_subscribe, bosbase_pubsub_subscribe, bind,
      client_impl;
    (destruct client as [c|]; [destruct Hlive as [w ->]; by destruct (impl w)|done]).
Qed.

(** X20.  With a live client, a callback and parameters that parse, the
    two subscribe entry points ask the inner library for one
    subscription, to the topic given (["*"] for a collection and the
    empty topic for pub/sub when it is null), with a listener that
    carries the callback and [user_data].  When the library returns, the
    call returns a new handle that holds the cancellation function the
    library gave; the heap and the error variables are as before. *)
Theorem subscribe_keeps_what_the_library_returns s cl pb collection_name topic
    callback user_data query_json headers_json out_error query headers k :
  clients s !! cl = Some {| impl := Some pb |} ->
  parse_query query_json = inr query ->
  parse_headers headers_json = inr headers ->
  (forall tr o, inner TCancel tr o = inr k) ->
  let listener := {| bosbase.callback := callback;
                     bosbase.user_data := user_data |} in
  let svc := {| bosbase.owner := pb;
                bosbase.collection :=
                  match collection_name with Some c => c | None => "" end |} in
  (exists sub s',
      bosbase_collection_subscribe (Some cl) collection_name topic
        (Some callback) user_data query_json headers_json out_error s
      = Done (Some sub) s' /\
      trace s' = trace s ++
        [Resolved svc;
         Issued TCancel
           (Record_subscribe svc
              (match topic with Some t => t | None => "*" end)
              listener query headers)] /\
      subscriptions s !! sub = None /\
      subscriptions s' =
        <[sub := {| holder := Some {| cancel := k |} |}]> (subscriptions s) /\
      heap s' = heap s /\ out_errors s' = out_errors s) /\
  (exists sub s',
      bosbase_pubsub_subscribe (Some cl) topic (Some callback) user_data
        out_error s = Done (Some sub) s' /\
      trace s' = trace s ++
        [Issued TCancel
           (PubSub_subscribe pb
              (match topic with Some t => t | None => "" end) listener)] /\
      subscriptions s !! sub = None /\
      subscriptions s' =
        <[sub := {| holder := Some {| cancel := k |} |}]> (subscriptions s) /\
      heap s' = heap s /\ out_errors s' = out_errors s).
Proof.
  intros Hcl Hq Hh Hreply listener svc.
  assert (Hfresh : subscriptions s !! fresh (dom (subscriptions s)) = None)
    by apply not_elem_of_dom, is_fresh.
  split.
  - assert (Hwp : wp (bosbase_collection_subscribe (Some cl) collection_name
                        topic (Some callback) user_data query_json headers_json
                        out_error)
                    (fun r s' =>
                       exists sub,
                         r = Some sub /\
                         trace s' = trace s ++
                           [Resolved svc;
                            Issued TCancel
                              (Record_subscribe svc (str_or topic "*") listener
                                 query headers)] /\
                         subscriptions s !! sub = None /\
                         subscriptions s' =
                           <[sub := {| holder := Some {| cancel := k |} |}]>
                             (subscriptions s) /\
                         heap s' = heap s /\ out_errors s' = out_errors s)
                    never s).
    { on_client Hcl. wp_run. all: rewrite Hreply in *; simplify_eq.
      eexists. split; [reflexivity|]. rewrite <- app_assoc.
      subst svc. unfold str_or. by destruct collection_name. }
    destruct (wp_total _ _ _ Hwp) as (r & s' & Hrun & sub & -> & Htr & Hrest).
    exists sub, s'. split; [done|]. split; [|done].
    rewrite Htr. by destruct topic.
  - assert (Hwp : wp (bosbase_pubsub_subscribe (Some cl) topic (Some callback)
                        user_data out_error)
                    (fun r s' =>
                       exists sub,
                         r = Some sub /\
                         trace s' = trace s ++
                           [Issued TCancel
                              (PubSub_subscribe pb (str_or topic "") listener)] /\
                         subscriptions s !! sub = None /\
                         subscriptions s' =
                           <[sub := {| holder := Some {| cancel := k |} |}]>
                             (subscriptions s) /\
                         heap s' = heap s /\ out_errors s' = out_errors s)
                    never s).
    { on_client Hcl. wp_run. all: rewrite Hreply in *; simplify_eq.
      eexists. split; [reflexivity|]. done. }
    destruct (wp_total _ _ _ Hwp) as (r & s' & Hrun & sub & -> & Htr & Hrest).
    exists sub, s'. split; [done|]. split; [|done].
    rewrite Htr. by destruct topic.
Qed.

Lemma subscribe_holds_the_reply client c s :
  match client with
  | Some cl => is_Some (clients s !! cl)
  | None => True
  end ->
  wp (run_subscribe client c)
    (fun r s1 =>
       forall sub,
         r = Some sub ->
         exists pre (o : inner_op TCancel) k,
           trace s1 = pre ++ [Issued TCancel o] /\
           inner TCancel pre o = inr k /\
           subscriptions s !! sub = None /\
           subscriptions s1 =
             <[sub := {| holder := Some {| cancel := k |} |}]> (subscriptions s) /\
           heap s1 = heap s)
    (fun _ _ => True) s.
Proof.
  intros Hlive.
  assert (Hfresh : subscriptions s !! fresh (dom (subscriptions s)) = None)
    by apply not_elem_of_dom, is_fresh.
  destruct c; cbn [run_subscribe]; unfold_entry.
  all: apply wp_bind, wp_client_impl.
  all: destruct client as [cl|]; [destruct Hlive as [w ->]|].
  all: wp_run; try done.
  all: intros sub [= <-]; eexists _, _, _.
  all: split; [reflexivity|]; split; [eassumption|]; done.
Qed.

(** X21.  Cancelling the handle that a subscribe call has just returned
    invokes the cancellation function that the inner library returned to
    that call, if it returned one, and nothing else; afterwards the store
    of subscription handles is what it was before the subscribe call. *)
Theorem cancel_undoes_subscribe client c s sub s1 :
  run_subscribe client c s = Done (Some sub) s1 ->
  (forall tr f, inner TVoid tr (Cancel_invoke f) = inr tt) ->
  exists pre (o : inner_op TCancel) k s2,
    trace s1 = pre ++ [Issued TCancel o] /\
    inner TCancel pre o = inr k /\
    bosbase_subscription_cancel (Some sub) s1 = Done tt s2 /\
    trace s2 = trace s1 ++
               match k with
               | Some f => [Issued TVoid (Cancel_invoke f)]
               | None => []
               end /\
    subscriptions s2 = subscriptions s /\
    heap s2 = heap s.
Proof.
  intros Hrun Hcancel.
  assert (Hlive : match client with
                  | Some cl => is_Some (clients s !! cl)
                  | None => True
                  end).
  { destruct client as [cl|]; [|done].
    destruct (clients s !! cl) as [w|] eqn:Hcl; [eauto|].
    destruct c; cbn [run_subscribe] in Hrun;
      unfold bosbase_collection_subscribe, bosbase_pubsub_subscribe, bind,
        client_impl in Hrun; rewrite Hcl in Hrun; discriminate. }
  destruct (wp_done _ _ _ _ _ _ (subscribe_holds_the_reply client c s Hlive) Hrun
              sub eq_refl)
    as (pre & o & k & Htr & Hreply & Hnew & Hsub & Hheap).
  assert (Ha : subscriptions s1 !! sub = Some {| holder := Some {| cancel := k |} |})
    by (rewrite Hsub; apply lookup_insert_eq).
  destruct (subscription_cancel_live s1 sub {| cancel := k |} Ha)
    as (s2 & Hrun2 & Htr2 & Hsub2 & Hheap2 & _).
  { cbn [cancel]. destruct k; [apply Hcancel|done]. }
  exists pre, o, k, s2. split_and!; try done.
  - rewrite Hsub2, Hsub. by apply delete_insert_id.
  - congruence.
Qed.

(** *** Event delivery *)

(** X22.  The listener of [bosbase_collection_subscribe] hands the
    callback a copy of the serialised event (null when the copy cannot be
    allocated) together with [user_data], and releases the copy when the
    callback returns: with a callback that returns and leaves the heap as
    it finds it, a delivery leaves the heap as it was. *)
Theorem record_listener_lends_the_event record_event_cb cb evt s :
  (forall p s0, exists s1,
      record_event_cb (bosbase.callback cb) p (bosbase.user_data cb) s0
      = Done tt s1 /\ heap s1 = heap s0) ->
  exists p s0 s1,
    dup_json evt s = Done p s0 /\
    (if out_of_memory (heap s) (N.of_nat (String.length (json_dump evt)) + 1)
     then p = Null
     else text_at s0 p = Some (json_dump evt)) /\
    record_event_cb (bosbase.callback cb) p (bosbase.user_data cb) s0
    = Done tt s1 /\
    record_listener record_event_cb cb evt s = Done tt (set_heap (heap s) s1).
Proof.
  intros Hcb.
  destruct (out_of_memory (heap s) _) eqn:Hoom.
  - assert (Hdup : dup_json (evt) s = Done Null s).
    { unfold dup_json, dup_string, bind, malloc. by rewrite Hoom. }
    destruct (Hcb Null s) as (s1 & Hrun & Hheap).
    exists Null, s, s1. split_and!; try done.
    unfold record_listener, bind. rewrite Hdup, Hrun. cbn.
    by rewrite <- Hheap, set_heap_id.
  - set (a := fresh (dom (heap s))).
    set (s0 := set_heap (<[a := BString (json_dump (evt))]> (heap s)) s).
    assert (Hdup : dup_json (evt) s = Done (Heap a) s0).
    { unfold dup_json, dup_string, bind, malloc. rewrite Hoom.
      unfold memcpy, ret. cbn [heap set_heap]. rewrite lookup_insert_eq.
      by rewrite insert_insert_eq. }
    destruct (Hcb (Heap a) s0) as (s1 & Hrun & Hheap).
    exists (Heap a), s0, s1. split_and!; try done.
    + cbn. by rewrite lookup_insert_eq.
    + unfold record_listener, bind. rewrite Hdup, Hrun.
      unfold bosbase_free_string, free. rewrite Hheap.
      subst s0. cbn [heap set_heap]. rewrite lookup_insert_eq.
      rewrite delete_insert_id by apply fresh_heap. done.
Qed.

(** X23.  The listener of [bosbase_pubsub_subscribe] hands the callback
    the topic, the id and the creation time of the message, a copy of
    its serialised data (null when the copy cannot be allocated) and
    [user_data], and releases the copy when the callback returns: with a
    callback that returns and leaves the heap as it finds it, a delivery
    leaves the heap as it was. *)
Theorem pubsub_listener_lends_the_data pubsub_cb cb msg s :
  (forall p s0, exists s1,
      pubsub_cb (bosbase.callback cb) (bosbase.PubSubMessage.topic msg)
        (bosbase.PubSubMessage.id msg) (bosbase.PubSubMessage.created msg)
        p (bosbase.user_data cb) s0 = Done tt s1 /\ heap s1 = heap s0) ->
  exists p s0 s1,
    dup_json (bosbase.PubSubMessage.data msg) s = Done p s0 /\
    (if out_of_memory (heap s)
          (N.of_nat (String.length (json_dump (bosbase.PubSubMessage.data msg))) + 1)
     then p = Null
     else text_at s0 p = Some (json_dump (bosbase.PubSubMessage.data msg))) /\
    pubsub_cb (bosbase.callback cb) (bosbase.PubSubMessage.topic msg)
      (bosbase.PubSubMessage.id msg) (bosbase.PubSubMessage.created msg)
      p (bosbase.user_data cb) s0 = Done tt s1 /\
    pubsub_listener pubsub_cb cb msg s = Done tt (set_heap (heap s) s1).
Proof.
  intros Hcb.
  destruct (out_of_memory (heap s) _) eqn:Hoom.
  - assert (Hdup : dup_json (bosbase.PubSubMessage.data msg) s = Done Null s).
    { unfold dup_json, dup_string, bind, malloc. by rewrite Hoom. }
    destruct (Hcb Null s) as (s1 & Hrun & Hheap).
    exists Null, s, s1. split_and!; try done.
    unfold pubsub_listener, bind. rewrite Hdup, Hrun. cbn.
    by rewrite <- Hheap, set_heap_id.
  - set (a := fresh (dom (heap s))).
    set (s0 := set_heap (<[a := BString (json_dump (bosbase.PubSubMessage.data msg))]> (heap s)) s).
    assert (Hdup : dup_json (bosbase.PubSubMessage.data msg) s = Done (Heap a) s0).
    { unfold dup_json, dup_string, bind, malloc. rewrite Hoom.
      unfold memcpy, ret. cbn [heap set_heap]. rewrite lookup_insert_eq.
      by rewrite insert_insert_eq. }
    destruct (Hcb (Heap a) s0) as (s1 & Hrun & Hheap).
    exists (Heap a), s0, s1. split_and!; try done.
    + cbn. by rewrite lookup_insert_eq.
    + unfold pubsub_listener, bind. rewrite Hdup, Hrun.
      unfold bosbase_free_string, free. rewrite Hheap.
      subst s0. cbn [heap set_heap]. rewrite lookup_insert_eq.
      rewrite delete_insert_id by apply fresh_heap. done.
Qed.

(** X24.  The copy handed to a callback belongs to the listener: a
    callback that releases it makes the listener release it a second
    time, which is undefined. *)
Theorem a_callback_must_not_release_the_event cb evt s :
  out_of_memory (heap s) (N.of_nat (String.length (json_dump evt)) + 1) = false ->
  record_listener (fun _ p _ => bosbase_free_string p) cb evt s = Fault.
Proof.
  intros Hoom. unfold record_listener, dup_json, dup_string, bind, malloc.
  rewrite Hoom. unfold memcpy, ret. cbn [heap set_heap].
  rewrite lookup_insert_eq. unfold bosbase_free_string, free.
  cbn [heap set_heap]. rewrite lookup_insert_eq. cbn [heap set_heap].
  by rewrite lookup_delete_eq.
Qed.

(** *** Handles *)

(** X25.  [bosbase_client_new] constructs the inner client for the base
    URL and the language given, taking ["/"] and ["en-US"] for null
    ones, and returns a handle that is never null and differs from every
    live client handle.  [bosbase_client_free] on that handle leaves the
    store of client handles as it was before; on a null handle it does
    nothing. *)
Theorem client_new_then_free base_url lang s pb :
  bosbase_client_free None s = Done tt s /\
  (inner TClient (trace s)
     (BosBase_new (match base_url with Some b => b | None => "/" end)
        (match lang with Some l => l | None => "en-US" end)) = inr pb ->
   exists c s1 s2,
     bosbase_client_new base_url lang s = Done (Some c) s1 /\
     clients s !! c = None /\
     clients s1 = <[c := {| impl := Some pb |}]> (clients s) /\
     trace s1 = trace s ++
       [Issued TClient
          (BosBase_new (match base_url with Some b => b | None => "/" end)
             (match lang with Some l => l | None => "en-US" end))] /\
     heap s1 = heap s /\
     bosbase_client_free (Some c) s1 = Done tt s2 /\
     clients s2 = clients s /\
     trace s2 = trace s1).
Proof.
  split; [done|]. intros Hreply.
  assert (Hfresh : clients s !! fresh (dom (clients s)) = None)
    by apply not_elem_of_dom, is_fresh.
  unfold bosbase_client_new, bind, call, new_client, ret.
  replace (str_or base_url "/")
    with (match base_url with Some b => b | None => "/" end)
    by (by destruct base_url).
  replace (str_or lang "en-US")
    with (match lang with Some l => l | None => "en-US" end)
    by (by destruct lang).
  cbv zeta. rewrite Hreply. project.
  eexists _, _, _. split; [reflexivity|]. project.
  split; [done|]. split; [done|]. split; [done|]. split; [done|].
  split.
  - unfold bosbase_client_free, delete_client. project.
    rewrite lookup_insert_eq. reflexivity.
  - project. split; [by apply delete_insert_id|done].
Qed.

(** X26.  [bosbase_batch_new] returns null for a null client, and for a
    live one when [createBatch] gives no batch; no handle is allocated
    then.  Otherwise it returns a handle that differs from every live
    batch handle and records the client as owner and the batch it was
    given.  [bosbase_batch_free] on that handle leaves the store of batch
    handles as it was before; on a null handle it does nothing. *)
Theorem batch_new_then_free s cl pb :
  bosbase_batch_new None s = Done None s /\
  bosbase_batch_free None s = Done tt s /\
  (clients s !! cl = Some {| impl := Some pb |} ->
   (inner TBatch (trace s) (BosBase_createBatch pb) = inr None ->
    exists s1,
      bosbase_batch_new (Some cl) s = Done None s1 /\
      batches s1 = batches s) /\
   (forall bs,
       inner TBatch (trace s) (BosBase_createBatch pb) = inr (Some bs) ->
       exists b s1 s2,
         bosbase_batch_new (Some cl) s = Done (Some b) s1 /\
         batches s !! b = None /\
         batches s1 =
           <[b := {| batch_owner := Some cl; batch_impl := Some bs |}]> (batches s) /\
         trace s1 = trace s ++ [Issued TBatch (BosBase_createBatch pb)] /\
         bosbase_batch_free (Some b) s1 = Done tt s2 /\
         batches s2 = batches s)).
Proof.
  assert (Hfresh : batches s !! fresh (dom (batches s)) = None)
    by apply not_elem_of_dom, is_fresh.
  split; [done|]. split; [done|]. intros Hcl. split.
  - intros Hreply. unfold bosbase_batch_new, bind, client_impl, call, ret.
    rewrite Hcl. cbn [impl]. rewrite Hreply. by eexists.
  - intros bs Hreply.
    unfold bosbase_batch_new, bind, client_impl, call, new_batch, ret.
    rewrite Hcl. cbn [impl]. rewrite Hreply. project.
    eexists _, _, _. split; [reflexivity|]. project.
    split; [done|]. split; [done|]. split; [done|].
    split.
    + unfold bosbase_batch_free, delete_batch. project.
      rewrite lookup_insert_eq. reflexivity.
    + project. by apply delete_insert_id.
Qed.

(** X27.  The entry points that do not return a status have no handler:
    an exception of the inner library leaves [bosbase_client_new],
    [bosbase_batch_new], [bosbase_auth_token], [bosbase_auth_record],
    [bosbase_auth_clear] and [bosbase_pubsub_disconnect] as it was
    thrown, and leaves [bosbase_subscription_cancel] before the handle
    is deleted. *)
Theorem exceptions_leave_the_unguarded_entry_points s cl pb sub k e :
  clients s !! cl = Some {| impl := Some pb |} ->
  subscriptions s !! sub = Some {| holder := Some {| cancel := Some k |} |} ->
  (forall t tr o, inner t tr o = inl e) ->
  (forall base_url lang, exists s', bosbase_client_new base_url lang s = Thrown e s') /\
  (exists s', bosbase_batch_new (Some cl) s = Thrown e s') /\
  (exists s', bosbase_auth_token (Some cl) s = Thrown e s') /\
  (exists s', bosbase_auth_record (Some cl) s = Thrown e s') /\
  (exists s', bosbase_auth_clear (Some cl) s = Thrown e s') /\
  (exists s', bosbase_pubsub_disconnect (Some cl) s = Thrown e s') /\
  (exists s', bosbase_subscription_cancel (Some sub) s = Thrown e s' /\
              subscriptions s' = subscriptions s).
Proof.
  intros Hcl Hsub Hthrow.
  split_and!; intros;
    unfold bosbase_client_new, bosbase_batch_new, bosbase_auth_token,
      bosbase_auth_record, bosbase_auth_clear, bosbase_pubsub_disconnect,
      bosbase_subscription_cancel, bind, client_impl, subscription_holder, call;
    cbv zeta; rewrite ?Hcl, ?Hsub; cbn [impl holder cancel];
    rewrite Hthrow; eauto.
Qed.

(** *** The auth store *)

(** X28.  With a live client and an inner library that does not throw,
    [bosbase_auth_save] saves the token given, or the empty token for a
    null one, with the parsed record, or an empty object when
    [record_json] is null or empty, and returns 0 without allocating
    anything; when the record does not parse it returns -1 and nothing
    is saved. *)
Theorem auth_save_marshals_token_and_record s cl pb token record_json out_error :
  clients s !! cl = Some {| impl := Some pb |} ->
  (forall t tr o, exists v, inner t tr o = inr v) ->
  (forall record,
      parse_json_or record_json (JObject ∅) = inr record ->
      exists s',
        bosbase_auth_save (Some cl) token record_json out_error s = Done 0 s' /\
        trace s' = trace s ++
          [Issued TVoid
             (AuthStore_save pb (match token with Some t => t | None => "" end)
                record)] /\
        heap s' = heap s /\ out_errors s' = out_errors s) /\
  (record_json = None \/ record_json = Some "" ->
   parse_json_or record_json (JObject ∅) = inr (JObject ∅)) /\
  (forall w,
      parse_json_or record_json (JObject ∅) = inl w ->
      exists s',
        bosbase_auth_save (Some cl) token record_json out_error s = Done (-1) s' /\
        trace s' = trace s).
Proof.
  intros Hcl Hreply. split_and!.
  - intros record Hr.
    assert (Hwp : wp (bosbase_auth_save (Some cl) token record_json out_error)
                    (fun z s' =>
                       z = 0 /\
                       trace s' = trace s ++
                         [Issued TVoid
                            (AuthStore_save pb (str_or token "") record)] /\
                       heap s' = heap s /\ out_errors s' = out_errors s)
                    never s).
    { on_client Hcl. wp_run; try done.
      all: match goal with
           | H : inner ?t ?tr ?o = inl _ |- _ =>
               destruct (Hreply t tr o) as [? ?]; congruence
           end. }
    destruct (wp_total _ _ _ Hwp) as (z & s' & Hrun & -> & Htr & Hrest).
    exists s'. split; [done|]. split; [|done]. rewrite Htr. by destruct token.
  - by intros [-> | ->].
  - intros w Hr.
    assert (Hwp : wp (bosbase_auth_save (Some cl) token record_json out_error)
                    (fun z s' => z = -1 /\ trace s' = trace s)
                    never s).
    { on_client Hcl. wp_run; done. }
    destruct (wp_total _ _ _ Hwp) as (z & s' & Hrun & -> & Htr). eauto.
Qed.

(** *** The other JSON texts *)

Ltac pick_document H :=
  repeat match goal with
         | H' : _ ∈ [] |- _ => by apply elem_of_nil in H'
         | H' : _ ∈ _ :: _ |- _ => apply elem_of_cons in H' as [H'|H']
         end;
  simplify_eq.

Lemma entry_rejects_unparsable_documents e s text w :
  ready s e ->
  (forall h n, out_of_memory h n = false) ->
  text <> "" ->
  json_parse text = inl w ->
  Some text ∈ documents_of e ->
  wp (run e) (fun z s' => z = -1 /\ failed_locally (out_error_of e) s s') never s.
Proof.
  intros Hready Hmem Hne Hbad Hin.
  assert (Hj : parse_json_or (Some text) (JObject ∅) = inl (std_exception w)).
  { destruct text; [done|]. unfold parse_json_or, parse. by rewrite Hbad. }
  assert (Hq : parse_query (Some text) = inl (std_exception w)).
  { destruct text; [done|]. unfold parse_query, parse. by rewrite Hbad. }
  destruct e as [client c|batch c].
  - destruct client as [cl|]; [|done]. destruct Hready as [pb Hcl].
    destruct c; cbn [documents_of documents_of_client] in Hin;
      pick_document Hin; cbn [run run_client]; unfold_entry.
    all: apply wp_bind, wp_client_impl; rewrite Hcl; cbn [impl].
    all: wp_run.
    all: local_leaf.
  - destruct batch as [b|]; [|done]. destruct Hready as (o & bs & Hb).
    destruct c; cbn [documents_of documents_of_batch] in Hin;
      pick_document Hin; cbn [run run_batch]; unfold_entry.
    all: apply wp_bind, wp_batch_service; rewrite Hb; cbn [batch_impl].
    all: wp_run.
    all: local_leaf.
Qed.

(** X29.  A call with a live handle, one of whose other JSON texts (a
    body, a record, a payload, ... or the parameters of
    [bosbase_filter]) is a non-empty text that does not parse, returns
    -1; no operation is issued to the inner library, the value
    out-parameter is untouched, and the error out-parameter, when given,
    receives an Error Value with status -1, is_abort 0, no URL and no
    response. *)
Theorem unparsable_document_is_a_local_error e s text w :
  ready s e ->
  (forall h n, out_of_memory h n = false) ->
  text <> "" ->
  json_parse text = inl w ->
  Some text ∈ documents_of e ->
  exists s',
    run e s = Done (-1) s' /\ failed_locally (out_error_of e) s s'.
Proof.
  intros Hready Hmem Hne Hbad Hin.
  destruct (wp_total _ _ _
              (entry_rejects_unparsable_documents e s text w Hready Hmem Hne
                 Hbad Hin))
    as (z & s' & Hrun & -> & Hlocal).
  eauto.
Qed.

(** *** Programs of calls *)

Lemma usable_framed e s z s' e' :
  framed e s z s' -> usable s e' -> usable s' e'.
Proof.
  intros (_ & Hc & Hb & _) Hlive.
  destruct e' as [[c|] ?|[b|] ?]; cbn in *; congruence.
Qed.

(** X30.  A status-returning call neither creates nor destroys a client
    or batch handle, so calls compose: any sequence of calls, each on a
    null handle or on a handle that is live at the start, runs to its
    end without undefined behaviour and without letting an exception
    out, returns one status per call, each 0 or -1, and leaves the same
    handles live. *)
Theorem calls_on_live_handles_compose calls s :
  Forall (usable s) calls ->
  exists zs s',
    run_all calls s = Done zs s' /\
    length zs = length calls /\
    Forall (fun z => z = 0 \/ z = -1) zs /\
    clients s' = clients s /\
    batches s' = batches s /\
    subscriptions s' = subscriptions s.
Proof.
  revert s. induction calls as [|e rest IH]; intros s Hlive.
  - exists [], s. by split_and!.
  - apply Forall_cons in Hlive as [He Hrest].
    destruct (wp_total _ _ _ (entry_framed e s He)) as (z & s1 & Hrun & Hframe).
    destruct (IH s1) as (zs & s2 & Hall & Hlen & Hzs & Hc & Hb & Hs).
    { eapply Forall_impl; [exact Hrest|]. intros e'. by eapply usable_framed. }
    destruct Hframe as (Hz & Hc1 & Hb1 & Hs1 & _).
    exists (z :: zs), s2. cbn [run_all]. unfold bind. rewrite Hrun, Hall.
    split_and!; try done; try congruence.
    + cbn. by rewrite Hlen.
    + by apply Forall_cons.
Qed.

End Boundary.

(** ** The properties at concrete inputs *)

(** A health check on the live client of [one_client], with both
    out-parameters given. *)
Lemma out_parameters_are_framed_witness :
  exists z s',
    run sample_parse sample_dump always_served 40 answering plain_path
      plain_SendOptions plain_FileAttachment
      (OnClient (Some 1%positive) (E_health_check None None (Some 5%positive) (Some 6%positive)))
      one_client = Done z s' /\
    (z = 0 \/ z = -1) /\
    (z = 0 -> out_errors s' = out_errors one_client).
Proof.
  destruct (out_parameters_are_framed sample_parse sample_dump always_served 40
              answering plain_path plain_SendOptions plain_FileAttachment
              (OnClient (Some 1%positive)
                 (E_health_check None None (Some 5%positive) (Some 6%positive)))
              one_client)
    as (z & s' & Hrun & Hz & Hok & _).
  - exists {| impl := Some 7%N |}. reflexivity.
  - exists z, s'. split; [exact Hrun|]. split; [exact Hz|exact Hok].
Defined.

(** The same health check with the array [[1]] as [query_json]. *)
Lemma malformed_parameter_is_a_local_error_witness :
  exists o s',
    perform sample_parse sample_dump always_served 40 answering plain_path
      plain_SendOptions plain_FileAttachment
      (Call (OnClient (Some 1%positive)
               (E_health_check (Some "[1]") None (Some 5%positive) (Some 6%positive))))
      one_client = Done o s' /\
    failure o /\
    failed_locally (Some 6%positive) one_client s'.
Proof.
  apply (malformed_parameter_is_a_local_error sample_parse sample_dump
           always_served 40 answering plain_path plain_SendOptions
           plain_FileAttachment
           (Call (OnClient (Some 1%positive)
                    (E_health_check (Some "[1]") None (Some 5%positive)
                       (Some 6%positive))))
           one_client "[1]").
  - exists 7%N. reflexivity.
  - reflexivity.
  - split; [discriminate|reflexivity].
  - left. reflexivity.
Defined.



(** [bosbase_auth_token] on the live client of [one_client]: the pointer
    returned is the inner client's token buffer, not a block of the heap,
    and [bosbase_free_string] on it is undefined. *)
Lemma auth_token_is_not_a_boundary_string :
  exists p s',
    bosbase_auth_token answering (Some 1%positive) one_client = Done p s' /\
    p = Internal 7 "text" /\
    heap s' = heap one_client /\
    ~ boundary_string one_client s' p /\
    bosbase_free_string p s' = Fault.
Proof.
  eexists _, _. split; [reflexivity|]. split; [reflexivity|].
  split; [reflexivity|]. split; [|reflexivity].
  intros (a & t & Hp & _). discriminate Hp.
Defined.

(** The health check and the two auth-store readers on [one_client]. *)
Lemma texts_are_boundary_strings_except_the_token_witness :
  (exists z s',
      run sample_parse sample_dump always_served 40 answering plain_path
        plain_SendOptions plain_FileAttachment
        (OnClient (Some 1%positive)
           (E_health_check None None (Some 5%positive) (Some 6%positive)))
        one_client = Done z s') /\
  (forall p s',
      bosbase_auth_token answering (Some 1%positive) one_client = Done p s' ->
      bosbase_free_string p s' = Fault).
Proof.
  destruct (texts_are_boundary_strings_except_the_token sample_parse sample_dump
              always_served 40 answering plain_path plain_SendOptions
              plain_FileAttachment
              (OnClient (Some 1%positive)
                 (E_health_check None None (Some 5%positive) (Some 6%positive)))
              (Some 1%positive) one_client)
    as ((z & s' & Hrun & _) & _ & Htoken).
  - exists {| impl := Some 7%N |}. reflexivity.
  - split; [exists z, s'; exact Hrun|].
    intros p s1 Hp. destruct (Htoken p s1 Hp) as (_ & _ & _ & Hfree).
    exact Hfree.
Defined.

(** The Error Value of [one_error]. *)
Lemma release_operations_witness :
  exists s',
    bosbase_free_error (Some 2%positive) one_error = Done tt s' /\
    heap s' = ∅.
Proof.
  destruct (release_operations sample_dump always_served 40 one_error
              2%positive sample_error)
    as (_ & _ & Hrelease & _).
  destruct Hrelease as (s' & Hrun & Hheap & _).
  - split; [reflexivity|]. split; [exact I|]. split; [by eexists|].
    split; [exact I|]. cbn.
    apply NoDup_cons_2; [by intros ?%list_elem_of_singleton|].
    apply NoDup_singleton.
  - exists s'. split; [exact Hrun|]. rewrite Hheap. by vm_compute.
Defined.

(** A cache entry set and renewed with a TTL of -1, all texts null. *)
Lemma ttl_is_marshalled_witness :
  exists z s',
    bosbase_cache_set_entry sample_parse sample_dump always_served 40 answering
      (Some 1%positive) (Some "c") (Some "k") None (-1) None None None
      (Some 5%positive) (Some 6%positive) one_client = Done z s' /\
    trace s' =
      [Issued TJson
         (Caches_setEntry 7 "c" "k" (JObject ∅) None (JObject ∅) ∅ ∅)].
Proof.
  destruct (ttl_is_marshalled sample_parse sample_dump always_served 40
              answering one_client 1%positive 7%N (Some "c") (Some "k") None
              (-1) None None None (Some 5%positive) (Some 6%positive)
              (JObject ∅) (JObject ∅) ∅ ∅)
    as (ttl & Hneg & _ & (z & s' & Hrun & Htrace) & _);
    try reflexivity.
  exists z, s'. split; [exact Hrun|]. rewrite Htrace, Hneg by lia. reflexivity.
Defined.



(** The subscription of [one_subscription]. *)
Lemma cancel_is_the_destructor_witness :
  exists s',
    bosbase_subscription_cancel answering (Some 3%positive) one_subscription
    = Done tt s' /\
    trace s' = [Issued TVoid (Cancel_invoke 11)] /\
    subscriptions s' !! 3%positive = None /\
    bosbase_subscription_cancel answering (Some 3%positive) s' = Fault.
Proof.
  destruct (cancel_is_the_destructor sample_parse sample_dump always_served 40
              answering plain_path plain_SendOptions plain_FileAttachment
              one_subscription 3%positive {| cancel := Some 11%N |})
    as (_ & Hcancel & _).
  destruct Hcancel as (s' & Hrun & Htrace & _ & Hgone & Hagain);
    try reflexivity.
  exists s'. split; [exact Hrun|]. split; [exact Htrace|].
  split; [exact Hgone|exact Hagain].
Defined.

(** A health check on a null client, with both out-parameters given. *)
Lemma null_handle_writes_nothing_witness :
  exists s',
    run sample_parse sample_dump always_served 40 answering plain_path
      plain_SendOptions plain_FileAttachment
      (OnClient None (E_health_check None None (Some 5%positive) (Some 6%positive)))
      one_client = Done (-1) s' /\
    out_values s' = out_values one_client /\
    out_errors s' = out_errors one_client.
Proof.
  destruct (null_handle_writes_nothing sample_parse sample_dump always_served 40
              answering plain_path plain_SendOptions plain_FileAttachment
              (OnClient None
                 (E_health_check None None (Some 5%positive) (Some 6%positive)))
              one_client)
    as (s' & Hrun & Hv & He & _).
  - exact I.
  - exists s'. split; [exact Hrun|]. split; [exact Hv|exact He].
Defined.

(** ** The further properties at concrete inputs *)

(** The query text [{"page":5}]. *)
Lemma parse_query_returns_the_members_witness :
  parse_query sample_parse (Some page_five_text)
  = inr {["page" := JInt 5]}.
Proof.
  apply (parse_query_returns_the_members sample_parse page_five_text).
  - discriminate.
  - reflexivity.
Defined.

(** The same text as headers: the integer is serialised. *)
Lemma parse_headers_keeps_strings_and_dumps_the_rest_witness :
  exists headers,
    parse_headers sample_parse sample_dump (Some page_five_text) = inr headers /\
    headers !! "page" = Some "{}".
Proof.
  destruct (parse_headers_keeps_strings_and_dumps_the_rest sample_parse
              sample_dump page_five_text {["page" := JInt 5]})
    as (headers & Hrun & Hkeys).
  - discriminate.
  - reflexivity.
  - exists headers. split; [exact Hrun|]. rewrite Hkeys. reflexivity.
Defined.

(** The first of two files. *)
Lemma convert_files_takes_the_first_len_witness :
  length (convert_files plain_FileAttachment (Some [sample_file; sample_file]) 1)
  = 1%nat.
Proof.
  destruct (convert_files_takes_the_first_len plain_FileAttachment
              [sample_file; sample_file] 1)
    as (Hlen & _).
  - cbn. lia.
  - exact Hlen.
Defined.

(** A wrapped call that returns the empty object. *)
Lemma wrap_json_hands_out_the_serialisation_witness :
  exists p s2,
    wrap_json sample_dump always_served 40 (ret (JObject ∅)) (Some 5%positive)
      (Some 6%positive) one_client = Done 0 s2 /\
    out_values s2 = <[5%positive := p]> (out_values one_client) /\
    text_at s2 p = Some "{}".
Proof.
  destruct (wrap_json_hands_out_the_serialisation sample_dump always_served 40
              (ret (JObject ∅)) 5%positive (Some 6%positive) one_client
              (JObject ∅) one_client)
    as (_ & p & s2 & Hrun & Hval & _ & _ & Htext).
  - reflexivity.
  - exists p, s2. split; [exact Hrun|]. split; [exact Hval|].
    destruct Htext as [_ Htext]. exact Htext.
Defined.

(** A wrapped call that throws a standard exception. *)
Lemma wrappers_translate_exceptions_witness :
  exists s2 err,
    wrap_void sample_dump always_served 40 (throw (std_exception "boom"))
      (Some 6%positive) one_client = Done (-1) s2 /\
    error_at s2 6%positive = Some err /\
    status err = -1 /\
    text_at s2 (message err) = Some "boom".
Proof.
  destruct (wrappers_translate_exceptions sample_dump always_served 40
              6%positive one_client (std_exception "boom") one_client)
    as [Hvoid _].
  - reflexivity.
  - destruct (Hvoid (throw (std_exception "boom")) eq_refl)
      as (s2 & Hrun & _ & _ & err & Herr & Hst & _ & _ & _ & Hmsg).
    exists s2, err. split; [exact Hrun|]. split; [exact Herr|].
    split; [exact Hst|exact Hmsg].
Defined.

(** A download URL asked of an inner library that answers 400. *)
Lemma string_builders_flatten_every_exception_witness :
  exists s' err,
    bosbase_backup_get_download_url always_served 40 refusing (Some 1%positive)
      (Some "token") (Some "key") (Some 5%positive) (Some 6%positive) one_client
    = Done (-1) s' /\
    error_at s' 6%positive = Some err /\
    status err = -1 /\ url err = Null.
Proof.
  destruct (string_builders_flatten_every_exception sample_parse always_served
              40 refusing one_client 1%positive 7%N 6%positive
              (ClientResponseError bad_request))
    as [_ Hurl].
  - reflexivity.
  - reflexivity.
  - reflexivity.
  - destruct (Hurl (Some "token") (Some "key") (Some 5%positive))
      as (s' & Hrun & _ & err & Herr & Hst & _ & Hu & _).
    exists s', err. split; [exact Hrun|]. split; [exact Herr|].
    split; [exact Hst|exact Hu].
Defined.

(** A health check whose query is the array [[1]]. *)
Lemma a_failed_call_leaves_one_releasable_error_witness :
  exists z s',
    run sample_parse sample_dump always_served 40 answering plain_path
      plain_SendOptions plain_FileAttachment
      (OnClient (Some 1%positive)
         (E_health_check (Some "[1]") None (Some 5%positive) (Some 6%positive)))
      one_client = Done z s' /\
    (z = -1 ->
     exists v s'',
       bosbase_free_error v s' = Done tt s'' /\ heap s'' = heap one_client).
Proof.
  destruct (a_failed_call_leaves_one_releasable_error sample_parse sample_dump
              always_served 40 answering plain_path plain_SendOptions
              plain_FileAttachment
              (OnClient (Some 1%positive)
                 (E_health_check (Some "[1]") None (Some 5%positive)
                    (Some 6%positive)))
              one_client 6%positive)
    as (z & s' & Hrun & Hfail).
  - exists 7%N. reflexivity.
  - reflexivity.
  - exists z, s'. split; [exact Hrun|]. intros Hz.
    destruct (Hfail Hz) as (v & s'' & _ & Hfree & Hheap).
    exists v, s''. split; [exact Hfree|exact Hheap].
Defined.

(** A health check on the live client of [one_client]. *)
Lemma a_call_issues_at_most_one_operation_witness :
  exists z s',
    run sample_parse sample_dump always_served 40 answering plain_path
      plain_SendOptions plain_FileAttachment
      (OnClient (Some 1%positive)
         (E_health_check None None (Some 5%positive) (Some 6%positive)))
      one_client = Done z s'.
Proof.
  destruct (a_call_issues_at_most_one_operation sample_parse sample_dump
              always_served 40 answering plain_path plain_SendOptions
              plain_FileAttachment
              (OnClient (Some 1%positive)
                 (E_health_check None None (Some 5%positive) (Some 6%positive)))
              one_client)
    as (z & s' & Hrun & _).
  - exists {| impl := Some 7%N |}. reflexivity.
  - exists z, s'. exact Hrun.
Defined.

(** A request with a null path, an empty method and a timeout of 0. *)
Lemma send_marshals_its_options_witness :
  exists z s' opts,
    bosbase_send sample_parse sample_dump always_served 40 answering
      plain_SendOptions plain_FileAttachment (Some 1%positive) None (Some "")
      None None None 0 None 0 (Some 5%positive) (Some 6%positive) one_client
    = Done z s' /\
    trace s' = [Issued TJson (BosBase_send 7 "/" opts)] /\
    bosbase.method opts = "GET" /\
    bosbase.timeoutMs opts = None.
Proof.
  destruct (send_marshals_its_options sample_parse sample_dump always_served 40
              answering plain_SendOptions plain_FileAttachment one_client
              1%positive 7%N None (Some "") None None None 0 None 0%nat
              (Some 5%positive) (Some 6%positive) (JObject ∅) ∅ ∅)
    as (z & s' & opts & Hrun & Htr & Hm & _ & _ & _ & _ & Ht & _);
    try reflexivity.
  exists z, s', opts. split; [exact Hrun|]. split; [exact Htr|].
  split; [exact Hm|]. apply Ht. lia.
Defined.

(** A file URL asked with [download = 2]. *)
Lemma files_get_url_marshals_the_download_flag_witness :
  exists z s',
    bosbase_files_get_url sample_parse sample_dump always_served 40 answering
      (Some 1%positive) None (Some "a.png") None None 2 None (Some 5%positive)
      (Some 6%positive) one_client = Done z s' /\
    trace s' =
      [Issued TString (Files_getURL 7 (JObject ∅) "a.png" None None None ∅)].
Proof.
  destruct (files_get_url_marshals_the_download_flag sample_parse sample_dump
              always_served 40 answering one_client 1%positive 7%N None
              (Some "a.png") None None 2 None (Some 5%positive)
              (Some 6%positive) (JObject ∅) ∅)
    as (z & s' & dl & Hrun & Htr & _ & _ & Hdl);
    try reflexivity.
  exists z, s'. split; [exact Hrun|]. rewrite Htr, Hdl by lia. reflexivity.
Defined.

(** A download URL asked of the inner library that answers ["text"]. *)
Lemma string_results_are_handed_out_as_they_are_witness :
  exists p s',
    bosbase_backup_get_download_url always_served 40 answering (Some 1%positive)
      (Some "token") (Some "key") (Some 5%positive) (Some 6%positive) one_client
    = Done 0 s' /\
    text_at s' p = Some "text".
Proof.
  destruct (string_results_are_handed_out_as_they_are sample_parse sample_dump
              always_served 40 answering one_client 1%positive 7%N 5%positive
              "text")
    as (_ & _ & Hurl).
  - reflexivity.
  - reflexivity.
  - reflexivity.
  - destruct (Hurl (Some "token") (Some "key") (Some 6%positive))
      as (p & s' & Hrun & _ & Htext).
    exists p, s'. split; [exact Hrun|exact Htext].
Defined.

(** A cache created with an empty body. *)
Lemma cache_create_reads_three_integers_from_the_body_witness :
  exists z s',
    bosbase_cache_create sample_parse sample_dump always_served 40 answering
      (Some 1%positive) (Some "c") None None None (Some 5%positive)
      (Some 6%positive) one_client = Done z s' /\
    trace s' =
      [Issued TJson (Caches_create 7 "c" None None None (JObject ∅) ∅ ∅)].
Proof.
  destruct (cache_create_reads_three_integers_from_the_body sample_parse
              sample_dump always_served 40 answering one_client 1%positive 7%N
              (Some "c") None None None (Some 5%positive) (Some 6%positive)
              (JObject ∅) ∅ ∅)
    as (z & s' & Hrun & Htr);
    try reflexivity.
  exists z, s'. split; [exact Hrun|]. rewrite Htr. reflexivity.
Defined.

(** A statement run by the inner library that answers no columns, no
    rows and no count. *)
Lemma sql_execute_hands_out_columns_and_rows_witness :
  exists s' p payload,
    bosbase_sql_execute sample_parse sample_dump always_served 40 answering
      (Some 1%positive) (Some "select 1") None None (Some 5%positive)
      (Some 6%positive) one_client = Done 0 s' /\
    text_at s' p = Some (sample_dump (JObject payload)) /\
    payload !! "rowsAffected" = None.
Proof.
  destruct (sql_execute_hands_out_columns_and_rows sample_parse sample_dump
              always_served 40 answering one_client 1%positive 7%N
              (Some "select 1") None None 5%positive (Some 6%positive) ∅ ∅
              (sample_reply TSql))
    as (s' & p & payload & Hrun & _ & Htext & _ & _ & Hn & _);
    try reflexivity.
  exists s', p, payload. split; [exact Hrun|]. split; [exact Htext|exact Hn].
Defined.

(** A message published through the inner library of [answering]. *)
Lemma pubsub_publish_hands_out_the_message_witness :
  exists s' p payload,
    bosbase_pubsub_publish sample_parse sample_dump always_served 40 answering
      (Some 1%positive) (Some "topic") None (Some 5%positive)
      (Some 6%positive) one_client = Done 0 s' /\
    text_at s' p = Some (sample_dump (JObject payload)) /\
    payload !! "id" = Some (JString "1").
Proof.
  destruct (pubsub_publish_hands_out_the_message sample_parse sample_dump
              always_served 40 answering one_client 1%positive 7%N
              (Some "topic") None 5%positive (Some 6%positive) (JObject ∅)
              (sample_reply TMessage))
    as (s' & p & payload & Hrun & _ & Htext & Hid & _);
    try reflexivity.
  exists s', p, payload. split; [exact Hrun|]. split; [exact Htext|exact Hid].
Defined.

(** An upload without a file, with the array [[1]] as query. *)
Lemma backup_upload_requires_a_file_witness :
  exists s' err,
    bosbase_backup_upload sample_parse sample_dump always_served 40 answering
      plain_FileAttachment (Some 1%positive) None (Some "[1]") None
      (Some 5%positive) (Some 6%positive) one_client = Done (-1) s' /\
    error_at s' 6%positive = Some err /\
    text_at s' (message err) = Some "file is required for backup upload".
Proof.
  destruct (backup_upload_requires_a_file sample_parse sample_dump always_served
              40 answering plain_FileAttachment one_client 1%positive 7%N
              (Some "[1]") None (Some 5%positive) 6%positive (Some 6%positive))
    as [(s' & err & Hrun & _ & _ & Herr & _ & _ & _ & _ & Hmsg) _].
  - reflexivity.
  - reflexivity.
  - exists s', err. split; [exact Hrun|]. split; [exact Herr|exact Hmsg].
Defined.

(** A collection created with the metadata text [null]. *)
Lemma llm_create_collection_sends_an_object_witness :
  exists z s' opts,
    bosbase_llm_create_collection sample_parse sample_dump always_served 40
      answering plain_path plain_SendOptions (Some 1%positive) (Some "docs")
      (Some "null") None None (Some 6%positive) one_client = Done z s' /\
    trace s' =
      [Issued TJson (BosBase_send 7 "/api/llm-documents/collections/docs" opts)] /\
    bosbase.body opts = JObject ∅.
Proof.
  destruct (llm_create_collection_sends_an_object sample_parse sample_dump
              always_served 40 answering plain_path plain_SendOptions one_client
              1%positive 7%N (Some "docs") (Some "null") None None
              (Some 6%positive) JNull ∅ ∅)
    as (z & s' & opts & Hrun & Htr & _ & Hbody & _);
    try reflexivity.
  exists z, s', opts. split; [exact Hrun|]. split; [exact Htr|exact Hbody].
Defined.

(** A pub/sub subscription without a callback on the live client. *)
Lemma subscribe_refuses_a_null_callback_silently_witness :
  bosbase_pubsub_subscribe sample_dump always_served 40 answering
    (Some 1%positive) (Some "topic") None 0 (Some 6%positive) one_client
  = Done None one_client.
Proof.
  destruct (subscribe_refuses_a_null_callback_silently sample_parse sample_dump
              always_served 40 answering (Some 1%positive) one_client)
    as [_ Hpubsub].
  - exists {| impl := Some 7%N |}. reflexivity.
  - apply Hpubsub.
Defined.

(** A subscription to a collection with a null topic. *)
Lemma subscribe_keeps_what_the_library_returns_witness :
  exists sub s',
    bosbase_collection_subscribe sample_parse sample_dump always_served 40
      answering (Some 1%positive) (Some "posts") None (Some 21%N) 0 None None
      (Some 6%positive) one_client = Done (Some sub) s' /\
    subscriptions s' =
      <[sub := {| holder := Some {| cancel := Some 11%N |} |}]>
        (subscriptions one_client).
Proof.
  destruct (subscribe_keeps_what_the_library_returns sample_parse sample_dump
              always_served 40 answering one_client 1%positive 7%N
              (Some "posts") None 21%N 0 None None (Some 6%positive) ∅ ∅
              (Some 11%N))
    as [(sub & s' & Hrun & _ & _ & Hsub & _) _];
    try reflexivity.
  exists sub, s'. split; [exact Hrun|exact Hsub].
Defined.

(** A pub/sub subscription on the live client, then cancelled. *)
Lemma cancel_undoes_subscribe_witness :
  exists sub s1 s2,
    run_subscribe sample_parse sample_dump always_served 40 answering
      (Some 1%positive) (S_pubsub_subscribe (Some "topic") (Some 21%N) 0 None)
      one_client = Done (Some sub) s1 /\
    bosbase_subscription_cancel answering (Some sub) s1 = Done tt s2 /\
    subscriptions s2 = subscriptions one_client.
Proof.
  assert (Hrun : exists sub s1,
             run_subscribe sample_parse sample_dump always_served 40 answering
               (Some 1%positive)
               (S_pubsub_subscribe (Some "topic") (Some 21%N) 0 None)
               one_client = Done (Some sub) s1)
    by (eexists _, _; reflexivity).
  destruct Hrun as (sub & s1 & Hrun).
  destruct (cancel_undoes_subscribe sample_parse sample_dump always_served 40
              answering (Some 1%positive)
              (S_pubsub_subscribe (Some "topic") (Some 21%N) 0 None)
              one_client sub s1 Hrun)
    as (pre & o & k & s2 & _ & _ & Hcancel & _ & Hsub & _).
  - reflexivity.
  - exists sub, s1, s2. split; [exact Hrun|]. split; [exact Hcancel|exact Hsub].
Defined.

(** An event delivered to a callback that looks at nothing. *)
Lemma record_listener_lends_the_event_witness :
  exists s',
    record_listener sample_dump always_served quiet_record_cb sample_listener
      (JObject ∅) one_client = Done tt s' /\
    heap s' = heap one_client.
Proof.
  destruct (record_listener_lends_the_event sample_dump always_served
              quiet_record_cb sample_listener (JObject ∅) one_client)
    as (p & s0 & s1 & _ & _ & _ & Hrun).
  - intros p s0. exists s0. split; reflexivity.
  - eexists. split; [exact Hrun|reflexivity].
Defined.

(** A message delivered to a callback that looks at nothing. *)
Lemma pubsub_listener_lends_the_data_witness :
  exists s',
    pubsub_listener sample_dump always_served quiet_pubsub_cb sample_listener
      (sample_reply TMessage) one_client = Done tt s' /\
    heap s' = heap one_client.
Proof.
  destruct (pubsub_listener_lends_the_data sample_dump always_served
              quiet_pubsub_cb sample_listener (sample_reply TMessage) one_client)
    as (p & s0 & s1 & _ & _ & _ & Hrun).
  - intros p s0. exists s0. split; reflexivity.
  - eexists. split; [exact Hrun|reflexivity].
Defined.

(** An event delivered to a callback that releases it. *)
Lemma a_callback_must_not_release_the_event_witness :
  record_listener sample_dump always_served
    (fun _ p _ => bosbase_free_string p) sample_listener (JObject ∅) one_client
  = Fault.
Proof.
  apply (a_callback_must_not_release_the_event sample_dump always_served
           sample_listener (JObject ∅) one_client).
  reflexivity.
Defined.

(** A client made with null arguments beside the one of [one_client]. *)
Lemma client_new_then_free_witness :
  exists c s1 s2,
    bosbase_client_new answering None None one_client = Done (Some c) s1 /\
    trace s1 = [Issued TClient (BosBase_new "/" "en-US")] /\
    bosbase_client_free (Some c) s1 = Done tt s2 /\
    clients s2 = clients one_client.
Proof.
  destruct (client_new_then_free answering None None one_client 7%N)
    as (_ & Hmade).
  destruct Hmade as (c & s1 & s2 & Hnew & _ & _ & Htr & _ & Hfree & Hcl & _).
  - reflexivity.
  - exists c, s1, s2. split; [exact Hnew|]. split; [exact Htr|].
    split; [exact Hfree|exact Hcl].
Defined.

(** A batch made on the live client of [one_client]. *)
Lemma batch_new_then_free_witness :
  exists b s1 s2,
    bosbase_batch_new answering (Some 1%positive) one_client = Done (Some b) s1 /\
    bosbase_batch_free (Some b) s1 = Done tt s2 /\
    batches s2 = batches one_client.
Proof.
  destruct (batch_new_then_free answering one_client 1%positive 7%N)
    as (_ & _ & Hlive).
  destruct Hlive as (_ & Hnew).
  - reflexivity.
  - destruct (Hnew 9%N) as (b & s1 & s2 & Hrun & _ & _ & _ & Hfree & Hb).
    + reflexivity.
    + exists b, s1, s2. split; [exact Hrun|]. split; [exact Hfree|exact Hb].
Defined.

(** The live subscription cancelled while the inner library answers 400. *)
Lemma exceptions_leave_the_unguarded_entry_points_witness :
  exists s',
    bosbase_subscription_cancel refusing (Some 3%positive)
      client_and_subscription = Thrown (ClientResponseError bad_request) s' /\
    subscriptions s' = subscriptions client_and_subscription.
Proof.
  destruct (exceptions_leave_the_unguarded_entry_points sample_dump
              always_served refusing client_and_subscription 1%positive 7%N
              3%positive 11%N (ClientResponseError bad_request))
    as (_ & _ & _ & _ & _ & _ & Hcancel).
  - reflexivity.
  - reflexivity.
  - reflexivity.
  - exact Hcancel.
Defined.

(** A token saved without a record. *)
Lemma auth_save_marshals_token_and_record_witness :
  exists s',
    bosbase_auth_save sample_parse sample_dump always_served 40 answering
      (Some 1%positive) (Some "token") None (Some 6%positive) one_client
    = Done 0 s' /\
    trace s' = [Issued TVoid (AuthStore_save 7 "token" (JObject ∅))].
Proof.
  destruct (auth_save_marshals_token_and_record sample_parse sample_dump
              always_served 40 answering one_client 1%positive 7%N
              (Some "token") None (Some 6%positive))
    as (Hsave & _).
  - reflexivity.
  - intros t tr o. eexists. reflexivity.
  - destruct (Hsave (JObject ∅) eq_refl) as (s' & Hrun & Htr & _).
    exists s'. split; [exact Hrun|exact Htr].
Defined.

(** A record created with a body that does not parse. *)
Lemma unparsable_document_is_a_local_error_witness :
  exists s',
    run sample_parse sample_dump always_served 40 answering plain_path
      plain_SendOptions plain_FileAttachment
      (OnClient (Some 1%positive)
         (E_collection_create (Some "posts") (Some "{") None 0 None None None
            None (Some 5%positive) (Some 6%positive)))
      one_client = Done (-1) s' /\
    failed_locally (Some 6%positive) one_client s'.
Proof.
  apply (unparsable_document_is_a_local_error sample_parse sample_dump
           always_served 40 answering plain_path plain_SendOptions
           plain_FileAttachment
           (OnClient (Some 1%positive)
              (E_collection_create (Some "posts") (Some "{") None 0%nat None
                 None None None (Some 5%positive) (Some 6%positive)))
           one_client "{" "syntax error").
  - exists 7%N. reflexivity.
  - reflexivity.
  - discriminate.
  - reflexivity.
  - apply list_elem_of_singleton. reflexivity.
Defined.

(** Two health checks, the second on a null client. *)
Lemma calls_on_live_handles_compose_witness :
  exists zs s',
    run_all sample_parse sample_dump always_served 40 answering plain_path
      plain_SendOptions plain_FileAttachment
      [OnClient (Some 1%positive)
         (E_health_check None None (Some 5%positive) (Some 6%positive));
       OnClient None
         (E_health_check None None (Some 5%positive) (Some 6%positive))]
      one_client = Done zs s' /\
    length zs = 2%nat.
Proof.
  destruct (calls_on_live_handles_compose sample_parse sample_dump always_served
              40 answering plain_path plain_SendOptions plain_FileAttachment
              [OnClient (Some 1%positive)
                 (E_health_check None None (Some 5%positive) (Some 6%positive));
               OnClient None
                 (E_health_check None None (Some 5%positive) (Some 6%positive))]
              one_client)
    as (zs & s' & Hrun & Hlen & _).
  - apply Forall_cons. split; [exists {| impl := Some 7%N |}; reflexivity|].
    apply Forall_cons. split; [exact I|]. apply Forall_nil. exact I.
  - exists zs, s'. split; [exact Hrun|exact Hlen].
Defined.
